(** * Zowe client Go SDK: a shallow embedding and its verified properties

    The development follows the layout of the Go packages:
    - [GoStrings]: the functions of Go's [strings] and [fmt]/[strconv]
      packages the SDK calls;
    - [Profile]: [pkg/profile] (profiles, sessions, header mutation);
    - [Regexp], [Json], [HTTP]: the parts of [regexp], [encoding/json],
      [net/http] and [net/url] the SDK depends on, and the world outside
      the process (the server and the clock);
    - [Jobs]: [pkg/jobs] (manager and convenience functions);
    - [Datasets]: the validation helpers of [pkg/datasets];
      [DatasetManager1] and [DatasetManager2]: the two copies of the
      dataset manager that the sources hold;
    - [Mock]: a scripted server and plain library functions, to run the
      model on concrete inputs;
    - [DatasetsSpec], [JobsSpec]: the specification's wording of the
      properties;
    - [ProfileUtils], [JobsManager], [JobsConvenience], [DatasetRequests],
      [DatasetOperations], [ProfileManager]: further functions of the
      three packages, the profile manager with the file system as its
      world;
    - [RequestsSpec], [ConfigSpec], [MockConfig]: the wording of their
      properties and a file system to run the profile manager.
    The properties follow the definitions.

    Go strings are byte sequences; they are modelled by [string], whose
    characters are the 256 byte values. Go's [int] and [time.Duration] are
    modelled by [Z]. A Go function returning [(T, error)] is modelled by a
    function into [result T], and one returning [error] by a function into
    [option string]; an error is represented by its message, as the SDK
    builds all its errors with [fmt.Errorf]. A function that reaches the
    network takes the state of the world and returns the new one. *)

From Stdlib Require Import ZArith Ascii String List Bool Lia.
From stdpp Require Import base option gmap strings list pretty.

Set Warnings "-register-all".
Local Open Scope Z_scope.

(** ** Results and errors *)

Inductive result (A : Type) : Type :=
  | Ok (a : A)
  | Err (msg : string).
Arguments Ok {A} a.
Arguments Err {A} msg.

(** ** Go's [strings], [fmt] and [strconv] *)

Module GoStrings.

(** [len(s)]: the number of bytes. *)
Definition len (s : string) : Z := Z.of_nat (String.length s).

(** [strings.HasPrefix]. *)
Fixpoint HasPrefix (s prefix : string) {struct prefix} : bool :=
  match prefix, s with
  | EmptyString, _ => true
  | String _ _, EmptyString => false
  | String p prefix', String c s' =>
      if Ascii.eqb c p then HasPrefix s' prefix' else false
  end.

(** [strings.Contains]: [substr] occurs in [s] at some byte offset. *)
Fixpoint Contains (s substr : string) : bool :=
  HasPrefix s substr ||
  match s with
  | EmptyString => false
  | String _ s' => Contains s' substr
  end.

(** [strings.HasSuffix]. *)
Fixpoint HasSuffix (s suffix : string) : bool :=
  String.eqb s suffix ||
  match s with
  | EmptyString => false
  | String _ s' => HasSuffix s' suffix
  end.

Definition byte_in (lo hi c : ascii) : bool :=
  (N.leb (N_of_ascii lo) (N_of_ascii c)) && (N.leb (N_of_ascii c) (N_of_ascii hi)).

Definition is_ascii_byte (c : ascii) : bool :=
  N.ltb (N_of_ascii c) 128.

Definition upper_byte (c : ascii) : ascii :=
  if byte_in "a" "z" c then ascii_of_N (N_of_ascii c - 32) else c.

Definition lower_byte (c : ascii) : ascii :=
  if byte_in "A" "Z" c then ascii_of_N (N_of_ascii c + 32) else c.

Fixpoint map_bytes (f : ascii -> ascii) (s : string) : string :=
  match s with
  | EmptyString => EmptyString
  | String c s' => String (f c) (map_bytes f s')
  end.

Fixpoint isASCII (s : string) : bool :=
  match s with
  | EmptyString => true
  | String c s' => is_ascii_byte c && isASCII s'
  end.

(** [strings.ToUpper]. Go's implementation has two paths: a string made of
    ASCII bytes only is upper-cased byte by byte; any other string goes
    through [strings.Map(unicode.ToUpper, s)], which depends on the Unicode
    case tables. The second path is the parameter [unicodeUpper]. *)
Definition ToUpper (unicodeUpper : string -> string) (s : string) : string :=
  if isASCII s then map_bytes upper_byte s else unicodeUpper s.

(** [fmt.Sprintf("%d", n)] and [strconv.Itoa(n)]: the decimal numeral,
    with a minus sign for negative numbers. *)
Definition Itoa (n : Z) : string := pretty n.

End GoStrings.

(** ** Package [profile] *)

Module Profile.

(** [ZOSMFProfile]. The fields are those the session builder reads;
    [Protocol] is empty when the profile names no protocol. *)
Record ZOSMFProfile : Type := {
  Name : string;
  Host : string;
  Port : Z;
  User : string;
  Password : string;
  RejectUnauthorized : bool;
  BasePath : string;
  Protocol : string
}.

(** [tls.Config], [http.Transport] and [http.Client], reduced to the
    fields [NewSession] sets. Durations are in nanoseconds. *)
Record Client : Type := {
  InsecureSkipVerify : bool;
  Timeout : Z
}.

Definition Second : Z := 1000000000.

(** [Session]. [SProfile] is the pointer to the profile the session was
    derived from and [Headers] the header map; both may be [nil] ([None]) in
    a session built as a struct literal. The HTTP client is taken to be
    there, as it is in every session [NewSession] builds. *)
Record Session : Type := {
  SProfile : option ZOSMFProfile;
  SHost : string;
  SPort : Z;
  SUser : string;
  SPassword : string;
  BaseURL : string;
  HTTPClient : Client;
  Headers : option (gmap string string)
}.

(** [NewSession], a method of the profile returning a session and an error. *)
Definition NewSession (p : ZOSMFProfile) : result Session :=
  let client :=
    {| InsecureSkipVerify := negb (RejectUnauthorized p);
       Timeout := 30 * Second |} in
  let protocol := Protocol p in
  let protocol := if String.eqb protocol "" then "https" else protocol in
  let protocol :=
    if Port p =? 80 then "http"
    else if Port p =? 8080 then "http"
    else protocol in
  let baseURL := protocol +:+ "://" +:+ Host p in
  let baseURL :=
    if negb (Port p =? 0) && negb (Port p =? 80) && negb (Port p =? 443)
    then baseURL +:+ ":" +:+ GoStrings.Itoa (Port p)
    else baseURL in
  let baseURL :=
    if negb (String.eqb (BasePath p) "") then baseURL +:+ BasePath p
    else baseURL in
  let headers : gmap string string :=
    <["Accept" := "application/json"]>
      (<["Content-Type" := "application/json"]> ∅) in
  Ok {| SProfile := Some p;
        SHost := Host p;
        SPort := Port p;
        SUser := User p;
        SPassword := Password p;
        BaseURL := baseURL;
        HTTPClient := client;
        Headers := Some headers |}.

(** The copy of [NewSession] in the file that declares the types. Its
    profile has no [Protocol] field, and the protocol starts as ["https"]. *)
Definition NewSession0 (p : ZOSMFProfile) : result Session :=
  let client :=
    {| InsecureSkipVerify := negb (RejectUnauthorized p);
       Timeout := 30 * Second |} in
  let protocol := "https" in
  let protocol :=
    if Port p =? 80 then "http"
    else if Port p =? 8080 then "http"
    else protocol in
  let baseURL := protocol +:+ "://" +:+ Host p in
  let baseURL :=
    if negb (Port p =? 0) && negb (Port p =? 80) && negb (Port p =? 443)
    then baseURL +:+ ":" +:+ GoStrings.Itoa (Port p)
    else baseURL in
  let baseURL :=
    if negb (String.eqb (BasePath p) "") then baseURL +:+ BasePath p
    else baseURL in
  let headers : gmap string string :=
    <["Accept" := "application/json"]>
      (<["Content-Type" := "application/json"]> ∅) in
  Ok {| SProfile := Some p;
        SHost := Host p;
        SPort := Port p;
        SUser := User p;
        SPassword := Password p;
        BaseURL := baseURL;
        HTTPClient := client;
        Headers := Some headers |}.

Definition GetBaseURL (s : Session) : string := BaseURL s.
Definition GetHTTPClient (s : Session) : Client := HTTPClient s.
Definition GetHeaders (s : Session) : option (gmap string string) := Headers s.

Definition set_Headers (h : option (gmap string string)) (s : Session) : Session :=
  {| SProfile := SProfile s; SHost := SHost s; SPort := SPort s;
     SUser := SUser s; SPassword := SPassword s; BaseURL := BaseURL s;
     HTTPClient := HTTPClient s; Headers := h |}.

(** [func (s *Session) AddHeader(key, value string)]: [s.Headers[key] = value].
    The session is mutated in place; the model returns the new state.
    Assigning into a [nil] map panics in Go: the result is then [None] and
    the session is left as it was. *)
Definition AddHeader (key value : string) (s : Session) : option Session :=
  match Headers s with
  | Some h => Some (set_Headers (Some (<[key := value]> h)) s)
  | None => None
  end.

(** [func (s *Session) RemoveHeader(key string)]: [delete(s.Headers, key)],
    which does nothing on a [nil] map. *)
Definition RemoveHeader (key : string) (s : Session) : Session :=
  match Headers s with
  | Some h => set_Headers (Some (delete key h)) s
  | None => s
  end.

(** A caller's sequence of header mutations on one session. *)
Inductive HeaderCall : Type :=
  | CallAddHeader (key value : string)
  | CallRemoveHeader (key : string).

(** State of a session after a sequence of calls; the flag tells whether
    the sequence ran to its end ([true]) or stopped at a panic. *)
Fixpoint run_calls (cs : list HeaderCall) (s : Session) : Session * bool :=
  match cs with
  | [] => (s, true)
  | CallAddHeader k v :: cs' =>
      match AddHeader k v s with
      | Some s' => run_calls cs' s'
      | None => (s, false)
      end
  | CallRemoveHeader k :: cs' => run_calls cs' (RemoveHeader k s)
  end.

(** The base URL as the specification words it. *)
Definition spec_protocol (p : ZOSMFProfile) : string :=
  if bool_decide (Port p = 80 ∨ Port p = 8080) then "http"
  else if bool_decide (Protocol p = "") then "https"
  else Protocol p.

Definition spec_port_suffix (p : ZOSMFProfile) : string :=
  if bool_decide (Port p ≠ 0 ∧ Port p ≠ 80 ∧ Port p ≠ 443)
  then ":" +:+ GoStrings.Itoa (Port p)
  else "".

Definition spec_baseURL (p : ZOSMFProfile) : string :=
  spec_protocol p +:+ "://" +:+ Host p +:+ spec_port_suffix p +:+ BasePath p.

(** Every field of the session but [Headers] is the same in both states. *)
Definition same_but_headers (s s' : Session) : Prop :=
  SProfile s' = SProfile s ∧ SHost s' = SHost s ∧ SPort s' = SPort s ∧
  SUser s' = SUser s ∧ SPassword s' = SPassword s ∧
  BaseURL s' = BaseURL s ∧ HTTPClient s' = HTTPClient s.

End Profile.

(** ** Go's [regexp], for the patterns the SDK compiles *)

Module Regexp.

(** Regular expressions over bytes. The SDK's patterns have ASCII character
classes only and are anchored at both ends ([^...$] without flags, so [$]
is the end of the text): a name matches when the whole of it does. Go's
engine reads UTF-8 runes; a rune outside ASCII is in none of the classes,
and neither is any of its bytes, so matching byte by byte accepts the same
strings. *)
Inductive regex : Type :=
  | Void
  | Eps
  | Class (p : ascii → bool)
  | Seq (r1 r2 : regex)
  | Alt (r1 r2 : regex)
  | Star (r : regex).

Fixpoint nullable (r : regex) : bool :=
  match r with
  | Void => false
  | Eps => true
  | Class _ => false
  | Seq r1 r2 => nullable r1 && nullable r2
  | Alt r1 r2 => nullable r1 || nullable r2
  | Star _ => true
  end.

(** Brzozowski derivative: what is left to match after reading [c]. *)
Fixpoint deriv (c : ascii) (r : regex) : regex :=
  match r with
  | Void => Void
  | Eps => Void
  | Class p => if p c then Eps else Void
  | Seq r1 r2 =>
      if nullable r1 then Alt (Seq (deriv c r1) r2) (deriv c r2)
      else Seq (deriv c r1) r2
  | Alt r1 r2 => Alt (deriv c r1) (deriv c r2)
  | Star r' => Seq (deriv c r') (Star r')
  end.

(** The method [MatchString] of a compiled pattern, for an anchored pattern. *)
Fixpoint MatchString (r : regex) (s : string) : bool :=
  match s with
  | EmptyString => nullable r
  | String c s' => MatchString (deriv c r) s'
  end.

End Regexp.

(** ** Go's [encoding/json] *)

Module Json.

Inductive json : Type :=
  | JNull
  | JBool (b : bool)
  | JNumber (literal : string)
  | JString (s : string)
  | JArray (items : list json)
  | JObject (members : list (string * json)).

Definition quote : ascii := ascii_of_N 34.
Definition backslash : ascii := ascii_of_N 92.

(** A string literal between double quotes. *)
Definition quoted (s : string) : string :=
  String quote (s +:+ String quote "").

Definition is_space (c : ascii) : bool :=
  let n := N_of_ascii c in
  (n =? 32)%N || (n =? 9)%N || (n =? 10)%N || (n =? 13)%N.

Fixpoint skip_ws (s : string) : string :=
  match s with
  | EmptyString => EmptyString
  | String c s' => if is_space c then skip_ws s' else s
  end.

Definition is_digit (c : ascii) : bool := GoStrings.byte_in "0" "9" c.

Definition hex_digit (c : ascii) : option N :=
  let n := N_of_ascii c in
  if GoStrings.byte_in "0" "9" c then Some (n - 48)%N
  else if GoStrings.byte_in "a" "f" c then Some (n - 87)%N
  else if GoStrings.byte_in "A" "F" c then Some (n - 55)%N
  else None.

Definition hex4 (a b c d : ascii) : option N :=
  match hex_digit a, hex_digit b, hex_digit c, hex_digit d with
  | Some x, Some y, Some z, Some w => Some (((x * 16 + y) * 16 + z) * 16 + w)%N
  | _, _, _, _ => None
  end.

Definition byte (n : N) : ascii := ascii_of_N n.

(** UTF-8 encoding of a code point. *)
Definition utf8_encode (n : N) : string :=
  (if n <? 128 then String (byte n) ""
   else if n <? 2048 then
     String (byte (192 + n / 64)) (String (byte (128 + n mod 64)) "")
   else if n <? 65536 then
     String (byte (224 + n / 4096))
       (String (byte (128 + (n / 64) mod 64))
          (String (byte (128 + n mod 64)) ""))
   else
     String (byte (240 + n / 262144))
       (String (byte (128 + (n / 4096) mod 64))
          (String (byte (128 + (n / 64) mod 64))
             (String (byte (128 + n mod 64)) ""))))%N.

Definition is_high_surrogate (n : N) : bool := ((55296 <=? n) && (n <? 56320))%N.
Definition is_low_surrogate (n : N) : bool := ((56320 <=? n) && (n <? 57344))%N.
Definition replacement_char : N := 65533.

Definition simple_escape (e : ascii) : option ascii :=
  let n := N_of_ascii e in
  if (n =? 34)%N then Some quote
  else if (n =? 92)%N then Some backslash
  else if Ascii.eqb e "/" then Some "/"%char
  else if Ascii.eqb e "b" then Some (byte 8)
  else if Ascii.eqb e "f" then Some (byte 12)
  else if Ascii.eqb e "n" then Some (byte 10)
  else if Ascii.eqb e "r" then Some (byte 13)
  else if Ascii.eqb e "t" then Some (byte 9)
  else None.

Definition cons_result (pre : string) (r : option (string * string)) :
    option (string * string) :=
  match r with
  | Some (t, rest) => Some (pre +:+ t, rest)
  | None => None
  end.

(** The text of a string literal, read from just after its opening quote,
and what follows the closing quote. A valid surrogate pair of [\u] escapes
is one code point; a surrogate half on its own is U+FFFD. Bytes that are
not valid UTF-8 are kept as they are (Go replaces them by U+FFFD). *)
Fixpoint scan_string (s : string) : option (string * string) :=
  match s with
  | EmptyString => None
  | String c rest =>
      if Ascii.eqb c quote then Some (EmptyString, rest)
      else if Ascii.eqb c backslash then
        match rest with
        | EmptyString => None
        | String e rest1 =>
            if Ascii.eqb e "u" then
              match rest1 with
              | String a (String b (String x (String d rest2))) =>
                  match hex4 a b x d with
                  | None => None
                  | Some n =>
                      if is_high_surrogate n then
                        match rest2 with
                        | String b1 (String u1 (String a2 (String b2
                            (String x2 (String d2 rest3))))) =>
                            match hex4 a2 b2 x2 d2 with
                            | Some m =>
                                if Ascii.eqb b1 backslash && Ascii.eqb u1 "u"
                                   && is_low_surrogate m
                                then
                                  cons_result
                                    (utf8_encode
                                       (65536 + (n - 55296) * 1024 + (m - 56320))%N)
                                    (scan_string rest3)
                                else
                                  cons_result (utf8_encode replacement_char)
                                    (scan_string rest2)
                            | None =>
                                cons_result (utf8_encode replacement_char)
                                  (scan_string rest2)
                            end
                        | _ =>
                            cons_result (utf8_encode replacement_char)
                              (scan_string rest2)
                        end
                      else if is_low_surrogate n then
                        cons_result (utf8_encode replacement_char)
                          (scan_string rest2)
                      else cons_result (utf8_encode n) (scan_string rest2)
                  end
              | _ => None
              end
            else
              match simple_escape e with
              | Some x => cons_result (String x "") (scan_string rest1)
              | None => None
              end
        end
      else if (N_of_ascii c <? 32)%N then None
      else cons_result (String c "") (scan_string rest)
  end.

Fixpoint span_digits (s : string) : string * string :=
  match s with
  | EmptyString => (EmptyString, EmptyString)
  | String c s' =>
      if is_digit c then
        let (ds, rest) := span_digits s' in (String c ds, rest)
      else (EmptyString, s)
  end.

(** A number literal: an optional minus sign, an integer part without
leading zeros, an optional fraction and an optional exponent. *)
Definition scan_number (s : string) : option (string * string) :=
  let (sign, s1) :=
    match s with
    | String c s' => if Ascii.eqb c "-" then ("-", s') else ("", s)
    | EmptyString => ("", s)
    end in
  let int_part :=
    match s1 with
    | String c s' =>
        if Ascii.eqb c "0" then Some ("0", s')
        else if is_digit c then Some (span_digits s1)
        else None
    | EmptyString => None
    end in
  match int_part with
  | None => None
  | Some (ip, s2) =>
      let frac_part :=
        match s2 with
        | String c s' =>
            if Ascii.eqb c "." then
              match span_digits s' with
              | (EmptyString, _) => None
              | (ds, rest) => Some ("." +:+ ds, rest)
              end
            else Some ("", s2)
        | EmptyString => Some ("", s2)
        end in
      match frac_part with
      | None => None
      | Some (fp, s3) =>
          let exp_part :=
            match s3 with
            | String c s' =>
                if Ascii.eqb c "e" || Ascii.eqb c "E" then
                  let (esign, s4) :=
                    match s' with
                    | String g s'' =>
                        if Ascii.eqb g "+" || Ascii.eqb g "-"
                        then (String g "", s'') else ("", s')
                    | EmptyString => ("", s')
                    end in
                  match span_digits s4 with
                  | (EmptyString, _) => None
                  | (ds, rest) => Some (String c esign +:+ ds, rest)
                  end
                else Some ("", s3)
            | EmptyString => Some ("", s3)
            end in
          match exp_part with
          | None => None
          | Some (ep, rest) => Some (sign +:+ ip +:+ fp +:+ ep, rest)
          end
      end
  end.

Fixpoint drop_prefix (prefix s : string) : option string :=
  match prefix, s with
  | EmptyString, _ => Some s
  | String _ _, EmptyString => None
  | String p prefix', String c s' =>
      if Ascii.eqb c p then drop_prefix prefix' s' else None
  end.

(** Recursive descent over the JSON grammar. [fuel] bounds the depth of
the calls; [parse] below gives enough of it for any input. *)
Fixpoint parse_value (fuel : nat) (s : string) : option (json * string) :=
  match fuel with
  | O => None
  | S fuel' =>
      match skip_ws s with
      | EmptyString => None
      | String c rest as s0 =>
          if Ascii.eqb c "[" then
            match skip_ws rest with
            | String c1 rest1 =>
                if Ascii.eqb c1 "]" then Some (JArray [], rest1)
                else
                  match parse_elements fuel' rest with
                  | Some (vs, r) => Some (JArray vs, r)
                  | None => None
                  end
            | EmptyString => None
            end
          else if Ascii.eqb c "{" then
            match skip_ws rest with
            | String c1 rest1 =>
                if Ascii.eqb c1 "}" then Some (JObject [], rest1)
                else
                  match parse_members fuel' rest with
                  | Some (ms, r) => Some (JObject ms, r)
                  | None => None
                  end
            | EmptyString => None
            end
          else if Ascii.eqb c quote then
            match scan_string rest with
            | Some (t, r) => Some (JString t, r)
            | None => None
            end
          else if Ascii.eqb c "t" then
            match drop_prefix "true" s0 with
            | Some r => Some (JBool true, r)
            | None => None
            end
          else if Ascii.eqb c "f" then
            match drop_prefix "false" s0 with
            | Some r => Some (JBool false, r)
            | None => None
            end
          else if Ascii.eqb c "n" then
            match drop_prefix "null" s0 with
            | Some r => Some (JNull, r)
            | None => None
            end
          else
            match scan_number s0 with
            | Some (lit, r) => Some (JNumber lit, r)
            | None => None
            end
      end
  end
with parse_elements (fuel : nat) (s : string) : option (list json * string) :=
  match fuel with
  | O => None
  | S fuel' =>
      match parse_value fuel' s with
      | None => None
      | Some (v, r) =>
          match skip_ws r with
          | String c r1 =>
              if Ascii.eqb c "," then
                match parse_elements fuel' r1 with
                | Some (vs, r2) => Some (v :: vs, r2)
                | None => None
                end
              else if Ascii.eqb c "]" then Some ([v], r1)
              else None
          | EmptyString => None
          end
      end
  end
with parse_members (fuel : nat) (s : string) :
    option (list (string * json) * string) :=
  match fuel with
  | O => None
  | S fuel' =>
      match skip_ws s with
      | String q r0 =>
          if Ascii.eqb q quote then
            match scan_string r0 with
            | None => None
            | Some (k, r1) =>
                match skip_ws r1 with
                | String colon r2 =>
                    if Ascii.eqb colon ":" then
                      match parse_value fuel' r2 with
                      | None => None
                      | Some (v, r3) =>
                          match skip_ws r3 with
                          | String c r4 =>
                              if Ascii.eqb c "," then
                                match parse_members fuel' r4 with
                                | Some (ms, r5) => Some ((k, v) :: ms, r5)
                                | None => None
                                end
                              else if Ascii.eqb c "}" then Some ([(k, v)], r4)
                              else None
                          | EmptyString => None
                          end
                      end
                    else None
                | EmptyString => None
                end
            end
          else None
      | EmptyString => None
      end
  end.

Definition enough_fuel (s : string) : nat := 2 * String.length s + 2.

(** The first JSON value of a stream, as the method [Decode] of a [json.Decoder] reads it:
what follows the value is left unread. *)
Definition decode_first (s : string) : option json :=
  match parse_value (enough_fuel s) s with
  | Some (v, _) => Some v
  | None => None
  end.

(** The JSON value a whole text denotes, as [json.Unmarshal] checks it:
only white space may follow the value. *)
Definition parse (s : string) : option json :=
  match parse_value (enough_fuel s) s with
  | Some (v, rest) =>
      match skip_ws rest with
      | EmptyString => Some v
      | String _ _ => None
      end
  | None => None
  end.

(** Struct fields are found by name, ignoring case. Go folds each rune to
the least rune of its case orbit: an ASCII letter to its capital, and the
two other runes that fold to an ASCII letter, U+017F (a long s, bytes C5 BF)
and U+212A (the Kelvin sign, bytes E2 84 AA), to [S] and [K]. Other runes never
fold to ASCII, so the result is exact for field names made of ASCII
letters, which those of the SDK are. *)
Fixpoint foldName (s : string) : string :=
  match s with
  | EmptyString => EmptyString
  | String c s' =>
      let n := N_of_ascii c in
      match s' with
      | String c1 s1 =>
          if (n =? 197)%N && (N_of_ascii c1 =? 191)%N
          then String "S" (foldName s1)
          else
            match s1 with
            | String c2 s2 =>
                if (n =? 226)%N && (N_of_ascii c1 =? 132)%N
                   && (N_of_ascii c2 =? 170)%N
                then String "K" (foldName s2)
                else String (GoStrings.upper_byte c) (foldName s')
            | EmptyString => String (GoStrings.upper_byte c) (foldName s')
            end
      | EmptyString => String (GoStrings.upper_byte c) EmptyString
      end
  end.

Definition field_matches (field key : string) : bool :=
  String.eqb (foldName key) (foldName field).

End Json.

(** ** Go's [net/http] and [net/url], and the world the SDK talks to *)

Module HTTP.

(** A Go value handed to [json.Marshal] as a request body: a string or a
map from strings to such values ([map[string]string] and
[map[string]interface{}]). *)
Inductive goval : Type :=
  | GoString (s : string)
  | GoMap (m : gmap string goval).

(** A [map[string]string]. *)
Definition GoStringMap (m : gmap string string) : goval :=
  GoMap (GoString <$> m).

(** Functions of Go's standard library that the SDK calls and whose
results it only passes on. They are parameters of the model. *)
Class GoLib : Type := {
  (** [strings.Map(unicode.ToUpper, s)], the path [strings.ToUpper] takes
      for a string with a byte outside ASCII. *)
  unicodeUpper : string → string;
  (** The error of [url.Parse], which [http.NewRequest] returns; [None]
      when the URL parses. *)
  url_Parse_error : string → option string;
  (** [url.PathEscape]. *)
  PathEscape : string → string;
  (** [url.Values.Encode], on values set with [Set] (one value per key). *)
  Values_Encode : gmap string string → string;
  (** [json.Marshal], which cannot fail on strings and maps of strings. *)
  Marshal : goval → string;
  (** The message of the error [encoding/json] reports on a text it
      cannot decode into the requested type. *)
  json_error : string → string
}.

Fixpoint string_mem (c : ascii) (s : string) : bool :=
  match s with
  | EmptyString => false
  | String x s' => Ascii.eqb c x || string_mem c s'
  end.

Fixpoint string_forallb (p : ascii → bool) (s : string) : bool :=
  match s with
  | EmptyString => true
  | String x s' => p x && string_forallb p s'
  end.

(** [textproto]'s [validHeaderFieldByte]: the token characters of RFC 7230. *)
Definition validHeaderFieldByte (c : ascii) : bool :=
  GoStrings.byte_in "a" "z" c || GoStrings.byte_in "A" "Z" c
  || GoStrings.byte_in "0" "9" c || string_mem c "!#$%&'*+-.^_`|~".

Fixpoint canonical_bytes (upper : bool) (s : string) : string :=
  match s with
  | EmptyString => EmptyString
  | String c s' =>
      let c' :=
        if upper && GoStrings.byte_in "a" "z" c then GoStrings.upper_byte c
        else if negb upper && GoStrings.byte_in "A" "Z" c then GoStrings.lower_byte c
        else c in
      String c' (canonical_bytes (Ascii.eqb c' "-") s')
  end.

(** [textproto.CanonicalMIMEHeaderKey]: a key made of token characters gets
a capital first letter and a capital after each hyphen, the other letters
in lower case; any other key is returned unchanged. *)
Definition CanonicalMIMEHeaderKey (s : string) : string :=
  if string_forallb validHeaderFieldByte s then canonical_bytes true s else s.

(** [http.Header], with the one value per key that [Set] leaves. *)
Definition Header_Set (key value : string) (h : gmap string string) :
    gmap string string :=
  <[CanonicalMIMEHeaderKey key := value]> h.

Definition Header_Get (key : string) (h : gmap string string) : string :=
  default "" (h !! CanonicalMIMEHeaderKey key).

Record Request : Type := {
  Method : string;
  URL : string;
  Header : gmap string string;
  Body : option string
}.

(** [http.Response]: the status code, the bytes [io.ReadAll] gets from the
body, and the error the read ends with, if any. *)
Record Response : Type := {
  StatusCode : Z;
  RespBody : string;
  ReadErr : option string
}.

Definition set_Header (h : gmap string string) (r : Request) : Request :=
  {| Method := Method r; URL := URL r; Header := h; Body := Body r |}.

(** [req.Header.Set(key, value)] *)
Definition Request_Header_Set (key value : string) (r : Request) : Request :=
  set_Header (Header_Set key value (Header r)) r.

(** [http.NewRequest] with one of the methods GET, PUT, POST, DELETE: it
fails only when the URL does not parse. *)
Definition NewRequest `{GoLib} (method url : string) (body : option string) :
    result Request :=
  match url_Parse_error url with
  | Some e => Err e
  | None => Ok {| Method := method; URL := url; Header := ∅; Body := body |}
  end.

(** The loop [for key, value := range session.GetHeaders()] that copies the
session's headers into the request. Go visits the map in an unspecified
order; the model takes the order of [map_to_list]. A [nil] map has no
entries. *)
Definition add_session_headers (session : Profile.Session) (r : Request) : Request :=
  foldl (λ r kv, Request_Header_Set kv.1 kv.2 r) r
    (map_to_list (default ∅ (Profile.GetHeaders session))).

(** What lies outside the process: the server behind the HTTP client and
the clock. [Do] is the method [Do] of [http.Client]: it sends one request and returns
the response or a transport error. [Now] reads the monotonic clock, in
nanoseconds; [Sleep] is [time.Sleep]. *)
Class Runtime : Type := {
  World : Type;
  Do : Profile.Client → Request → World → result Response * World;
  Now : World → Z;
  Sleep : Z → World → World
}.

(** A runtime that also records, in order, the requests handed to [Do]. *)
Definition Logged (R : Runtime) : Runtime := {|
  World := (@World R * list Request)%type;
  Do := λ c req wl,
    let '(r, w') := @Do R c req wl.1 in (r, (w', wl.2 ++ [req]));
  Now := λ wl, @Now R wl.1;
  Sleep := λ d wl, (@Sleep R d wl.1, wl.2)
|}.

(** [fmt.Errorf("API request failed with status %d: %s", ...)] *)
Definition api_error (resp : Response) : string :=
  "API request failed with status " +:+ GoStrings.Itoa (StatusCode resp)
  +:+ ": " +:+ RespBody resp.

(** [json.NewDecoder(resp.Body).Decode(&v)] for a target type whose
decoding of a JSON value is [of_json]. *)
Definition Decode `{GoLib} {A} (of_json : Json.json → option A) (resp : Response) :
    result A :=
  match Json.decode_first (RespBody resp) with
  | Some v =>
      match of_json v with
      | Some a => Ok a
      | None => Err (json_error (RespBody resp))
      end
  | None =>
      match ReadErr resp with
      | Some e => Err e
      | None => Err (json_error (RespBody resp))
      end
  end.

(** [json.Unmarshal(body, &v)] *)
Definition Unmarshal `{GoLib} {A} (of_json : Json.json → option A) (body : string) :
    result A :=
  match Json.parse body with
  | Some v =>
      match of_json v with
      | Some a => Ok a
      | None => Err (json_error body)
      end
  | None => Err (json_error body)
  end.

(** Decoding a JSON value into a slice variable that is [nil]: [null]
leaves it empty, an array is decoded element by element, anything else is
a type error. *)
Definition slice_of_json {A} (elem_of_json : Json.json → option A)
    (v : Json.json) : option (list A) :=
  match v with
  | Json.JNull => Some []
  | Json.JArray items => mapM elem_of_json items
  | _ => None
  end.

End HTTP.

(** ** Package [jobs] *)

Module Jobs.
Import HTTP.

(** Endpoint constants; the templates with [%s] are functions. *)
Definition JobsEndpoint : string := "/restjobs/jobs".
Definition JobByNameIDEndpoint (jobname jobid : string) : string :=
  "/restjobs/jobs/" +:+ jobname +:+ "/" +:+ jobid.
Definition JobByCorrelatorEndpoint (correlator : string) : string :=
  "/restjobs/jobs/" +:+ correlator.
Definition FilesEndpoint : string := "/files".
Definition CancelEndpoint : string := "/cancel".
Definition PurgeEndpoint : string := "/purge".
Definition RecordsEndpoint : string := "/records".

(** [JobFilter], with the fields [ListJobs] reads. *)
Record JobFilter : Type := {
  Owner : string;
  Prefix : string;
  MaxJobs : Z;
  JobID : string;
  JobName : string;
  Status : string;
  UserCorrelator : string
}.

(** [SubmitJobRequest], with the fields [SubmitJob] reads. *)
Record SubmitJobRequest : Type := {
  JobStatement : string;
  JobDataSet : string;
  JobLocalFile : string;
  Volume : string;
  Directory : string;
  Extension : string
}.

(** [SpoolFile], with the fields the package reads. *)
Record SpoolFile : Type := {
  ID : Z;
  DDName : string
}.

(** The declarations of [Job], [SpoolFile] and [SubmitJobResponse] with
their JSON field tags are not among the sources. The model takes the types
the code treats as opaque, and the decoding of one JSON value into a zero
value of each type ([None] for a type error), as parameters. *)
Class JobTypes : Type := {
  Job : Type;
  Job_Status : Job → string;
  Job_of_json : Json.json → option Job;
  SpoolFile_of_json : Json.json → option SpoolFile;
  SubmitJobResponse : Type;
  SubmitJobResponse_of_json : Json.json → option SubmitJobResponse
}.

(** Modelled from the spec: the declaration of [JobList] is not among the
sources. The code reads and writes its field [Jobs], a slice of [Job]; the
spec gives the object shape of a job list a [jobs] field. *)
Record JobList `{JobTypes} : Type := {
  Jobs : list Job
}.

(** Decoding a JSON value into a zero [JobList]: [null] leaves it as it is;
an object sets [Jobs] from each member named [jobs] (names compared as
[encoding/json] does, ignoring case), unknown members being skipped;
anything else is a type error. *)
Definition JobList_of_json `{JobTypes} (v : Json.json) : option JobList :=
  match v with
  | Json.JNull => Some {| Jobs := [] |}
  | Json.JObject members =>
      foldl
        (λ acc kv,
           match acc with
           | None => None
           | Some jl =>
               if Json.field_matches "jobs" kv.1 then
                 match slice_of_json Job_of_json kv.2 with
                 | Some js => Some {| Jobs := js |}
                 | None => None
                 end
               else Some jl
           end)
        (Some {| Jobs := [] |}) members
  | _ => None
  end.

(** [ZOSMFJobManager]: it holds the session. *)
Record ZOSMFJobManager : Type := {
  session : Profile.Session
}.

Definition NewJobManager (s : Profile.Session) : ZOSMFJobManager :=
  {| session := s |}.

(** [isJobComplete] *)
Definition completedStatuses : list string :=
  ["OUTPUT"; "CC 0000"; "CC 0001"; "CC 0002"; "CC 0003"; "CC 0004"; "ABEND"].

Definition isJobComplete `{GoLib} (status : string) : bool :=
  let status := GoStrings.ToUpper unicodeUpper status in
  existsb (λ completedStatus, GoStrings.Contains status completedStatus)
    completedStatuses.

Section Manager.
Context `{G : GoLib} `{R : Runtime} `{T : JobTypes}.

(** [ListJobs] *)
Definition ListJobs (jm : ZOSMFJobManager) (filter : option JobFilter)
    (w : World) : result JobList * World :=
  let session := session jm in
  let params : gmap string string := ∅ in
  let params :=
    match filter with
    | None => params
    | Some filter =>
        let params :=
          if negb (String.eqb (Owner filter) "")
          then <["owner" := Owner filter]> params else params in
        let params :=
          if negb (String.eqb (Prefix filter) "")
          then <["prefix" := Prefix filter]> params else params in
        let params :=
          if MaxJobs filter >? 0
          then <["max-jobs" := GoStrings.Itoa (MaxJobs filter)]> params
          else params in
        let params :=
          if negb (String.eqb (JobID filter) "")
          then <["jobid" := JobID filter]> params else params in
        let params :=
          if negb (String.eqb (JobName filter) "")
          then <["jobname" := JobName filter]> params else params in
        let params :=
          if negb (String.eqb (Status filter) "")
          then <["status" := Status filter]> params else params in
        if negb (String.eqb (UserCorrelator filter) "")
        then <["user-correlator" := UserCorrelator filter]> params else params
    end in
  let apiURL := Profile.GetBaseURL session +:+ JobsEndpoint in
  let apiURL :=
    if (0 <? size params)%nat then apiURL +:+ "?" +:+ Values_Encode params
    else apiURL in
  match NewRequest "GET" apiURL None with
  | Err e => (Err ("failed to create request: " +:+ e), w)
  | Ok req =>
      let req := add_session_headers session req in
      match Do (Profile.GetHTTPClient session) req w with
      | (Err e, w1) => (Err ("failed to make request: " +:+ e), w1)
      | (Ok resp, w1) =>
          if negb (StatusCode resp =? 200) then (Err (api_error resp), w1)
          else
            match ReadErr resp with
            | Some e => (Err ("failed to read response: " +:+ e), w1)
            | None =>
                let bodyBytes := RespBody resp in
                let fallback :=
                  match Unmarshal (slice_of_json Job_of_json) bodyBytes with
                  | Ok jobsArr => Ok {| Jobs := jobsArr |}
                  | Err _ => Err ("failed to decode response: " +:+ bodyBytes)
                  end in
                match Unmarshal JobList_of_json bodyBytes with
                | Ok jobList =>
                    if (0 <? length (Jobs jobList))%nat
                       || String.eqb bodyBytes "{}"
                    then (Ok jobList, w1)
                    else (fallback, w1)
                | Err _ => (fallback, w1)
                end
            end
      end
  end.

(** [GetJob] *)
Definition GetJob (jm : ZOSMFJobManager) (jobID : string) (w : World) :
    result Job * World :=
  let session := session jm in
  let apiURL :=
    Profile.GetBaseURL session +:+ JobByCorrelatorEndpoint (PathEscape jobID) in
  match NewRequest "GET" apiURL None with
  | Err e => (Err ("failed to create request: " +:+ e), w)
  | Ok req =>
      let req := add_session_headers session req in
      match Do (Profile.GetHTTPClient session) req w with
      | (Err e, w1) => (Err ("failed to make request: " +:+ e), w1)
      | (Ok resp, w1) =>
          if negb (StatusCode resp =? 200) then (Err (api_error resp), w1)
          else
            match Decode Job_of_json resp with
            | Err e => (Err ("failed to decode response: " +:+ e), w1)
            | Ok job => (Ok job, w1)
            end
      end
  end.

(** [GetJobStatus] *)
Definition GetJobStatus (jm : ZOSMFJobManager) (jobID : string) (w : World) :
    result string * World :=
  match GetJob jm jobID w with
  | (Err e, w1) => (Err e, w1)
  | (Ok job, w1) => (Ok (Job_Status job), w1)
  end.

(** [SubmitJob] *)
Definition SubmitJob (jm : ZOSMFJobManager) (request : SubmitJobRequest)
    (w : World) : result SubmitJobResponse * World :=
  let session := session jm in
  let apiURL := Profile.GetBaseURL session +:+ JobsEndpoint in
  let requestBody : option (gmap string string) :=
    if negb (String.eqb (JobStatement request) "") then
      Some {[ "jobStatement" := JobStatement request ]}
    else if negb (String.eqb (JobDataSet request) "") then
      let requestBody : gmap string string :=
        {[ "jobDataSet" := JobDataSet request ]} in
      Some (if negb (String.eqb (Volume request) "")
            then <["volume" := Volume request]> requestBody
            else requestBody)
    else if negb (String.eqb (JobLocalFile request) "") then
      let requestBody : gmap string string :=
        {[ "jobLocalFile" := JobLocalFile request ]} in
      let requestBody :=
        if negb (String.eqb (Directory request) "")
        then <["directory" := Directory request]> requestBody
        else requestBody in
      Some (if negb (String.eqb (Extension request) "")
            then <["extension" := Extension request]> requestBody
            else requestBody)
    else None in
  match requestBody with
  | None =>
      (Err "no job source specified (jobStatement, jobDataSet, or jobLocalFile)", w)
  | Some requestBody =>
      let jsonBody := Marshal (GoStringMap requestBody) in
      match NewRequest "PUT" apiURL (Some jsonBody) with
      | Err e => (Err ("failed to create request: " +:+ e), w)
      | Ok req =>
          let req := add_session_headers session req in
          match Do (Profile.GetHTTPClient session) req w with
          | (Err e, w1) => (Err ("failed to make request: " +:+ e), w1)
          | (Ok resp, w1) =>
              if negb (StatusCode resp =? 201) && negb (StatusCode resp =? 200)
                 && negb (StatusCode resp =? 202)
              then (Err (api_error resp), w1)
              else
                match Decode SubmitJobResponse_of_json resp with
                | Err e => (Err ("failed to decode response: " +:+ e), w1)
                | Ok submitResponse => (Ok submitResponse, w1)
                end
          end
      end
  end.

(** [GetSpoolFiles] *)
Definition GetSpoolFiles (jm : ZOSMFJobManager) (jobID : string) (w : World) :
    result (list SpoolFile) * World :=
  let session := session jm in
  let apiURL :=
    Profile.GetBaseURL session +:+ JobByCorrelatorEndpoint (PathEscape jobID)
    +:+ FilesEndpoint in
  match NewRequest "GET" apiURL None with
  | Err e => (Err ("failed to create request: " +:+ e), w)
  | Ok req =>
      let req := add_session_headers session req in
      match Do (Profile.GetHTTPClient session) req w with
      | (Err e, w1) => (Err ("failed to make request: " +:+ e), w1)
      | (Ok resp, w1) =>
          if negb (StatusCode resp =? 200) then (Err (api_error resp), w1)
          else
            match Decode (slice_of_json SpoolFile_of_json) resp with
            | Err e => (Err ("failed to decode response: " +:+ e), w1)
            | Ok spoolFiles => (Ok spoolFiles, w1)
            end
      end
  end.

(** [GetSpoolFileContent] *)
Definition GetSpoolFileContent (jm : ZOSMFJobManager) (jobID : string)
    (spoolID : Z) (w : World) : result string * World :=
  let session := session jm in
  let apiURL :=
    Profile.GetBaseURL session +:+ JobByCorrelatorEndpoint (PathEscape jobID)
    +:+ "/files/" +:+ GoStrings.Itoa spoolID +:+ RecordsEndpoint in
  match NewRequest "GET" apiURL None with
  | Err e => (Err ("failed to create request: " +:+ e), w)
  | Ok req =>
      let req := add_session_headers session req in
      match Do (Profile.GetHTTPClient session) req w with
      | (Err e, w1) => (Err ("failed to make request: " +:+ e), w1)
      | (Ok resp, w1) =>
          if negb (StatusCode resp =? 200) then (Err (api_error resp), w1)
          else
            match ReadErr resp with
            | Some e => (Err ("failed to read response body: " +:+ e), w1)
            | None => (Ok (RespBody resp), w1)
            end
      end
  end.

(** The loop of [WaitForJobCompletion]. Go's [for] has no bound; the model
runs at most [fuel] iterations and returns [None] when they are used up
before the loop returns. *)
Fixpoint wait_loop (fuel : nat) (jm : ZOSMFJobManager) (correlator : string)
    (timeout pollInterval startTime : Z) (w : World) :
    option (result string) * World :=
  match fuel with
  | O => (None, w)
  | S fuel' =>
      if Now w - startTime >? timeout then
        (Some (Err ("timeout waiting for job " +:+ correlator +:+ " to complete")), w)
      else
        match GetJobStatus jm correlator w with
        | (Err e, w1) => (Some (Err ("failed to get job status: " +:+ e)), w1)
        | (Ok status, w1) =>
            if isJobComplete status then (Some (Ok status), w1)
            else
              wait_loop fuel' jm correlator timeout pollInterval startTime
                (Sleep pollInterval w1)
        end
  end.

(** [WaitForJobCompletion] *)
Definition WaitForJobCompletion (fuel : nat) (jm : ZOSMFJobManager)
    (correlator : string) (timeout pollInterval : Z) (w : World) :
    option (result string) * World :=
  let startTime := Now w in
  wait_loop fuel jm correlator timeout pollInterval startTime w.

(** The loop of [GetJobOutput] over the spool files. *)
Fixpoint GetJobOutput_loop (jm : ZOSMFJobManager) (correlator : string)
    (spoolFiles : list SpoolFile) (output : gmap string string) (w : World) :
    gmap string string * World :=
  match spoolFiles with
  | [] => (output, w)
  | spoolFile :: rest =>
      match GetSpoolFileContent jm correlator (ID spoolFile) w with
      | (Err _, w1) => GetJobOutput_loop jm correlator rest output w1
      | (Ok content, w1) =>
          GetJobOutput_loop jm correlator rest
            (<[DDName spoolFile := content]> output) w1
      end
  end.

(** [GetJobOutput] *)
Definition GetJobOutput (jm : ZOSMFJobManager) (correlator : string)
    (w : World) : result (gmap string string) * World :=
  match GetSpoolFiles jm correlator w with
  | (Err e, w1) => (Err ("failed to get spool files: " +:+ e), w1)
  | (Ok spoolFiles, w1) =>
      let '(output, w2) := GetJobOutput_loop jm correlator spoolFiles ∅ w1 in
      (Ok output, w2)
  end.

End Manager.

End Jobs.

(** ** Package [datasets] *)

Module Datasets.
Import HTTP.

Definition DatasetsEndpoint : string := "/restfiles/ds".
Definition DatasetByNameEndpoint (name : string) : string :=
  "/restfiles/ds/" +:+ name.

(** [DatasetFilter]; [Type_] is its field [Type]. *)
Record DatasetFilter : Type := {
  Name : string;
  Type_ : string;
  Volume : string;
  Owner : string;
  Limit : Z
}.

(** [DatasetList] holds dates and nested records that no modelled function
reads; the type and its decoding from a JSON value are parameters. *)
Class DatasetTypes : Type := {
  DatasetList : Type;
  DatasetList_of_json : Json.json → option DatasetList
}.

Record ZOSMFDatasetManager : Type := {
  session : Profile.Session
}.

Definition first_char_class (c : ascii) : bool :=
  GoStrings.byte_in "A" "Z" c || string_mem c "@#$".

Definition other_char_class (c : ascii) : bool :=
  GoStrings.byte_in "A" "Z" c || GoStrings.byte_in "0" "9" c
  || string_mem c "@#$.-".

(** The pattern [^[A-Z@#$][A-Z0-9@#$.-]*$]. *)
Definition validPattern : Regexp.regex :=
  Regexp.Seq (Regexp.Class first_char_class)
    (Regexp.Star (Regexp.Class other_char_class)).

(** [ValidateDatasetName]; the result is the error, [None] for [nil]. *)
Definition ValidateDatasetName (name : string) : option string :=
  if String.eqb name "" then
    Some "dataset name cannot be empty"
  else if GoStrings.len name >? 44 then
    Some "dataset name cannot exceed 44 characters"
  else if negb (Regexp.MatchString validPattern name) then
    Some "dataset name contains invalid characters"
  else if GoStrings.Contains name ".." then
    Some "dataset name cannot contain consecutive periods"
  else if GoStrings.HasPrefix name "." || GoStrings.HasSuffix name "." then
    Some "dataset name cannot start or end with a period"
  else if GoStrings.Contains name "--" then
    Some "dataset name cannot contain consecutive hyphens"
  else None.

End Datasets.

(** The first of the two copies of the dataset manager among the sources
(it lists datasets without a default pattern and copies with a POST). *)
Module DatasetManager1.
Import HTTP Datasets.

Section Manager.
Context `{G : GoLib} `{R : Runtime} `{T : DatasetTypes}.

(** [ListDatasets] *)
Definition ListDatasets (dm : ZOSMFDatasetManager) (filter : option DatasetFilter)
    (w : World) : result DatasetList * World :=
  let session := session dm in
  let params : gmap string string := ∅ in
  let params :=
    match filter with
    | None => params
    | Some filter =>
        let params :=
          if negb (String.eqb (Name filter) "")
          then <["dslevel" := Name filter]> params else params in
        let params :=
          if negb (String.eqb (Volume filter) "")
          then <["volser" := Volume filter]> params else params in
        if negb (String.eqb (Owner filter) "")
        then <["start" := Owner filter]> params else params
    end in
  let apiURL := Profile.GetBaseURL session +:+ DatasetsEndpoint in
  let apiURL :=
    if (0 <? size params)%nat then apiURL +:+ "?" +:+ Values_Encode params
    else apiURL in
  match NewRequest "GET" apiURL None with
  | Err e => (Err ("failed to create request: " +:+ e), w)
  | Ok req =>
      let req := add_session_headers session req in
      let req :=
        match filter with
        | Some filter =>
            if Limit filter >? 0
            then Request_Header_Set "X-IBM-Max-Items" (GoStrings.Itoa (Limit filter)) req
            else Request_Header_Set "X-IBM-Max-Items" "0" req
        | None => Request_Header_Set "X-IBM-Max-Items" "0" req
        end in
      let req := Request_Header_Set "X-IBM-Attributes" "base" req in
      match Do (Profile.GetHTTPClient session) req w with
      | (Err e, w1) => (Err ("failed to make request: " +:+ e), w1)
      | (Ok resp, w1) =>
          if negb (StatusCode resp =? 200) then (Err (api_error resp), w1)
          else
            match ReadErr resp with
            | Some e => (Err ("failed to read response: " +:+ e), w1)
            | None =>
                match Unmarshal DatasetList_of_json (RespBody resp) with
                | Err e => (Err ("failed to decode response: " +:+ e), w1)
                | Ok datasetList => (Ok datasetList, w1)
                end
            end
      end
  end.

(** [CopyDataset]; the result is the error, [None] for [nil]. *)
Definition CopyDataset (dm : ZOSMFDatasetManager) (sourceName targetName : string)
    (w : World) : option string * World :=
  let session := session dm in
  let apiURL :=
    Profile.GetBaseURL session +:+ DatasetByNameEndpoint (PathEscape sourceName)
    +:+ "/copy" in
  let requestBody : gmap string string := {[ "target" := targetName ]} in
  let jsonBody := Marshal (GoStringMap requestBody) in
  match NewRequest "POST" apiURL (Some jsonBody) with
  | Err e => (Some ("failed to create request: " +:+ e), w)
  | Ok req =>
      let req := add_session_headers session req in
      let req := Request_Header_Set "Content-Type" "application/json" req in
      match Do (Profile.GetHTTPClient session) req w with
      | (Err e, w1) => (Some ("failed to make request: " +:+ e), w1)
      | (Ok resp, w1) =>
          if negb (StatusCode resp =? 201) && negb (StatusCode resp =? 200)
          then (Some (api_error resp), w1)
          else (None, w1)
      end
  end.

End Manager.

End DatasetManager1.

(** The second copy of the dataset manager among the sources (it gives a
listing without pattern or volume the pattern of the session's user, and
copies with a PUT to the target). *)
Module DatasetManager2.
Import HTTP Datasets.

Section Manager.
Context `{G : GoLib} `{R : Runtime} `{T : DatasetTypes}.

(** [ListDatasets] *)
Definition ListDatasets (dm : ZOSMFDatasetManager) (filter : option DatasetFilter)
    (w : World) : result DatasetList * World :=
  let session := session dm in
  let params : gmap string string := ∅ in
  let hasRequiredParam := false in
  let '(params, hasRequiredParam) :=
    match filter with
    | None => (params, hasRequiredParam)
    | Some filter =>
        let '(params, hasRequiredParam) :=
          if negb (String.eqb (Name filter) "")
          then (<["dslevel" := Name filter]> params, true)
          else (params, hasRequiredParam) in
        let '(params, hasRequiredParam) :=
          if negb (String.eqb (Volume filter) "")
          then (<["volser" := Volume filter]> params, true)
          else (params, hasRequiredParam) in
        let params :=
          if negb (String.eqb (Owner filter) "")
          then <["start" := Owner filter]> params else params in
        (params, hasRequiredParam)
    end in
  let params :=
    if negb hasRequiredParam
    then <["dslevel" := Profile.SUser session +:+ ".*"]> params
    else params in
  let apiURL := Profile.GetBaseURL session +:+ DatasetsEndpoint in
  let apiURL :=
    if (0 <? size params)%nat then apiURL +:+ "?" +:+ Values_Encode params
    else apiURL in
  match NewRequest "GET" apiURL None with
  | Err e => (Err ("failed to create request: " +:+ e), w)
  | Ok req =>
      let req := add_session_headers session req in
      let req :=
        match filter with
        | Some filter =>
            if Limit filter >? 0
            then Request_Header_Set "X-IBM-Max-Items" (GoStrings.Itoa (Limit filter)) req
            else Request_Header_Set "X-IBM-Max-Items" "0" req
        | None => Request_Header_Set "X-IBM-Max-Items" "0" req
        end in
      let req := Request_Header_Set "X-IBM-Attributes" "base" req in
      match Do (Profile.GetHTTPClient session) req w with
      | (Err e, w1) => (Err ("failed to make request: " +:+ e), w1)
      | (Ok resp, w1) =>
          if negb (StatusCode resp =? 200) then (Err (api_error resp), w1)
          else
            match ReadErr resp with
            | Some e => (Err ("failed to read response: " +:+ e), w1)
            | None =>
                match Unmarshal DatasetList_of_json (RespBody resp) with
                | Err e => (Err ("failed to decode response: " +:+ e), w1)
                | Ok datasetList => (Ok datasetList, w1)
                end
            end
      end
  end.

(** [CopyDataset]; the result is the error, [None] for [nil]. *)
Definition CopyDataset (dm : ZOSMFDatasetManager) (sourceName targetName : string)
    (w : World) : option string * World :=
  let session := session dm in
  let apiURL :=
    Profile.GetBaseURL session +:+ DatasetByNameEndpoint (PathEscape targetName) in
  let requestBody : gmap string goval :=
    <["from-dataset" := GoStringMap {[ "dsn" := sourceName ]}]>
      {[ "request" := GoString "copy" ]} in
  let jsonBody := Marshal (GoMap requestBody) in
  match NewRequest "PUT" apiURL (Some jsonBody) with
  | Err e => (Some ("failed to create request: " +:+ e), w)
  | Ok req =>
      let req := add_session_headers session req in
      let req := Request_Header_Set "Content-Type" "application/json" req in
      match Do (Profile.GetHTTPClient session) req w with
      | (Err e, w1) => (Some ("failed to make request: " +:+ e), w1)
      | (Ok resp, w1) =>
          if negb (StatusCode resp =? 201) && negb (StatusCode resp =? 200)
          then (Some (api_error resp), w1)
          else (None, w1)
      end
  end.

End Manager.

End DatasetManager2.


(** ** A scripted server and plain library functions, to run the model *)

Module Mock.
Import HTTP.

(** One entry of a JSON object, for bodies nested at most two deep (no
escaping: the bodies printed here have none to do). *)
Definition print_value (v : goval) : string :=
  match v with
  | GoString s => Json.quoted s
  | GoMap m =>
      "{" +:+
      foldr (λ kv acc,
               Json.quoted kv.1 +:+ ":" +:+
               match kv.2 with
               | GoString s => Json.quoted s
               | GoMap _ => "{}"
               end +:+ (if String.eqb acc "" then "" else "," +:+ acc))
            "" (map_to_list m)
      +:+ "}"
  end.

Definition print_object (m : gmap string goval) : string :=
  "{" +:+
  foldr (λ kv acc,
           Json.quoted kv.1 +:+ ":" +:+ print_value kv.2 +:+
           (if String.eqb acc "" then "" else "," +:+ acc))
        "" (map_to_list m)
  +:+ "}".

Definition print_query (m : gmap string string) : string :=
  foldr (λ kv acc,
           kv.1 +:+ "=" +:+ kv.2 +:+
           (if String.eqb acc "" then "" else "&" +:+ acc))
        "" (map_to_list m).

(** Library functions for names and values that need no escaping. *)
Definition lib : GoLib := {|
  unicodeUpper := λ s, s;
  url_Parse_error := λ _, None;
  PathEscape := λ s, s;
  Values_Encode := print_query;
  Marshal := λ v, match v with GoString s => Json.quoted s | GoMap m => print_object m end;
  json_error := λ _, "invalid JSON"
|}.

(** A server that answers the requests it gets with the responses of a
script, in order, whatever the requests are, and refuses the connection
once the script is used up. A request takes [latency] nanoseconds; a sleep
takes as long as asked. The world is the rest of the script and the clock. *)
Definition scripted (latency : Z) : Runtime := {|
  World := (list (result Response) * Z)%type;
  Do := λ _ _ w,
    match w.1 with
    | [] => (Err "connection refused", (w.1, w.2 + latency))
    | r :: rest => (r, (rest, w.2 + latency))
    end;
  Now := λ w, w.2;
  Sleep := λ d w, (w.1, w.2 + Z.max d 0)
|}.

Definition respond (code : Z) (body : string) : result Response :=
  Ok {| StatusCode := code; RespBody := body; ReadErr := None |}.

(** The job record of the integration test's server, with z/OSMF's names
for its fields. *)
Record job : Type := {
  jobid : string;
  jobname : string;
  owner : string;
  status : string
}.

Definition string_member (key : string) (members : list (string * Json.json)) :
    string :=
  match list_find (λ kv, Json.field_matches key kv.1) members with
  | Some (_, (_, Json.JString s)) => s
  | _ => ""
  end.

Fixpoint digits_value (acc : Z) (s : string) : Z :=
  match s with
  | EmptyString => acc
  | String c s' =>
      if Json.is_digit c
      then digits_value (10 * acc + Z.of_N (N_of_ascii c) - 48) s'
      else acc
  end.

Definition number_member (key : string) (members : list (string * Json.json)) : Z :=
  match list_find (λ kv, Json.field_matches key kv.1) members with
  | Some (_, (_, Json.JNumber lit)) => digits_value 0 lit
  | _ => 0
  end.

Definition job_of_json (v : Json.json) : option job :=
  match v with
  | Json.JNull => Some {| jobid := ""; jobname := ""; owner := ""; status := "" |}
  | Json.JObject ms =>
      Some {| jobid := string_member "jobid" ms;
              jobname := string_member "jobname" ms;
              owner := string_member "owner" ms;
              status := string_member "status" ms |}
  | _ => None
  end.

Definition spool_of_json (v : Json.json) : option Jobs.SpoolFile :=
  match v with
  | Json.JNull => Some {| Jobs.ID := 0; Jobs.DDName := "" |}
  | Json.JObject ms =>
      Some {| Jobs.ID := number_member "id" ms;
              Jobs.DDName := string_member "ddname" ms |}
  | _ => None
  end.

Definition types : Jobs.JobTypes := {|
  Jobs.Job := job;
  Jobs.Job_Status := status;
  Jobs.Job_of_json := job_of_json;
  Jobs.SpoolFile_of_json := spool_of_json;
  Jobs.SubmitJobResponse := job;
  Jobs.SubmitJobResponse_of_json := job_of_json
|}.

Definition dataset_types : Datasets.DatasetTypes := {|
  Datasets.DatasetList := Json.json;
  Datasets.DatasetList_of_json := Some
|}.

(** The profile and session of the examples. *)
Definition profile : Profile.ZOSMFProfile := {|
  Profile.Name := "test";
  Profile.Host := "zos.example.com";
  Profile.Port := 10443;
  Profile.User := "IBMUSER";
  Profile.Password := "secret";
  Profile.RejectUnauthorized := true;
  Profile.BasePath := "/zosmf";
  Profile.Protocol := ""
|}.

Definition session : Profile.Session :=
  match Profile.NewSession profile with
  | Ok s => s
  | Err _ =>
      {| Profile.SProfile := None; Profile.SHost := ""; Profile.SPort := 0;
         Profile.SUser := ""; Profile.SPassword := ""; Profile.BaseURL := "";
         Profile.HTTPClient :=
           {| Profile.InsecureSkipVerify := false; Profile.Timeout := 0 |};
         Profile.Headers := None |}
  end.

Definition job_manager : Jobs.ZOSMFJobManager := Jobs.NewJobManager session.

Definition dataset_manager : Datasets.ZOSMFDatasetManager :=
  {| Datasets.session := session |}.

(** A dataset filter with nothing set. *)
Definition empty_filter : Datasets.DatasetFilter := {|
  Datasets.Name := "";
  Datasets.Type_ := "";
  Datasets.Volume := "";
  Datasets.Owner := "";
  Datasets.Limit := 0
|}.

(** The body of a job with the given status, and a script of [n] answers
that the job is active followed by [last]. *)
Definition status_body (st : string) : string :=
  "{" +:+ Json.quoted "status" +:+ ":" +:+ Json.quoted st +:+ "}".

Definition active_then (n : nat) (last : result Response)
    (rest : list (result Response)) : list (result Response) :=
  repeat (respond 200 (status_body "ACTIVE")) n ++ last :: rest.

(** A submission from a dataset with a volume, and the server's answer. *)
Definition dataset_request : Jobs.SubmitJobRequest := {|
  Jobs.JobStatement := "";
  Jobs.JobDataSet := "USER.JCL";
  Jobs.JobLocalFile := "";
  Jobs.Volume := "VOL001";
  Jobs.Directory := "";
  Jobs.Extension := ""
|}.

Definition submitted : result Response :=
  respond 201 ("{" +:+ Json.quoted "jobid" +:+ ":" +:+ Json.quoted "JOB00001" +:+ "}").

(** A job with two spool files, the content of the first of which cannot
be fetched. *)
Definition spool_script : list (result Response) :=
  [ respond 200
      ("[{" +:+ Json.quoted "id" +:+ ":1," +:+ Json.quoted "ddname" +:+ ":"
       +:+ Json.quoted "JESMSGLG" +:+ "},{" +:+ Json.quoted "id" +:+ ":2,"
       +:+ Json.quoted "ddname" +:+ ":" +:+ Json.quoted "JESJCL" +:+ "}]");
    respond 500 "boom";
    respond 200 "HELLO" ].

(** The two shapes of a job list with no job in it. *)
Definition empty_object_body : string := "{" +:+ Json.quoted "jobs" +:+ ":[]}".
Definition empty_array_body : string := "[]".

End Mock.

(** ** The specification's wording of the validated names *)

Module DatasetsSpec.

Definition capital (c : ascii) : Prop := (65 ≤ N_of_ascii c ≤ 90)%N.
Definition digit (c : ascii) : Prop := (48 ≤ N_of_ascii c ≤ 57)%N.

(** The first character is from [{A-Z,@,#,$}]. *)
Definition first_char_ok (c : ascii) : Prop :=
  capital c ∨ c = "@"%char ∨ c = "#"%char ∨ c = "$"%char.

(** A subsequent character is from [{A-Z,0-9,@,#,$,-,.}]. *)
Definition other_char_ok (c : ascii) : Prop :=
  capital c ∨ digit c ∨ c = "@"%char ∨ c = "#"%char ∨ c = "$"%char
  ∨ c = "-"%char ∨ c = "."%char.

(** [sub] occurs somewhere in [s]. *)
Definition occurs (sub s : string) : Prop := ∃ a b, s = a +:+ sub +:+ b.

(** A dataset name that respects every rule. With the character rules in
force every character is one byte, so the length in characters is the
length in bytes. *)
Definition valid_dataset_name (name : string) : Prop :=
  name ≠ "" ∧
  (String.length name ≤ 44)%nat ∧
  (∀ c rest, name = String c rest →
     first_char_ok c ∧ ∀ x, x ∈ list_ascii_of_string rest → other_char_ok x) ∧
  ¬ occurs ".." name ∧
  ¬ occurs "--" name ∧
  ¬ (∃ t, name = "." +:+ t) ∧
  ¬ (∃ t, name = t +:+ ".").

(** The reasons [ValidateDatasetName] gives. *)
Definition reasons : list string :=
  [ "dataset name cannot be empty";
    "dataset name cannot exceed 44 characters";
    "dataset name contains invalid characters";
    "dataset name cannot contain consecutive periods";
    "dataset name cannot start or end with a period";
    "dataset name cannot contain consecutive hyphens" ].

(** The value of the row limit header for a filter. *)
Definition max_items (filter : option Datasets.DatasetFilter) : string :=
  match filter with
  | Some f =>
      if bool_decide (0 < Datasets.Limit f) then GoStrings.Itoa (Datasets.Limit f)
      else "0"
  | None => "0"
  end.

(** A filter that supplies neither a name pattern nor a volume. *)
Definition no_pattern_no_volume (filter : option Datasets.DatasetFilter) : Prop :=
  match filter with
  | Some f => Datasets.Name f = "" ∧ Datasets.Volume f = ""
  | None => True
  end.

(** The query parameters the second copy of [ListDatasets] sends for a
filter without pattern and volume. *)
Definition default_params (user : string) (filter : option Datasets.DatasetFilter) :
    gmap string string :=
  <["dslevel" := user +:+ ".*"]>
    match filter with
    | Some f => if String.eqb (Datasets.Owner f) "" then ∅ else <["start" := Datasets.Owner f]> ∅
    | None => ∅
    end.

End DatasetsSpec.

(** ** The specification's wording of the completion check *)

Module JobsSpec.

(** The upper-cased status contains one of the words of the completion
vocabulary. *)
Definition has_completion_word (upper : string) : Prop :=
  DatasetsSpec.occurs "OUTPUT" upper ∨ DatasetsSpec.occurs "CC 0000" upper
  ∨ DatasetsSpec.occurs "CC 0001" upper ∨ DatasetsSpec.occurs "CC 0002" upper
  ∨ DatasetsSpec.occurs "CC 0003" upper ∨ DatasetsSpec.occurs "CC 0004" upper
  ∨ DatasetsSpec.occurs "ABEND" upper.

(** The source of the job a submission request chooses: the first of the
three that is set. *)
Inductive Source : Type := FromStatement | FromDataSet | FromLocalFile.

Definition chosen_source (r : Jobs.SubmitJobRequest) : option Source :=
  if bool_decide (Jobs.JobStatement r ≠ "") then Some FromStatement
  else if bool_decide (Jobs.JobDataSet r ≠ "") then Some FromDataSet
  else if bool_decide (Jobs.JobLocalFile r ≠ "") then Some FromLocalFile
  else None.

(** An optional field is carried when it is set. *)
Definition optional (s : string) : option string :=
  if bool_decide (s = "") then None else Some s.

(** The fields of the request body for each source: a statement carries
itself; a dataset optionally carries [volume]; a local file optionally
carries [directory] and [extension]. *)
Definition body_field (src : Source) (r : Jobs.SubmitJobRequest) (key : string) :
    option string :=
  match src with
  | FromStatement =>
      if bool_decide (key = "jobStatement") then Some (Jobs.JobStatement r)
      else None
  | FromDataSet =>
      if bool_decide (key = "jobDataSet") then Some (Jobs.JobDataSet r)
      else if bool_decide (key = "volume") then optional (Jobs.Volume r)
      else None
  | FromLocalFile =>
      if bool_decide (key = "jobLocalFile") then Some (Jobs.JobLocalFile r)
      else if bool_decide (key = "directory") then optional (Jobs.Directory r)
      else if bool_decide (key = "extension") then optional (Jobs.Extension r)
      else None
  end.

(** The success codes of a submission. *)
Definition submit_success (code : Z) : Prop := code = 200 ∨ code = 201 ∨ code = 202.

Section Output.
Context `{G : HTTP.GoLib} `{R : HTTP.Runtime} `{T : Jobs.JobTypes}.

(** What [SubmitJob] does once the request body is chosen: one PUT to the
jobs endpoint, then the reading of the response. *)
Definition send_job_body (jm : Jobs.ZOSMFJobManager) (body : gmap string string)
    (w : HTTP.World) : result Jobs.SubmitJobResponse * HTTP.World :=
  match HTTP.NewRequest "PUT"
          (Profile.GetBaseURL (Jobs.session jm) +:+ Jobs.JobsEndpoint)
          (Some (HTTP.Marshal (HTTP.GoStringMap body))) with
  | Err e => (Err ("failed to create request: " +:+ e), w)
  | Ok req =>
      let req := HTTP.add_session_headers (Jobs.session jm) req in
      match HTTP.Do (Profile.GetHTTPClient (Jobs.session jm)) req w with
      | (Err e, w1) => (Err ("failed to make request: " +:+ e), w1)
      | (Ok resp, w1) =>
          if negb (HTTP.StatusCode resp =? 201) && negb (HTTP.StatusCode resp =? 200)
             && negb (HTTP.StatusCode resp =? 202)
          then (Err (HTTP.api_error resp), w1)
          else
            match HTTP.Decode Jobs.SubmitJobResponse_of_json resp with
            | Err e => (Err ("failed to decode response: " +:+ e), w1)
            | Ok submitResponse => (Ok submitResponse, w1)
            end
      end
  end.

(** The content requests for a list of spool files, one after the other,
each with its result. *)
Fixpoint fetch_all (jm : Jobs.ZOSMFJobManager) (correlator : string)
    (files : list Jobs.SpoolFile) (w : HTTP.World) :
    list (Jobs.SpoolFile * result string) * HTTP.World :=
  match files with
  | [] => ([], w)
  | f :: rest =>
      let '(r, w1) := Jobs.GetSpoolFileContent jm correlator (Jobs.ID f) w in
      let '(rs, w2) := fetch_all jm correlator rest w1 in
      ((f, r) :: rs, w2)
  end.

(** The map of the content that was fetched, by DD name, a later file
replacing an earlier one of the same name; a file whose request failed
adds nothing. *)
Definition kept (results : list (Jobs.SpoolFile * result string))
    (start : gmap string string) : gmap string string :=
  foldl (λ m fr,
           match fr.2 with
           | Ok content => <[Jobs.DDName fr.1 := content]> m
           | Err _ => m
           end)
        start results.

End Output.

(** A clock that does not run backwards over a request and that a sleep
advances by at least the time asked. *)
Definition clock_advances (R : HTTP.Runtime) : Prop :=
  (∀ c req w, @HTTP.Now R w ≤ @HTTP.Now R (@HTTP.Do R c req w).2)
  ∧ (∀ d w, @HTTP.Now R w + d ≤ @HTTP.Now R (@HTTP.Sleep R d w)).

(** The text of the error [WaitForJobCompletion] gives up with. *)
Definition timeout_error (correlator : string) : string :=
  "timeout waiting for job " +:+ correlator +:+ " to complete".

End JobsSpec.

(** ** Package [profile]: the helper that copies a profile *)

Module ProfileUtils.
Import Profile.

(** [CloneProfile]: the literal copies seven fields. *)
Definition CloneProfile (profile : ZOSMFProfile) : ZOSMFProfile :=
  {| Name := Name profile; Host := Host profile; Port := Port profile;
     User := User profile; Password := Password profile;
     RejectUnauthorized := RejectUnauthorized profile;
     BasePath := BasePath profile; Protocol := "" |}.

End ProfileUtils.

(** ** Package [jobs]: the operations of the manager that only report success *)

Module JobsManager.
Import HTTP Jobs.

Section Manager.
Context `{G : GoLib} `{R : Runtime}.

(** [CancelJob]; the result is the error, [None] for [nil]. *)
Definition CancelJob (jm : ZOSMFJobManager) (jobID : string) (w : World) :
    option string * World :=
  let session := session jm in
  let apiURL :=
    Profile.GetBaseURL session +:+ JobByCorrelatorEndpoint (PathEscape jobID)
    +:+ CancelEndpoint in
  match NewRequest "PUT" apiURL None with
  | Err e => (Some ("failed to create request: " +:+ e), w)
  | Ok req =>
      let req := add_session_headers session req in
      match Do (Profile.GetHTTPClient session) req w with
      | (Err e, w1) => (Some ("failed to make request: " +:+ e), w1)
      | (Ok resp, w1) =>
          if negb (StatusCode resp =? 200) && negb (StatusCode resp =? 204)
          then (Some (api_error resp), w1)
          else (None, w1)
      end
  end.

(** [DeleteJob] *)
Definition DeleteJob (jm : ZOSMFJobManager) (jobID : string) (w : World) :
    option string * World :=
  let session := session jm in
  let apiURL :=
    Profile.GetBaseURL session +:+ JobByCorrelatorEndpoint (PathEscape jobID) in
  match NewRequest "DELETE" apiURL None with
  | Err e => (Some ("failed to create request: " +:+ e), w)
  | Ok req =>
      let req := add_session_headers session req in
      match Do (Profile.GetHTTPClient session) req w with
      | (Err e, w1) => (Some ("failed to make request: " +:+ e), w1)
      | (Ok resp, w1) =>
          if negb (StatusCode resp =? 200) && negb (StatusCode resp =? 204)
          then (Some (api_error resp), w1)
          else (None, w1)
      end
  end.

(** [PurgeJob] *)
Definition PurgeJob (jm : ZOSMFJobManager) (jobID : string) (w : World) :
    option string * World :=
  let session := session jm in
  let apiURL :=
    Profile.GetBaseURL session +:+ JobByCorrelatorEndpoint (PathEscape jobID)
    +:+ PurgeEndpoint in
  match NewRequest "PUT" apiURL None with
  | Err e => (Some ("failed to create request: " +:+ e), w)
  | Ok req =>
      let req := add_session_headers session req in
      match Do (Profile.GetHTTPClient session) req w with
      | (Err e, w1) => (Some ("failed to make request: " +:+ e), w1)
      | (Ok resp, w1) =>
          if negb (StatusCode resp =? 200) && negb (StatusCode resp =? 204)
          then (Some (api_error resp), w1)
          else (None, w1)
      end
  end.

End Manager.

End JobsManager.

(** ** Package [jobs]: the convenience functions *)

Module JobsConvenience.
Import HTTP Jobs.

(** [isValidDatasetChar]. The caller ranges over the runes of the name; a
rune outside ASCII, or the replacement rune that stands for a byte that is
not UTF-8, is not valid, so the name passes exactly when each of its bytes
is an ASCII character that is valid. *)
Definition isValidDatasetChar (char : ascii) : bool :=
  GoStrings.byte_in "A" "Z" char || GoStrings.byte_in "0" "9" char
  || Ascii.eqb char "@" || Ascii.eqb char "#" || Ascii.eqb char "$"
  || Ascii.eqb char "-" || Ascii.eqb char ".".

(** [isValidDatasetName] *)
Definition isValidDatasetName (dataset : string) : bool :=
  if (GoStrings.len dataset =? 0) || (GoStrings.len dataset >? 44) then false
  else
    match dataset with
    | EmptyString => false
    | String first _ =>
        if GoStrings.byte_in "0" "9" first then false
        else string_forallb isValidDatasetChar dataset
    end.

(** [ValidateJobRequest]; [None] as request is the [nil] pointer. *)
Definition ValidateJobRequest `{GoLib} (request : option SubmitJobRequest) :
    option string :=
  match request with
  | None => Some "job request cannot be nil"
  | Some request =>
      if String.eqb (JobStatement request) "" && String.eqb (JobDataSet request) ""
         && String.eqb (JobLocalFile request) ""
      then Some "at least one job source must be specified (jobStatement, jobDataSet, or jobLocalFile)"
      else if negb (String.eqb (JobStatement request) "")
              && negb (GoStrings.Contains
                         (GoStrings.ToUpper unicodeUpper (JobStatement request)) "JOB")
      then Some "job statement must contain a JOB card"
      else if negb (String.eqb (JobDataSet request) "")
              && negb (isValidDatasetName (JobDataSet request))
      then Some ("invalid dataset name: " +:+ JobDataSet request)
      else None
  end.

(** [CreateSimpleJobStatement] *)
Definition CreateSimpleJobStatement (jobName account user msgClass msgLevel : string) :
    string :=
  let jobName := if String.eqb jobName "" then "GOJOB" else jobName in
  let account := if String.eqb account "" then "ACCT" else account in
  let user := if String.eqb user "" then "USER" else user in
  let msgClass := if String.eqb msgClass "" then "A" else msgClass in
  let msgLevel := if String.eqb msgLevel "" then "(1,1)" else msgLevel in
  "//" +:+ jobName +:+ " JOB (" +:+ account +:+ "),'" +:+ user
  +:+ "',MSGCLASS=" +:+ msgClass +:+ ",MSGLEVEL=" +:+ msgLevel.

Definition newline : string := String (ascii_of_N 10) "".

(** [CreateJobWithStep] *)
Definition CreateJobWithStep (jobName account user msgClass msgLevel stepName pgm : string)
    (ddStatements : list string) : string :=
  let jobStatement := CreateSimpleJobStatement jobName account user msgClass msgLevel in
  let jcl := jobStatement +:+ newline in
  let stepName := if String.eqb stepName "" then "STEP1" else stepName in
  let jcl := jcl +:+ ("//" +:+ stepName +:+ " EXEC PGM=" +:+ pgm +:+ newline) in
  foldl (λ jcl ddStatement, jcl +:+ (ddStatement +:+ newline)) jcl ddStatements.

Section Manager.
Context `{G : GoLib} `{R : Runtime} `{T : JobTypes}.

(** [SubmitJobStatement] *)
Definition SubmitJobStatement (jm : ZOSMFJobManager) (jclStatement : string) :
    World → result SubmitJobResponse * World :=
  let request :=
    {| JobStatement := jclStatement; JobDataSet := ""; JobLocalFile := "";
       Volume := ""; Directory := ""; Extension := "" |} in
  SubmitJob jm request.

(** [SubmitJobFromDataset] *)
Definition SubmitJobFromDataset (jm : ZOSMFJobManager) (dataset volume : string) :
    World → result SubmitJobResponse * World :=
  let request :=
    {| JobStatement := ""; JobDataSet := dataset; JobLocalFile := "";
       Volume := volume; Directory := ""; Extension := "" |} in
  SubmitJob jm request.

(** [SubmitJobFromLocalFile] *)
Definition SubmitJobFromLocalFile (jm : ZOSMFJobManager)
    (localFile directory extension : string) :
    World → result SubmitJobResponse * World :=
  let request :=
    {| JobStatement := ""; JobDataSet := ""; JobLocalFile := localFile;
       Volume := ""; Directory := directory; Extension := extension |} in
  SubmitJob jm request.

(** The search of [GetJobOutputByDDName] through the spool files: the
content of the first file with the DD name, or the error that there is
none. *)
Fixpoint GetJobOutputByDDName_loop (jm : ZOSMFJobManager) (correlator ddName : string)
    (spoolFiles : list SpoolFile) (w : World) : result string * World :=
  match spoolFiles with
  | [] =>
      (Err ("DD name " +:+ ddName +:+ " not found for job " +:+ correlator), w)
  | spoolFile :: rest =>
      if String.eqb (DDName spoolFile) ddName then
        match GetSpoolFileContent jm correlator (ID spoolFile) w with
        | (Err e, w1) =>
            (Err ("failed to get content for DD " +:+ ddName +:+ ": " +:+ e), w1)
        | (Ok content, w1) => (Ok content, w1)
        end
      else GetJobOutputByDDName_loop jm correlator ddName rest w
  end.

(** [GetJobOutputByDDName] *)
Definition GetJobOutputByDDName (jm : ZOSMFJobManager) (correlator ddName : string)
    (w : World) : result string * World :=
  match GetSpoolFiles jm correlator w with
  | (Err e, w1) => (Err ("failed to get spool files: " +:+ e), w1)
  | (Ok spoolFiles, w1) =>
      GetJobOutputByDDName_loop jm correlator ddName spoolFiles w1
  end.

End Manager.

End JobsConvenience.

(** ** Package [datasets]: requests and their validation *)

Module DatasetRequests.
Import HTTP.

(** The constants of the types [DatasetType], [SpaceUnit], [RecordFormat],
[RecordLength] and [BlockSize]; the first three are strings, the last two
are integers. *)
Definition DatasetTypeSequential : string := "SEQ".
Definition DatasetTypePartitioned : string := "PO".
Definition DatasetTypePDSE : string := "PDSE".
Definition DatasetTypeVSAM : string := "VSAM".

Definition SpaceUnitTracks : string := "TRK".
Definition SpaceUnitCylinders : string := "CYL".
Definition SpaceUnitKB : string := "KB".
Definition SpaceUnitMB : string := "MB".
Definition SpaceUnitGB : string := "GB".

Definition RecordFormatFixed : string := "F".
Definition RecordFormatVariable : string := "V".
Definition RecordFormatUndefined : string := "U".

Definition RecordLength80 : Z := 80.
Definition RecordLength132 : Z := 132.
Definition RecordLength256 : Z := 256.
Definition RecordLength512 : Z := 512.

Definition BlockSize80 : Z := 80.
Definition BlockSize800 : Z := 800.
Definition BlockSize27920 : Z := 27920.
Definition BlockSize32760 : Z := 32760.

(** [Space]; [SpaceDirectory] is its field [Directory]. *)
Record Space : Type := {
  Primary : Z;
  Secondary : Z;
  Unit : string;
  SpaceDirectory : Z
}.

(** [CreateDatasetRequest]; [Type_] is its field [Type] and [Space_] its
field [Space]. *)
Record CreateDatasetRequest : Type := {
  Name : string;
  Type_ : string;
  Volume : string;
  Space_ : Space;
  RecordFormat : string;
  RecordLength : Z;
  BlockSize : Z;
  Directory : Z
}.

Record UploadRequest : Type := {
  DatasetName : string;
  MemberName : string;
  Content : string;
  Encoding : string;
  Replace : bool
}.

(** [DownloadRequest]; the fields have the names of those of
[UploadRequest], so they carry a prefix here. *)
Record DownloadRequest : Type := {
  DownloadDatasetName : string;
  DownloadMemberName : string;
  DownloadEncoding : string
}.

(** [ValidateMemberName]; the result is the error, [None] for [nil]. The
pattern is that of [ValidateDatasetName]. *)
Definition ValidateMemberName (name : string) : option string :=
  if String.eqb name "" then
    Some "member name cannot be empty"
  else if GoStrings.len name >? 8 then
    Some "member name cannot exceed 8 characters"
  else if negb (Regexp.MatchString Datasets.validPattern name) then
    Some "member name contains invalid characters"
  else if GoStrings.Contains name ".." then
    Some "member name cannot contain consecutive periods"
  else if GoStrings.HasPrefix name "." || GoStrings.HasSuffix name "." then
    Some "member name cannot start or end with a period"
  else None.

(** [ValidateCreateDatasetRequest]; [None] as request is the [nil]
pointer. *)
Definition ValidateCreateDatasetRequest (request : option CreateDatasetRequest) :
    option string :=
  match request with
  | None => Some "request cannot be nil"
  | Some request =>
      match Datasets.ValidateDatasetName (Name request) with
      | Some err => Some ("invalid dataset name: " +:+ err)
      | None =>
          if negb (String.eqb (Type_ request) DatasetTypeSequential
                   || String.eqb (Type_ request) DatasetTypePartitioned
                   || String.eqb (Type_ request) DatasetTypePDSE
                   || String.eqb (Type_ request) DatasetTypeVSAM)
          then Some ("invalid dataset type: " +:+ Type_ request)
          else if Primary (Space_ request) <=? 0
          then Some "primary space allocation must be greater than 0"
          else if Secondary (Space_ request) <? 0
          then Some "secondary space allocation cannot be negative"
          else if negb (String.eqb (Unit (Space_ request)) SpaceUnitTracks
                        || String.eqb (Unit (Space_ request)) SpaceUnitCylinders
                        || String.eqb (Unit (Space_ request)) SpaceUnitKB
                        || String.eqb (Unit (Space_ request)) SpaceUnitMB
                        || String.eqb (Unit (Space_ request)) SpaceUnitGB)
          then Some ("invalid space unit: " +:+ Unit (Space_ request))
          else if negb (String.eqb (RecordFormat request) "")
                  && negb (String.eqb (RecordFormat request) RecordFormatFixed
                           || String.eqb (RecordFormat request) RecordFormatVariable
                           || String.eqb (RecordFormat request) RecordFormatUndefined)
          then Some ("invalid record format: " +:+ RecordFormat request)
          else if (RecordLength request >? 0)
                  && ((RecordLength request <? 1) || (RecordLength request >? 32760))
          then Some "record length must be between 1 and 32760"
          else if (BlockSize request >? 0)
                  && ((BlockSize request <? 1) || (BlockSize request >? 32760))
          then Some "block size must be between 1 and 32760"
          else if String.eqb (Type_ request) DatasetTypePartitioned
                  && (Directory request >? 0)
                  && ((Directory request <? 1) || (Directory request >? 9999))
          then Some "directory blocks must be between 1 and 9999"
          else None
      end
  end.

(** [ValidateUploadRequest] *)
Definition ValidateUploadRequest (request : option UploadRequest) : option string :=
  match request with
  | None => Some "request cannot be nil"
  | Some request =>
      match Datasets.ValidateDatasetName (DatasetName request) with
      | Some err => Some ("invalid dataset name: " +:+ err)
      | None =>
          match
            (if negb (String.eqb (MemberName request) "")
             then ValidateMemberName (MemberName request) else None)
          with
          | Some err => Some ("invalid member name: " +:+ err)
          | None =>
              if String.eqb (Content request) ""
              then Some "content cannot be empty"
              else None
          end
      end
  end.

(** [ValidateDownloadRequest] *)
Definition ValidateDownloadRequest (request : option DownloadRequest) :
    option string :=
  match request with
  | None => Some "request cannot be nil"
  | Some request =>
      match Datasets.ValidateDatasetName (DownloadDatasetName request) with
      | Some err => Some ("invalid dataset name: " +:+ err)
      | None =>
          match
            (if negb (String.eqb (DownloadMemberName request) "")
             then ValidateMemberName (DownloadMemberName request) else None)
          with
          | Some err => Some ("invalid member name: " +:+ err)
          | None => None
          end
      end
  end.

End DatasetRequests.

(** ** Package [datasets]: the other operations of the manager

The operations are those of the second copy of the manager among the
sources, the one [DatasetManager2] takes its listing from. *)

Module DatasetOperations.
Import HTTP Datasets DatasetRequests.

Definition MembersEndpoint : string := "/member".
Definition MemberByNameEndpoint (member : string) : string := "/member/" +:+ member.

(** A value of the [map[string]interface{}] that [CreateDataset] hands to
[json.Marshal]: a string or an [int]. *)
Inductive bodyval : Type :=
  | BodyString (s : string)
  | BodyInt (n : Z).

(** [json.Marshal] on such a map, where it cannot fail. *)
Class BodyLib : Type := {
  MarshalBody : gmap string bodyval → string
}.

(** What the code reads of a [DatasetList]: its field [Datasets] and the
field [Name] of a [Dataset]. A [Dataset] holds dates that no modelled
function reads; its type is a parameter, as [DatasetList] is. *)
Class DatasetView `{DatasetTypes} : Type := {
  Dataset : Type;
  Dataset_Name : Dataset → string;
  Datasets_of : DatasetList → list Dataset
}.

Section Manager.
Context `{G : GoLib} `{R : Runtime} `{T : DatasetTypes} `{V : !DatasetView}
  `{B : BodyLib}.

(** The loop of [GetDataset] and of [Exists] over the listing: the first
dataset with the name. *)
Fixpoint find_dataset (name : string) (datasets : list Dataset) : option Dataset :=
  match datasets with
  | [] => None
  | ds :: rest =>
      if String.eqb (Dataset_Name ds) name then Some ds
      else find_dataset name rest
  end.

Definition name_filter (name : string) : DatasetFilter :=
  {| Datasets.Name := name; Datasets.Type_ := ""; Datasets.Volume := "";
     Owner := ""; Limit := 0 |}.

(** [GetDataset] *)
Definition GetDataset (dm : ZOSMFDatasetManager) (name : string) (w : World) :
    result Dataset * World :=
  match DatasetManager2.ListDatasets dm (Some (name_filter name)) w with
  | (Err e, w1) => (Err e, w1)
  | (Ok dl, w1) =>
      match find_dataset name (Datasets_of dl) with
      | Some ds => (Ok ds, w1)
      | None => (Err ("dataset not found: " +:+ name), w1)
      end
  end.

(** The body of [CreateDataset]. *)
Definition create_body (request : CreateDatasetRequest) : gmap string bodyval :=
  let requestBody : gmap string bodyval :=
    <["dsorg" := BodyString (Type_ request)]>
      (<["dsname" := BodyString (Name request)]> ∅) in
  let requestBody :=
    if negb (String.eqb (Volume request) "")
    then <["vol" := BodyString (Volume request)]> requestBody
    else requestBody in
  let requestBody :=
    if Primary (Space_ request) >? 0 then
      let requestBody :=
        <["alcunit" := BodyString (Unit (Space_ request))]> requestBody in
      let requestBody :=
        <["primary" := BodyInt (Primary (Space_ request))]> requestBody in
      let requestBody :=
        <["secondary" := BodyInt (Secondary (Space_ request))]> requestBody in
      if SpaceDirectory (Space_ request) >? 0
      then <["dirblk" := BodyInt (SpaceDirectory (Space_ request))]> requestBody
      else requestBody
    else requestBody in
  let requestBody :=
    if negb (String.eqb (RecordFormat request) "")
    then <["recfm" := BodyString (RecordFormat request)]> requestBody
    else requestBody in
  let requestBody :=
    if RecordLength request >? 0
    then <["lrecl" := BodyInt (RecordLength request)]> requestBody
    else requestBody in
  let requestBody :=
    if BlockSize request >? 0
    then <["blksize" := BodyInt (BlockSize request)]> requestBody
    else requestBody in
  if Directory request >? 0
  then <["dirblk" := BodyInt (Directory request)]> requestBody
  else requestBody.

(** [CreateDataset]; the result is the error, [None] for [nil]. *)
Definition CreateDataset (dm : ZOSMFDatasetManager) (request : CreateDatasetRequest)
    (w : World) : option string * World :=
  let session := session dm in
  let apiURL :=
    Profile.GetBaseURL session +:+ DatasetByNameEndpoint (PathEscape (Name request)) in
  let jsonBody := MarshalBody (create_body request) in
  match NewRequest "POST" apiURL (Some jsonBody) with
  | Err e => (Some ("failed to create request: " +:+ e), w)
  | Ok req =>
      let req := add_session_headers session req in
      let req := Request_Header_Set "Content-Type" "application/json" req in
      match Do (Profile.GetHTTPClient session) req w with
      | (Err e, w1) => (Some ("failed to make request: " +:+ e), w1)
      | (Ok resp, w1) =>
          if negb (StatusCode resp =? 201) && negb (StatusCode resp =? 200)
          then (Some (api_error resp), w1)
          else (None, w1)
      end
  end.

(** [DeleteDataset] *)
Definition DeleteDataset (dm : ZOSMFDatasetManager) (name : string) (w : World) :
    option string * World :=
  let session := session dm in
  let apiURL :=
    Profile.GetBaseURL session +:+ DatasetByNameEndpoint (PathEscape name) in
  match NewRequest "DELETE" apiURL None with
  | Err e => (Some ("failed to create request: " +:+ e), w)
  | Ok req =>
      let req := add_session_headers session req in
      match Do (Profile.GetHTTPClient session) req w with
      | (Err e, w1) => (Some ("failed to make request: " +:+ e), w1)
      | (Ok resp, w1) =>
          if negb (StatusCode resp =? 200) && negb (StatusCode resp =? 204)
          then (Some (api_error resp), w1)
          else (None, w1)
      end
  end.

(** The address of a dataset or of one of its members, as [UploadContent]
and [DownloadContent] build it. *)
Definition content_URL (session : Profile.Session) (datasetName memberName : string) :
    string :=
  if negb (String.eqb memberName "") then
    Profile.GetBaseURL session
    +:+ ("/restfiles/ds/" +:+ PathEscape datasetName +:+ "("
         +:+ PathEscape memberName +:+ ")")
  else
    Profile.GetBaseURL session +:+ DatasetByNameEndpoint (PathEscape datasetName).

(** [UploadContent] *)
Definition UploadContent (dm : ZOSMFDatasetManager) (request : UploadRequest)
    (w : World) : option string * World :=
  let session := session dm in
  let apiURL := content_URL session (DatasetName request) (MemberName request) in
  match
    (if negb (String.eqb (MemberName request) "")
     then NewRequest "PUT" apiURL (Some (Content request))
     else NewRequest "PUT" apiURL (Some (Content request)))
  with
  | Err e => (Some ("failed to create request: " +:+ e), w)
  | Ok req =>
      let req := add_session_headers session req in
      let req := Request_Header_Set "Content-Type" "text/plain" req in
      match Do (Profile.GetHTTPClient session) req w with
      | (Err e, w1) => (Some ("failed to make request: " +:+ e), w1)
      | (Ok resp, w1) =>
          if negb (StatusCode resp =? 201) && negb (StatusCode resp =? 200)
             && negb (StatusCode resp =? 204)
          then (Some (api_error resp), w1)
          else (None, w1)
      end
  end.

(** [DownloadContent] *)
Definition DownloadContent (dm : ZOSMFDatasetManager) (request : DownloadRequest)
    (w : World) : result string * World :=
  let session := session dm in
  let apiURL :=
    content_URL session (DownloadDatasetName request) (DownloadMemberName request) in
  let params : gmap string string := ∅ in
  let params :=
    if negb (String.eqb (DownloadEncoding request) "")
    then <["encoding" := DownloadEncoding request]> params else params in
  let apiURL :=
    if (0 <? size params)%nat then apiURL +:+ ("?" +:+ Values_Encode params)
    else apiURL in
  match NewRequest "GET" apiURL None with
  | Err e => (Err ("failed to create request: " +:+ e), w)
  | Ok req =>
      let req := add_session_headers session req in
      match Do (Profile.GetHTTPClient session) req w with
      | (Err e, w1) => (Err ("failed to make request: " +:+ e), w1)
      | (Ok resp, w1) =>
          if negb (StatusCode resp =? 200) then (Err (api_error resp), w1)
          else
            match ReadErr resp with
            | Some e => (Err ("failed to read response body: " +:+ e), w1)
            | None => (Ok (RespBody resp), w1)
            end
      end
  end.

(** [DeleteMember] *)
Definition DeleteMember (dm : ZOSMFDatasetManager) (datasetName memberName : string)
    (w : World) : option string * World :=
  let session := session dm in
  let apiURL :=
    Profile.GetBaseURL session +:+ DatasetByNameEndpoint (PathEscape datasetName)
    +:+ MemberByNameEndpoint (PathEscape memberName) in
  match NewRequest "DELETE" apiURL None with
  | Err e => (Some ("failed to create request: " +:+ e), w)
  | Ok req =>
      let req := add_session_headers session req in
      match Do (Profile.GetHTTPClient session) req w with
      | (Err e, w1) => (Some ("failed to make request: " +:+ e), w1)
      | (Ok resp, w1) =>
          if negb (StatusCode resp =? 200) && negb (StatusCode resp =? 204)
          then (Some (api_error resp), w1)
          else (None, w1)
      end
  end.

(** [Exists] *)
Definition Exists (dm : ZOSMFDatasetManager) (name : string) (w : World) :
    result bool * World :=
  match DatasetManager2.ListDatasets dm (Some (name_filter name)) w with
  | (Err e, w1) => (Err e, w1)
  | (Ok dl, w1) =>
      (Ok (existsb (λ ds, String.eqb (Dataset_Name ds) name) (Datasets_of dl)), w1)
  end.

(** [RenameDataset] *)
Definition RenameDataset (dm : ZOSMFDatasetManager) (oldName newName : string)
    (w : World) : option string * World :=
  let session := session dm in
  let apiURL :=
    Profile.GetBaseURL session +:+ DatasetByNameEndpoint (PathEscape newName) in
  let requestBody : gmap string goval :=
    <["from-dataset" := GoStringMap {[ "dsn" := oldName ]}]>
      {[ "request" := GoString "rename" ]} in
  let jsonBody := Marshal (GoMap requestBody) in
  match NewRequest "PUT" apiURL (Some jsonBody) with
  | Err e => (Some ("failed to create request: " +:+ e), w)
  | Ok req =>
      let req := add_session_headers session req in
      let req := Request_Header_Set "Content-Type" "application/json" req in
      match Do (Profile.GetHTTPClient session) req w with
      | (Err e, w1) => (Some ("failed to make request: " +:+ e), w1)
      | (Ok resp, w1) =>
          if negb (StatusCode resp =? 201) && negb (StatusCode resp =? 200)
          then (Some (api_error resp), w1)
          else (None, w1)
      end
  end.

(** [CreateSequentialDataset] *)
Definition sequential_request (name : string) : CreateDatasetRequest :=
  {| Name := name; Type_ := DatasetTypeSequential; Volume := "";
     Space_ := {| Primary := 10; Secondary := 5; Unit := SpaceUnitTracks;
                  SpaceDirectory := 0 |};
     RecordFormat := RecordFormatVariable; RecordLength := RecordLength256;
     BlockSize := BlockSize27920; Directory := 0 |}.

Definition CreateSequentialDataset (dm : ZOSMFDatasetManager) (name : string) :
    World → option string * World :=
  CreateDataset dm (sequential_request name).

(** [CreatePartitionedDataset] *)
Definition partitioned_request (name : string) : CreateDatasetRequest :=
  {| Name := name; Type_ := DatasetTypePartitioned; Volume := "";
     Space_ := {| Primary := 10; Secondary := 5; Unit := SpaceUnitTracks;
                  SpaceDirectory := 5 |};
     RecordFormat := RecordFormatVariable; RecordLength := RecordLength256;
     BlockSize := BlockSize27920; Directory := 5 |}.

Definition CreatePartitionedDataset (dm : ZOSMFDatasetManager) (name : string) :
    World → option string * World :=
  CreateDataset dm (partitioned_request name).

(** [CreateDatasetWithOptions] *)
Definition options_request (name datasetType : string) (space : Space)
    (recordFormat : string) (recordLength blockSize : Z) : CreateDatasetRequest :=
  let request :=
    {| Name := name; Type_ := datasetType; Volume := ""; Space_ := space;
       RecordFormat := recordFormat; RecordLength := recordLength;
       BlockSize := blockSize; Directory := 0 |} in
  if String.eqb datasetType DatasetTypePartitioned && (SpaceDirectory space =? 0)
  then
    {| Name := Name request; Type_ := Type_ request; Volume := Volume request;
       Space_ := Space_ request; RecordFormat := RecordFormat request;
       RecordLength := RecordLength request; BlockSize := BlockSize request;
       Directory := 5 |}
  else request.

Definition CreateDatasetWithOptions (dm : ZOSMFDatasetManager)
    (name datasetType : string) (space : Space) (recordFormat : string)
    (recordLength blockSize : Z) : World → option string * World :=
  CreateDataset dm
    (options_request name datasetType space recordFormat recordLength blockSize).

(** [GetDatasetsByType] *)
Definition GetDatasetsByType (dm : ZOSMFDatasetManager) (datasetType : string)
    (limit : Z) : World → result DatasetList * World :=
  let filter :=
    {| Datasets.Name := ""; Datasets.Type_ := datasetType;
       Datasets.Volume := ""; Owner := ""; Limit := limit |} in
  DatasetManager2.ListDatasets dm (Some filter).

End Manager.

End DatasetOperations.

(** ** Package [profile]: the profile manager and the configuration file *)

Module ProfileManager.
Import Profile HTTP.

(** A value of type [interface{}]: what [encoding/json] decodes into one
([nil], a [bool], a [float64], a [string], a slice, a map), and the [int]
that [SaveZOSMFProfile] stores. A [float64] is here only as decoded from a
number literal of the file and is kept as that literal. *)
Inductive value : Type :=
  | VNil
  | VBool (b : bool)
  | VFloat (literal : string)
  | VInt (n : Z)
  | VString (s : string)
  | VSlice (items : list value)
  | VMap (entries : gmap string value).

(** [ZoweConfig]. A map that is [nil] is [None]: reading from it finds
nothing, assigning into it panics. *)
Record ZoweConfig : Type := {
  Profiles : option (gmap string (option (gmap string value)));
  Default : option (gmap string string)
}.

(** The functions of the standard library the manager hands values to
and whose results it only passes on. *)
Class ConfigLib : Type := {
  (** Whether [strconv.ParseFloat] accepts a number literal of JSON: it
      refuses one whose value is out of the range of a [float64]. *)
  float64_in_range : string → bool;
  (** [int(f)] for the [float64] that a number literal decodes to. *)
  float64_to_int : string → Z;
  (** [json.MarshalIndent] of a configuration, which cannot fail on the
      values a configuration holds. *)
  MarshalIndent : ZoweConfig → string;
  (** [filepath.Dir] *)
  Dir : string → string
}.

Section Decoding.
Context `{L : ConfigLib}.

(** Decoding a JSON value into an [interface{}]; of the members of an
object with the same name the last one stays; a number out of range is an
error ([None]), which [json.Unmarshal] reports once it has read the
whole text. *)
Fixpoint value_of_json (v : Json.json) : option value :=
  match v with
  | Json.JNull => Some VNil
  | Json.JBool b => Some (VBool b)
  | Json.JNumber literal =>
      if float64_in_range literal then Some (VFloat literal) else None
  | Json.JString s => Some (VString s)
  | Json.JArray items =>
      VSlice <$>
        (fix elements (items : list Json.json) : option (list value) :=
           match items with
           | [] => Some []
           | x :: rest =>
               match value_of_json x, elements rest with
               | Some a, Some others => Some (a :: others)
               | _, _ => None
               end
           end) items
  | Json.JObject members =>
      VMap <$>
        (fix entries (members : list (string * Json.json))
           (acc : gmap string value) : option (gmap string value) :=
           match members with
           | [] => Some acc
           | (k, x) :: rest =>
               match value_of_json x with
               | Some a => entries rest (<[k := a]> acc)
               | None => None
               end
           end) members ∅
  end.

(** Decoding the value of a member into an element of [Profiles], a
[map[string]interface{}] that starts as [nil]. *)
Definition section_of_json (v : Json.json) : option (option (gmap string value)) :=
  match v with
  | Json.JNull => Some None
  | Json.JObject _ =>
      match value_of_json v with
      | Some (VMap entries) => Some (Some entries)
      | _ => None
      end
  | _ => None
  end.

Definition add_section (acc : option (gmap string (option (gmap string value))))
    (kv : string * Json.json) : option (gmap string (option (gmap string value))) :=
  match acc, section_of_json kv.2 with
  | Some m, Some section => Some (<[kv.1 := section]> m)
  | _, _ => None
  end.

(** Decoding the value of a member into an element of [Default], a
string that starts empty and that [null] leaves so. *)
Definition add_default (acc : option (gmap string string))
    (kv : string * Json.json) : option (gmap string string) :=
  match acc, kv.2 with
  | Some m, Json.JString s => Some (<[kv.1 := s]> m)
  | Some m, Json.JNull => Some (<[kv.1 := ""]> m)
  | _, _ => None
  end.

(** One member of the object decoded into a [ZoweConfig]: [null] makes
the field's map [nil]; an object adds its members to the map the field
holds, or to a new one; a member of another name is skipped; anything
else is a type error ([None]). *)
Definition add_field (acc : option ZoweConfig) (kv : string * Json.json) :
    option ZoweConfig :=
  match acc with
  | None => None
  | Some config =>
      if Json.field_matches "profiles" kv.1 then
        match kv.2 with
        | Json.JNull => Some {| Profiles := None; Default := Default config |}
        | Json.JObject members =>
            match foldl add_section (Some (default ∅ (Profiles config))) members with
            | Some m => Some {| Profiles := Some m; Default := Default config |}
            | None => None
            end
        | _ => None
        end
      else if Json.field_matches "default" kv.1 then
        match kv.2 with
        | Json.JNull => Some {| Profiles := Profiles config; Default := None |}
        | Json.JObject members =>
            match foldl add_default (Some (default ∅ (Default config))) members with
            | Some m => Some {| Profiles := Profiles config; Default := Some m |}
            | None => None
            end
        | _ => None
        end
      else Some config
  end.

(** Decoding a JSON value into a zero [ZoweConfig]. *)
Definition config_of_json (v : Json.json) : option ZoweConfig :=
  match v with
  | Json.JNull => Some {| Profiles := None; Default := None |}
  | Json.JObject members =>
      foldl add_field (Some {| Profiles := None; Default := None |}) members
  | _ => None
  end.

End Decoding.

(** The file system. *)
Class FileSystem : Type := {
  Files : Type;
  (** [os.IsNotExist] of the error of [os.Stat]. *)
  IsNotExist : string → Files → bool;
  ReadFile : string → Files → result string;
  MkdirAll : string → Files → option string * Files;
  WriteFile : string → string → Files → option string * Files
}.

(** A call returns or panics. *)
Inductive outcome (A : Type) : Type :=
  | Returned (a : A)
  | Panicked (msg : string).
Arguments Returned {A} a.
Arguments Panicked {A} msg.

Record ZOSMFProfileManager : Type := {
  configPath : string
}.

Definition NewProfileManagerWithPath (configPath : string) : ZOSMFProfileManager :=
  {| configPath := configPath |}.

Section Manager.
Context `{G : GoLib} `{L : ConfigLib} `{F : FileSystem}.

(** [loadConfig] *)
Definition loadConfig (pm : ZOSMFProfileManager) (fs : Files) : result ZoweConfig :=
  if IsNotExist (configPath pm) fs then
    Err ("zowe config file not found at " +:+ configPath pm)
  else
    match ReadFile (configPath pm) fs with
    | Err e => Err ("failed to read config file: " +:+ e)
    | Ok data =>
        match Unmarshal config_of_json data with
        | Err e => Err ("failed to unmarshal config: " +:+ e)
        | Ok config => Ok config
        end
    end.

(** [saveConfig] *)
Definition saveConfig (pm : ZOSMFProfileManager) (config : ZoweConfig) (fs : Files) :
    option string * Files :=
  let configDir := Dir (configPath pm) in
  match MkdirAll configDir fs with
  | (Some e, fs1) => (Some ("failed to create config directory: " +:+ e), fs1)
  | (None, fs1) =>
      let data := MarshalIndent config in
      match WriteFile (configPath pm) data fs1 with
      | (Some e, fs2) => (Some ("failed to write config file: " +:+ e), fs2)
      | (None, fs2) => (None, fs2)
      end
  end.

(** The conversion of the data of a profile in [GetZOSMFProfile]. *)
Definition profile_of_data (name : string) (profileData : value) : ZOSMFProfile :=
  match profileData with
  | VMap profileMap =>
      {| Name := name;
         Host := match profileMap !! "host" with Some (VString host) => host | _ => "" end;
         Port :=
           match profileMap !! "port" with
           | Some (VFloat port) => float64_to_int port
           | _ => 0
           end;
         User := match profileMap !! "user" with Some (VString user) => user | _ => "" end;
         Password :=
           match profileMap !! "password" with
           | Some (VString password) => password
           | _ => ""
           end;
         RejectUnauthorized :=
           match profileMap !! "rejectUnauthorized" with
           | Some (VBool rejectUnauthorized) => rejectUnauthorized
           | _ => true
           end;
         BasePath :=
           match profileMap !! "basePath" with
           | Some (VString basePath) => basePath
           | _ => ""
           end;
         Protocol := "" |}
  | _ =>
      {| Name := name; Host := ""; Port := 0; User := ""; Password := "";
         RejectUnauthorized := false; BasePath := ""; Protocol := "" |}
  end.

(** [GetZOSMFProfile] *)
Definition GetZOSMFProfile (pm : ZOSMFProfileManager) (name : string) (fs : Files) :
    result ZOSMFProfile :=
  match loadConfig pm fs with
  | Err e => Err ("failed to load config: " +:+ e)
  | Ok config =>
      match default ∅ (Profiles config) !! "zosmf" with
      | None => Err "no zosmf profiles found in configuration"
      | Some profiles =>
          match default ∅ profiles !! name with
          | None => Err ("zosmf profile '" +:+ name +:+ "' not found")
          | Some profileData => Ok (profile_of_data name profileData)
          end
      end
  end.

(** [ListZOSMFProfiles]; Go visits the map in an unspecified order, the
model takes the order of [map_to_list]. *)
Definition ListZOSMFProfiles (pm : ZOSMFProfileManager) (fs : Files) :
    result (list string) :=
  match loadConfig pm fs with
  | Err e => Err ("failed to load config: " +:+ e)
  | Ok config =>
      match default ∅ (Profiles config) !! "zosmf" with
      | None => Ok []
      | Some profiles => Ok ((map_to_list (default ∅ profiles)).*1)
      end
  end.

(** The data [SaveZOSMFProfile] stores for a profile. *)
Definition data_of_profile (profile : ZOSMFProfile) : value :=
  VMap (<["basePath" := VString (BasePath profile)]>
       (<["rejectUnauthorized" := VBool (RejectUnauthorized profile)]>
       (<["password" := VString (Password profile)]>
       (<["user" := VString (User profile)]>
       (<["port" := VInt (Port profile)]>
       (<["host" := VString (Host profile)]> ∅)))))).

(** [SaveZOSMFProfile]. A configuration that could not be loaded, for
whatever reason, is replaced by one with two empty maps. The section of
the zosmf profiles is made when it is missing or [nil]; making it assigns
into [Profiles], which panics when that map is [nil], and then nothing is
written. *)
Definition SaveZOSMFProfile (pm : ZOSMFProfileManager) (profile : ZOSMFProfile)
    (fs : Files) : outcome (option string) * Files :=
  let config :=
    match loadConfig pm fs with
    | Err _ => {| Profiles := Some ∅; Default := Some ∅ |}
    | Ok config => config
    end in
  let zosmf : option (gmap string value) :=
    match default ∅ (Profiles config) !! "zosmf" with
    | Some (Some zosmf) => Some zosmf
    | _ => None
    end in
  match zosmf, Profiles config with
  | None, None => (Panicked "assignment to entry in nil map", fs)
  | _, profiles =>
      let zosmf := default ∅ zosmf in
      let profileData := data_of_profile profile in
      let config :=
        {| Profiles :=
             Some (<["zosmf" := Some (<[Name profile := profileData]> zosmf)]>
                     (default ∅ profiles));
           Default := Default config |} in
      let '(err, fs1) := saveConfig pm config fs in (Returned err, fs1)
  end.

(** [DeleteZOSMFProfile] *)
Definition DeleteZOSMFProfile (pm : ZOSMFProfileManager) (name : string) (fs : Files) :
    option string * Files :=
  match loadConfig pm fs with
  | Err e => (Some ("failed to load config: " +:+ e), fs)
  | Ok config =>
      match default ∅ (Profiles config) !! "zosmf" with
      | None => (Some "no zosmf profiles found", fs)
      | Some profiles =>
          match default ∅ profiles !! name with
          | None => (Some ("zosmf profile '" +:+ name +:+ "' not found"), fs)
          | Some _ =>
              let config :=
                {| Profiles :=
                     Some (<["zosmf" := Some (delete name (default ∅ profiles))]>
                             (default ∅ (Profiles config)));
                   Default := Default config |} in
              saveConfig pm config fs
          end
      end
  end.

(** [CreateSession] *)
Definition CreateSession (pm : ZOSMFProfileManager) (profileName : string)
    (fs : Files) : result Session :=
  match GetZOSMFProfile pm profileName fs with
  | Err e => Err e
  | Ok profile => NewSession profile
  end.

(** [CreateJobManager] of the package [jobs] *)
Definition CreateJobManager (pm : ZOSMFProfileManager) (profileName : string)
    (fs : Files) : result Jobs.ZOSMFJobManager :=
  match GetZOSMFProfile pm profileName fs with
  | Err e => Err ("failed to get ZOSMF profile '" +:+ profileName +:+ "': " +:+ e)
  | Ok zosmfProfile =>
      match NewSession zosmfProfile with
      | Err e => Err ("failed to create session: " +:+ e)
      | Ok session => Ok (Jobs.NewJobManager session)
      end
  end.

End Manager.

End ProfileManager.

(** ** Wording of the checks on requests and of the requests sent *)

Module RequestsSpec.
Import DatasetRequests.

(** A request to create a dataset that [ValidateCreateDatasetRequest] lets
through. *)
Definition acceptable_create_request (r : CreateDatasetRequest) : Prop :=
  Datasets.ValidateDatasetName (Name r) = None
  ∧ Type_ r ∈ ["SEQ"; "PO"; "PDSE"; "VSAM"]
  ∧ 0 < Primary (Space_ r)
  ∧ 0 ≤ Secondary (Space_ r)
  ∧ Unit (Space_ r) ∈ ["TRK"; "CYL"; "KB"; "MB"; "GB"]
  ∧ RecordFormat r ∈ [""; "F"; "V"; "U"]
  ∧ RecordLength r ≤ 32760
  ∧ BlockSize r ≤ 32760
  ∧ (Type_ r = "PO" → Directory r ≤ 9999).

(** The query parameter [ListJobs] sends under a key, for a filter. *)
Definition job_query (filter : option Jobs.JobFilter) (key : string) : option string :=
  match filter with
  | None => None
  | Some f =>
      if bool_decide (key = "owner") then JobsSpec.optional (Jobs.Owner f)
      else if bool_decide (key = "prefix") then JobsSpec.optional (Jobs.Prefix f)
      else if bool_decide (key = "max-jobs") then
        if bool_decide (0 < Jobs.MaxJobs f) then Some (GoStrings.Itoa (Jobs.MaxJobs f))
        else None
      else if bool_decide (key = "jobid") then JobsSpec.optional (Jobs.JobID f)
      else if bool_decide (key = "jobname") then JobsSpec.optional (Jobs.JobName f)
      else if bool_decide (key = "status") then JobsSpec.optional (Jobs.Status f)
      else if bool_decide (key = "user-correlator") then
        JobsSpec.optional (Jobs.UserCorrelator f)
      else None
  end.

(** The request an operation makes before it adds headers of its own: the
method, the address and the body, with the headers of the session. *)
Definition plain_request (session : Profile.Session) (method url : string)
    (body : option string) : HTTP.Request :=
  HTTP.add_session_headers session
    {| HTTP.Method := method; HTTP.URL := url; HTTP.Header := ∅;
       HTTP.Body := body |}.

(** What the operations that only report success do: those that could
build their request hand it to the client once, after [finish] has set
their own headers, and accept the response when its status is one of
[codes]. *)
Definition send_and_check `{R : HTTP.Runtime} (session : Profile.Session)
    (req : result HTTP.Request) (finish : HTTP.Request → HTTP.Request)
    (codes : list Z) (w : HTTP.World) : option string * HTTP.World :=
  match req with
  | Err e => (Some ("failed to create request: " +:+ e), w)
  | Ok req =>
      let req := finish (HTTP.add_session_headers session req) in
      match HTTP.Do (Profile.GetHTTPClient session) req w with
      | (Err e, w1) => (Some ("failed to make request: " +:+ e), w1)
      | (Ok resp, w1) =>
          if bool_decide (HTTP.StatusCode resp ∈ codes) then (None, w1)
          else (Some (HTTP.api_error resp), w1)
      end
  end.

(** The three operations on a job that only report success. *)
Inductive JobAction : Type := Cancel | Purge | Delete.

Definition action_method (a : JobAction) : string :=
  match a with
  | Cancel | Purge => "PUT"
  | Delete => "DELETE"
  end.

Definition action_path (a : JobAction) (jobID : string) : string :=
  match a with
  | Cancel => "/restjobs/jobs/" +:+ jobID +:+ "/cancel"
  | Purge => "/restjobs/jobs/" +:+ jobID +:+ "/purge"
  | Delete => "/restjobs/jobs/" +:+ jobID
  end.

Definition run_action `{G : HTTP.GoLib} `{R : HTTP.Runtime} (a : JobAction) :
    Jobs.ZOSMFJobManager → string → HTTP.World → option string * HTTP.World :=
  match a with
  | Cancel => JobsManager.CancelJob
  | Purge => JobsManager.PurgeJob
  | Delete => JobsManager.DeleteJob
  end.

End RequestsSpec.

(** ** Wording of the configuration as it is read back, and a file system
to run the profile manager *)

Module ConfigSpec.
Import ProfileManager.

(** What comes back of the data of a profile once [json.MarshalIndent] has
written it and [json.Unmarshal] has read it: an [int] has become the
[float64] of its numeral. *)
Definition reread_flat (v : value) : value :=
  match v with
  | VInt n => VFloat (GoStrings.Itoa n)
  | _ => v
  end.

Definition reread (v : value) : value :=
  match v with
  | VMap entries => VMap (reread_flat <$> entries)
  | _ => reread_flat v
  end.

(** The section of the zosmf profiles of a configuration, empty when
there is none. *)
Definition zosmf_section (config : ZoweConfig) : gmap string value :=
  match default ∅ (Profiles config) !! "zosmf" with
  | Some (Some zosmf) => zosmf
  | _ => ∅
  end.

End ConfigSpec.

Module MockConfig.
Import ProfileManager.

Definition print_entries {A} (print : A → string) (m : gmap string A) : string :=
  "{" +:+
  foldr (λ kv acc,
           Json.quoted kv.1 +:+ ":" +:+ print kv.2 +:+
           (if String.eqb acc "" then "" else "," +:+ acc))
        "" (map_to_list m)
  +:+ "}".

Definition print_flat (v : value) : string :=
  match v with
  | VNil => "null"
  | VBool true => "true"
  | VBool false => "false"
  | VFloat literal => literal
  | VInt n => GoStrings.Itoa n
  | VString s => Json.quoted s
  | VSlice _ => "[]"
  | VMap _ => "{}"
  end.

Definition print_data (v : value) : string :=
  match v with
  | VMap entries => print_entries print_flat entries
  | _ => print_flat v
  end.

Definition print_section (section : option (gmap string value)) : string :=
  match section with
  | None => "null"
  | Some entries => print_entries print_data entries
  end.

(** A configuration whose profiles hold plain values, on one line. *)
Definition print_config (config : ZoweConfig) : string :=
  "{" +:+ Json.quoted "profiles" +:+ ":"
  +:+ match Profiles config with
      | None => "null"
      | Some sections => print_entries print_section sections
      end
  +:+ "," +:+ Json.quoted "default" +:+ ":"
  +:+ match Default config with
      | None => "null"
      | Some names => print_entries Json.quoted names
      end
  +:+ "}".

(** Library functions for configurations whose numbers are numerals
without sign, fraction and exponent. *)
Definition lib : ConfigLib := {|
  float64_in_range := λ _, true;
  float64_to_int := Mock.digits_value 0;
  MarshalIndent := print_config;
  Dir := λ path, path
|}.

(** A file system that holds the content of each file by its path and
refuses nothing. *)
Definition files : FileSystem := {|
  Files := gmap string string;
  IsNotExist := λ path fs, bool_decide (fs !! path = None);
  ReadFile := λ path fs,
    match fs !! path with
    | Some data => Ok data
    | None => Err "no such file or directory"
    end;
  MkdirAll := λ _ fs, (None, fs);
  WriteFile := λ path data fs, (None, <[path := data]> fs)
|}.

Definition manager : ZOSMFProfileManager :=
  NewProfileManagerWithPath "/home/user/.zowe/zowe.config.json".

(** The configuration a file system holds, empty when it does not
load. *)
Definition loaded (fs : gmap string string) : ZoweConfig :=
  match loadConfig (G := Mock.lib) (L := lib) (F := files) manager fs with
  | Ok config => config
  | Err _ => {| Profiles := None; Default := None |}
  end.

(** The configuration file after [Mock.profile] was saved with no file
there. *)
Definition saved : gmap string string :=
  (SaveZOSMFProfile (G := Mock.lib) (L := lib) (F := files) manager Mock.profile ∅).2.

(** A file with a profile of another kind, one that holds an empty
object, and one that is not JSON. *)
Definition other_kind : gmap string string :=
  {[ configPath manager :=
       "{" +:+ Json.quoted "profiles" +:+ ":{" +:+ Json.quoted "tso" +:+ ":{"
       +:+ Json.quoted "main" +:+ ":{" +:+ Json.quoted "account" +:+ ":"
       +:+ Json.quoted "ACCT" +:+ "}}}}" ]}.

Definition empty_object : gmap string string := {[ configPath manager := "{}" ]}.

Definition not_json : gmap string string := {[ configPath manager := "profiles" ]}.

End MockConfig.

(** * Properties *)

Section Append.

Lemma append_cons (c : ascii) (s t : string) :
  String c s +:+ t = String c (s +:+ t).
Proof. reflexivity. Qed.

Lemma append_nil_l (s : string) : "" +:+ s = s.
Proof. reflexivity. Qed.

Lemma append_nil_r (s : string) : s +:+ "" = s.
Proof.
  induction s as [|c s IH]; [reflexivity|].
  now rewrite append_cons, IH.
Qed.

Lemma append_assoc (a b c : string) : (a +:+ b) +:+ c = a +:+ (b +:+ c).
Proof.
  induction a as [|x a IH]; [reflexivity|].
  now rewrite !append_cons, IH.
Qed.

End Append.

Module StringFacts.
Import GoStrings.

Lemma HasPrefix_true (s prefix : string) :
  HasPrefix s prefix = true ↔ ∃ t, s = prefix +:+ t.
Proof.
  revert s. induction prefix as [|p prefix IH]; intros s.
  - split; [intros _; exists s; reflexivity | reflexivity].
  - destruct s as [|c s]; cbn [HasPrefix].
    + split; [discriminate | intros [t Ht]; discriminate].
    + destruct (Ascii.eqb_spec c p) as [->|Hne].
      * rewrite IH. split; intros [t Ht]; exists t.
        -- rewrite append_cons. now f_equal.
        -- rewrite append_cons in Ht. now injection Ht.
      * split; [discriminate|]. intros [t Ht].
        rewrite append_cons in Ht. injection Ht as Hc _. contradiction.
Qed.

Lemma Contains_true (s substr : string) :
  Contains s substr = true ↔ ∃ a b, s = a +:+ substr +:+ b.
Proof.
  induction s as [|c s IH]; cbn [Contains]; rewrite orb_true_iff, HasPrefix_true.
  - split.
    + intros [[t Ht]|Hf]; [|discriminate]. exists "", t. exact Ht.
    + intros (a & b & Hab). left. destruct a; [|discriminate].
      exists b. exact Hab.
  - rewrite IH. split.
    + intros [[t Ht]|(a & b & Hab)].
      * exists "", t. exact Ht.
      * exists (String c a), b. rewrite append_cons. now f_equal.
    + intros (a & b & Hab). destruct a as [|x a].
      * left. exists b. exact Hab.
      * right. rewrite append_cons in Hab. injection Hab as _ Hs.
        exists a, b. exact Hs.
Qed.

Lemma HasSuffix_true (s suffix : string) :
  HasSuffix s suffix = true ↔ ∃ a, s = a +:+ suffix.
Proof.
  induction s as [|c s IH]; cbn [HasSuffix]; rewrite orb_true_iff, String.eqb_eq.
  - split.
    + intros [->|Hf]; [|discriminate]. exists "". reflexivity.
    + intros [a Ha]. left. destruct a; [exact Ha | discriminate].
  - rewrite IH. split.
    + intros [->|[a Ha]].
      * exists "". reflexivity.
      * exists (String c a). rewrite append_cons. now f_equal.
    + intros [a Ha]. destruct a as [|x a].
      * left. exact Ha.
      * right. rewrite append_cons in Ha. injection Ha as _ Hs.
        exists a. exact Hs.
Qed.

Lemma upper_lower_byte (c : ascii) : upper_byte (lower_byte c) = upper_byte c.
Proof. destruct c as [[] [] [] [] [] [] [] []]; reflexivity. Qed.

Lemma upper_upper_byte (c : ascii) : upper_byte (upper_byte c) = upper_byte c.
Proof. destruct c as [[] [] [] [] [] [] [] []]; reflexivity. Qed.

Lemma is_ascii_lower_byte (c : ascii) :
  is_ascii_byte (lower_byte c) = is_ascii_byte c.
Proof. destruct c as [[] [] [] [] [] [] [] []]; reflexivity. Qed.

Lemma is_ascii_upper_byte (c : ascii) :
  is_ascii_byte (upper_byte c) = is_ascii_byte c.
Proof. destruct c as [[] [] [] [] [] [] [] []]; reflexivity. Qed.

Lemma isASCII_map_bytes (f : ascii → ascii) (s : string) :
  (∀ c, is_ascii_byte (f c) = is_ascii_byte c) →
  isASCII (map_bytes f s) = isASCII s.
Proof.
  intros Hf. induction s as [|c s IH]; cbn [map_bytes isASCII]; [reflexivity|].
  now rewrite Hf, IH.
Qed.

Lemma map_bytes_compose (f g h : ascii → ascii) (s : string) :
  (∀ c, f (g c) = h c) → map_bytes f (map_bytes g s) = map_bytes h s.
Proof.
  intros Hfg. induction s as [|c s IH]; cbn [map_bytes]; [reflexivity|].
  now rewrite Hfg, IH.
Qed.

(** On a string of ASCII bytes, [ToUpper] does not see the case of the
letters. *)
Lemma ToUpper_lower (uu : string → string) (s : string) :
  isASCII s = true →
  ToUpper uu (map_bytes lower_byte s) = ToUpper uu s.
Proof.
  intros Hs. unfold ToUpper.
  rewrite (isASCII_map_bytes _ _ is_ascii_lower_byte), Hs.
  apply map_bytes_compose, upper_lower_byte.
Qed.

Lemma ToUpper_upper (uu : string → string) (s : string) :
  isASCII s = true →
  ToUpper uu (map_bytes upper_byte s) = ToUpper uu s.
Proof.
  intros Hs. unfold ToUpper.
  rewrite (isASCII_map_bytes _ _ is_ascii_upper_byte), Hs.
  apply map_bytes_compose, upper_upper_byte.
Qed.

End StringFacts.

Module RegexpFacts.
Import Regexp.

Lemma MatchString_Void (s : string) : MatchString Void s = false.
Proof. induction s as [|c s IH]; [reflexivity | exact IH]. Qed.

Lemma MatchString_Alt (r1 r2 : regex) (s : string) :
  MatchString (Alt r1 r2) s = MatchString r1 s || MatchString r2 s.
Proof.
  revert r1 r2. induction s as [|c s IH]; intros r1 r2; [reflexivity|].
  cbn [MatchString deriv]. apply IH.
Qed.

Lemma MatchString_Seq_Void (r : regex) (s : string) :
  MatchString (Seq Void r) s = false.
Proof. induction s as [|c s IH]; [reflexivity | exact IH]. Qed.

Lemma MatchString_Seq_Eps (r : regex) (s : string) :
  MatchString (Seq Eps r) s = MatchString r s.
Proof.
  destruct s as [|c s]; [reflexivity|].
  cbn [MatchString deriv nullable].
  now rewrite MatchString_Alt, MatchString_Seq_Void.
Qed.

Lemma MatchString_Star_Class (p : ascii → bool) (s : string) :
  MatchString (Star (Class p)) s = HTTP.string_forallb p s.
Proof.
  induction s as [|c s IH]; [reflexivity|].
  cbn [MatchString deriv HTTP.string_forallb].
  destruct (p c); cbn [andb].
  - now rewrite MatchString_Seq_Eps.
  - apply MatchString_Seq_Void.
Qed.

(** A class followed by a starred class: the first byte is in the first
class and all the others are in the second. *)
Lemma MatchString_Class_Star (p q : ascii → bool) (s : string) :
  MatchString (Seq (Class p) (Star (Class q))) s =
  match s with
  | EmptyString => false
  | String c rest => p c && HTTP.string_forallb q rest
  end.
Proof.
  destruct s as [|c s]; [reflexivity|].
  cbn [MatchString deriv nullable].
  destruct (p c); cbn [andb].
  - now rewrite MatchString_Seq_Eps, MatchString_Star_Class.
  - apply MatchString_Seq_Void.
Qed.

End RegexpFacts.

Module ProfileFacts.
Import Profile.

Lemma NewSession_total (p : ZOSMFProfile) : ∃ s, NewSession p = Ok s.
Proof. unfold NewSession. eexists. reflexivity. Qed.

Lemma eqb_empty_decide (s : string) : String.eqb s "" = bool_decide (s = "").
Proof.
  destruct (String.eqb_spec s "") as [->|Hne].
  - reflexivity.
  - symmetry. apply bool_decide_eq_false. exact Hne.
Qed.

Lemma Z_eqb_decide (a b : Z) : (a =? b) = bool_decide (a = b).
Proof.
  destruct (Z.eqb_spec a b) as [->|Hne].
  - symmetry. now apply bool_decide_eq_true.
  - symmetry. now apply bool_decide_eq_false.
Qed.

(** On a profile that names no protocol the two copies of [NewSession]
build the same session. *)
Lemma NewSession0_agrees (p : ZOSMFProfile) :
  Protocol p = "" → NewSession0 p = NewSession p.
Proof. intros Hp. unfold NewSession0, NewSession. now rewrite Hp. Qed.

End ProfileFacts.

(** C1. For every profile, [NewSession] succeeds and the session's base URL
    is [{protocol}://{host}], where the protocol is ["http"] when the port is
    exactly 80 or 8080 and otherwise the profile's explicit protocol, or
    ["https"] if it has none; [":{port}"] follows exactly when the port is
    not 0, 80 or 443; the base path follows verbatim. *)
Theorem NewSession_baseURL (p : Profile.ZOSMFProfile) :
  ∃ s, Profile.NewSession p = Ok s ∧
       Profile.BaseURL s = Profile.spec_baseURL p.
Proof.
  eexists. split; [reflexivity|]. cbn [Profile.BaseURL].
  unfold Profile.spec_baseURL, Profile.spec_protocol, Profile.spec_port_suffix.
  rewrite !ProfileFacts.eqb_empty_decide, !ProfileFacts.Z_eqb_decide.
  repeat case_bool_decide; cbn [negb andb]; try lia; try tauto;
    rewrite ?append_assoc;
    repeat match goal with
           | H : Profile.BasePath p = "" |- _ => rewrite H
           end;
    rewrite ?append_nil_r; reflexivity.
Qed.


Module ProfileFrame.
Import Profile.

Lemma same_but_headers_refl (s : Session) : same_but_headers s s.
Proof. repeat split. Qed.

Lemma same_but_headers_trans (s1 s2 s3 : Session) :
  same_but_headers s1 s2 → same_but_headers s2 s3 → same_but_headers s1 s3.
Proof.
  unfold same_but_headers. intros (?&?&?&?&?&?&?) (?&?&?&?&?&?&?).
  repeat split; congruence.
Qed.

Lemma AddHeader_frame (k v : string) (s s' : Session) :
  AddHeader k v s = Some s' → same_but_headers s s'.
Proof.
  unfold AddHeader. destruct (Headers s); [|discriminate].
  intros [= <-]. repeat split.
Qed.

Lemma RemoveHeader_frame (k : string) (s : Session) :
  same_but_headers s (RemoveHeader k s).
Proof. unfold RemoveHeader. destruct (Headers s); repeat split. Qed.

End ProfileFrame.

(** C9. For every session and every sequence of [AddHeader] and
    [RemoveHeader] calls, the session's base URL, HTTP client and profile
    (and host, port, user and password) are what they were: header mutation
    changes the [Headers] map only. *)
Theorem header_calls_frame (cs : list Profile.HeaderCall) (s : Profile.Session) :
  Profile.same_but_headers s (Profile.run_calls cs s).1.
Proof.
  revert s. induction cs as [|c cs IH]; intros s.
  - apply ProfileFrame.same_but_headers_refl.
  - destruct c as [k v|k]; cbn [Profile.run_calls].
    + destruct (Profile.AddHeader k v s) as [s'|] eqn:Hadd.
      * eapply ProfileFrame.same_but_headers_trans; [|apply IH].
        eapply ProfileFrame.AddHeader_frame, Hadd.
      * apply ProfileFrame.same_but_headers_refl.
    + eapply ProfileFrame.same_but_headers_trans; [|apply IH].
      apply ProfileFrame.RemoveHeader_frame.
Qed.

Module DatasetsFacts.
Import GoStrings HTTP Datasets DatasetsSpec.

Lemma byte_in_true (lo hi c : ascii) :
  byte_in lo hi c = true ↔ (N_of_ascii lo ≤ N_of_ascii c ≤ N_of_ascii hi)%N.
Proof.
  unfold byte_in. rewrite andb_true_iff, !N.leb_le. reflexivity.
Qed.

Lemma first_char_class_ok (c : ascii) :
  first_char_class c = true ↔ first_char_ok c.
Proof.
  unfold first_char_class, first_char_ok, capital.
  cbn [string_mem]. rewrite !orb_true_iff, byte_in_true, !Ascii.eqb_eq.
  cbn. intuition discriminate.
Qed.

Lemma other_char_class_ok (c : ascii) :
  other_char_class c = true ↔ other_char_ok c.
Proof.
  unfold other_char_class, other_char_ok, capital, digit.
  cbn [string_mem]. rewrite !orb_true_iff, !byte_in_true, !Ascii.eqb_eq.
  cbn. intuition discriminate.
Qed.

Lemma string_forallb_true (p : ascii → bool) (s : string) :
  string_forallb p s = true ↔ ∀ x, x ∈ list_ascii_of_string s → p x = true.
Proof.
  induction s as [|c s IH]; cbn [string_forallb list_ascii_of_string].
  - split; [|reflexivity]. intros _ x Hx. inversion Hx.
  - rewrite andb_true_iff, IH. split.
    + intros [Hc Hs] x Hx. apply elem_of_cons in Hx as [->|Hx]; auto.
    + intros Hall. split; [|intros x Hx]; apply Hall;
        [apply list_elem_of_here | now apply list_elem_of_further].
Qed.

Lemma validPattern_ok (name : string) :
  Regexp.MatchString validPattern name = true ↔
  ∃ c rest, name = String c rest ∧ first_char_ok c ∧
            ∀ x, x ∈ list_ascii_of_string rest → other_char_ok x.
Proof.
  unfold validPattern. rewrite RegexpFacts.MatchString_Class_Star.
  destruct name as [|c rest].
  - split; [discriminate | intros (c & r & Hn & _); discriminate].
  - rewrite andb_true_iff, first_char_class_ok, string_forallb_true. split.
    + intros [Hc Hr]. exists c, rest. repeat split; [exact Hc|].
      intros x Hx. apply other_char_class_ok, Hr, Hx.
    + intros (c' & r' & [= <- <-] & Hc & Hr). split; [exact Hc|].
      intros x Hx. apply other_char_class_ok, Hr, Hx.
Qed.

(** The checks of [ValidateDatasetName], one by one. *)
Lemma ValidateDatasetName_None (name : string) :
  ValidateDatasetName name = None ↔
  String.eqb name "" = false ∧ (len name >? 44) = false ∧
  Regexp.MatchString validPattern name = true ∧
  Contains name ".." = false ∧ HasPrefix name "." = false ∧
  HasSuffix name "." = false ∧ Contains name "--" = false.
Proof.
  unfold ValidateDatasetName.
  destruct (String.eqb name ""); [intuition discriminate|].
  destruct (len name >? 44); [intuition discriminate|].
  destruct (Regexp.MatchString validPattern name); cbn [negb];
    [|intuition discriminate].
  destruct (Contains name ".."); [intuition discriminate|].
  destruct (HasPrefix name "."); cbn [orb]; [intuition discriminate|].
  destruct (HasSuffix name "."); [intuition discriminate|].
  destruct (Contains name "--"); intuition discriminate.
Qed.

Lemma ValidateDatasetName_reason (name e : string) :
  ValidateDatasetName name = Some e → e ∈ reasons.
Proof.
  unfold ValidateDatasetName, reasons.
  repeat match goal with
         | |- context [if ?b then _ else _] => destruct b
         end;
    intros [= <-]; set_solver.
Qed.

Lemma not_true_false (b : bool) (P : Prop) : (b = true ↔ P) → (b = false ↔ ¬ P).
Proof. destruct b; intuition discriminate. Qed.

End DatasetsFacts.

(** C3. For every string, [ValidateDatasetName] succeeds if and only if the
    name is non-empty, at most 44 characters long, starts with a character
    of [{A-Z,@,#,$}], continues with characters of [{A-Z,0-9,@,#,$,-,.}],
    has no two periods and no two hyphens in a row and neither starts nor
    ends with a period; a name that fails gets one of the six reasons. The
    function has no access to the network: it is a function of the name
    alone. *)
Theorem ValidateDatasetName_iff (name : string) :
  (Datasets.ValidateDatasetName name = None ↔ DatasetsSpec.valid_dataset_name name)
  ∧ (∀ e, Datasets.ValidateDatasetName name = Some e → e ∈ DatasetsSpec.reasons).
Proof.
  split; [|intros e; apply DatasetsFacts.ValidateDatasetName_reason].
  rewrite DatasetsFacts.ValidateDatasetName_None.
  unfold DatasetsSpec.valid_dataset_name, DatasetsSpec.occurs.
  rewrite (DatasetsFacts.not_true_false _ _ (StringFacts.Contains_true name "..")).
  rewrite (DatasetsFacts.not_true_false _ _ (StringFacts.Contains_true name "--")).
  rewrite (DatasetsFacts.not_true_false _ _ (StringFacts.HasPrefix_true name ".")).
  rewrite (DatasetsFacts.not_true_false _ _ (StringFacts.HasSuffix_true name ".")).
  rewrite DatasetsFacts.validPattern_ok.
  assert (Hne : String.eqb name "" = false ↔ name ≠ "")
    by apply String.eqb_neq.
  assert (Hlen : (GoStrings.len name >? 44) = false ↔ (String.length name ≤ 44)%nat).
  { unfold GoStrings.len. rewrite Z.gtb_ltb, Z.ltb_ge. lia. }
  rewrite Hne, Hlen. split.
  - intros (Hn & Hl & (c & rest & -> & Hc & Hr) & Hpp & Hpre & Hsuf & Hhh).
    repeat split; try assumption.
    + injection H as <- <-. exact Hc.
    + injection H as <- <-. exact Hr.
  - intros (Hn & Hl & Hchars & Hpp & Hhh & Hpre & Hsuf).
    repeat split; try assumption.
    destruct name as [|c rest]; [contradiction|].
    exists c, rest. destruct (Hchars c rest eq_refl) as [Hc Hr]. auto.
Qed.

Module JobsFacts.
Import GoStrings HTTP Jobs.

Lemma isJobComplete_true `{GoLib} (status : string) :
  isJobComplete status = true ↔
  JobsSpec.has_completion_word (ToUpper unicodeUpper status).
Proof.
  unfold isJobComplete, completedStatuses, JobsSpec.has_completion_word,
    DatasetsSpec.occurs.
  cbn [existsb]. rewrite !orb_true_iff, !StringFacts.Contains_true.
  intuition discriminate.
Qed.

Lemma isJobComplete_upper `{GoLib} (s t : string) :
  ToUpper unicodeUpper s = ToUpper unicodeUpper t →
  isJobComplete s = isJobComplete t.
Proof. unfold isJobComplete. now intros ->. Qed.

End JobsFacts.

(** C8. For every status string, [isJobComplete] returns true if and only if
    the upper-cased status contains one of ["OUTPUT"], ["CC 0000"],
    ["CC 0001"], ["CC 0002"], ["CC 0003"], ["CC 0004"] or ["ABEND"]. The
    case of the status does not matter: two statuses with the same
    upper-case form get the same answer, and so do a status of ASCII bytes
    and its lower-case and upper-case forms. *)
Theorem isJobComplete_vocabulary `{HTTP.GoLib} (status : string) :
  (Jobs.isJobComplete status = true ↔
   JobsSpec.has_completion_word (GoStrings.ToUpper HTTP.unicodeUpper status))
  ∧ (∀ other,
       GoStrings.ToUpper HTTP.unicodeUpper other
       = GoStrings.ToUpper HTTP.unicodeUpper status →
       Jobs.isJobComplete other = Jobs.isJobComplete status)
  ∧ (GoStrings.isASCII status = true →
       Jobs.isJobComplete (GoStrings.map_bytes GoStrings.lower_byte status)
       = Jobs.isJobComplete status
       ∧ Jobs.isJobComplete (GoStrings.map_bytes GoStrings.upper_byte status)
         = Jobs.isJobComplete status).
Proof.
  split; [apply JobsFacts.isJobComplete_true|].
  split; [intros other; apply JobsFacts.isJobComplete_upper|].
  intros Hascii. split; apply JobsFacts.isJobComplete_upper.
  - now apply StringFacts.ToUpper_lower.
  - now apply StringFacts.ToUpper_upper.
Qed.

Module OutputFacts.
Import HTTP Jobs JobsSpec.

Section Output.
Context `{G : GoLib} `{R : Runtime} `{T : JobTypes}.

Lemma GetJobOutput_loop_kept (jm : ZOSMFJobManager) (correlator : string)
    (files : list SpoolFile) (output : gmap string string) (w : World) :
  GetJobOutput_loop jm correlator files output w =
  (kept (fetch_all jm correlator files w).1 output,
   (fetch_all jm correlator files w).2).
Proof.
  revert output w. induction files as [|f files IH]; intros output w.
  - reflexivity.
  - cbn [GetJobOutput_loop fetch_all].
    destruct (GetSpoolFileContent jm correlator (ID f) w) as [[content|e] w1];
      rewrite IH; destruct (fetch_all jm correlator files w1) as [rs w2];
      reflexivity.
Qed.

Lemma kept_lookup (rs : list (SpoolFile * result string))
    (start : gmap string string) (dd content : string) :
  kept rs start !! dd = Some content →
  start !! dd = Some content ∨ ∃ f, (f, Ok content) ∈ rs ∧ DDName f = dd.
Proof.
  revert start. induction rs as [|[f r] rs IH]; intros start; cbn.
  - auto.
  - intros Hk. apply IH in Hk as [Hk|(f' & Hin & Hdd)].
    + destruct r as [c|e]; cbn in Hk.
      * destruct (decide (DDName f = dd)) as [Heq|Hne].
        -- rewrite Heq, lookup_insert_eq in Hk. injection Hk as ->.
           right. exists f. split; [apply list_elem_of_here | exact Heq].
        -- rewrite lookup_insert_ne in Hk by exact Hne. now left.
      * now left.
    + right. exists f'. split; [now apply list_elem_of_further | exact Hdd].
Qed.

Lemma kept_untouched (rs : list (SpoolFile * result string))
    (start : gmap string string) (dd : string) :
  (∀ f c, (f, Ok c) ∈ rs → DDName f ≠ dd) →
  kept rs start !! dd = start !! dd.
Proof.
  revert start. induction rs as [|[f r] rs IH]; intros start Hno; cbn.
  - reflexivity.
  - unfold kept in IH. rewrite IH.
    + destruct r as [c|e]; cbn; [|reflexivity].
      apply lookup_insert_ne. apply (Hno f c), list_elem_of_here.
    + intros f' c Hin. apply (Hno f' c). now apply list_elem_of_further.
Qed.

End Output.

End OutputFacts.

(** C10. For every job, when [GetSpoolFiles] succeeds [GetJobOutput] returns
    a map and no error, whatever the content requests do: the map holds
    exactly the content that was fetched, so only fetched content appears in
    it, and a spool file whose request fails adds nothing (its DD name is
    absent unless another file of that name was fetched). [GetJobOutput]
    returns an error only when listing the spool files fails. *)
Theorem GetJobOutput_omits_failed_files `{G : HTTP.GoLib} `{R : HTTP.Runtime}
    `{T : Jobs.JobTypes} (jm : Jobs.ZOSMFJobManager) (correlator : string)
    (w : HTTP.World) :
  match Jobs.GetSpoolFiles jm correlator w with
  | (Err e, w1) =>
      Jobs.GetJobOutput jm correlator w
      = (Err ("failed to get spool files: " +:+ e), w1)
  | (Ok files, w1) =>
      let results := (JobsSpec.fetch_all jm correlator files w1).1 in
      ∃ output w2,
        Jobs.GetJobOutput jm correlator w = (Ok output, w2)
        ∧ output = JobsSpec.kept results ∅
        ∧ (∀ dd content,
             output !! dd = Some content →
             ∃ f, (f, Ok content) ∈ results ∧ Jobs.DDName f = dd)
        ∧ (∀ f e,
             (f, Err e) ∈ results →
             (∀ f' c, (f', Ok c) ∈ results → Jobs.DDName f' ≠ Jobs.DDName f) →
             output !! Jobs.DDName f = None)
  end.
Proof.
  unfold Jobs.GetJobOutput.
  destruct (Jobs.GetSpoolFiles jm correlator w) as [[files|e] w1]; [|reflexivity].
  rewrite OutputFacts.GetJobOutput_loop_kept. cbn zeta.
  eexists _, _. split; [reflexivity|]. split; [reflexivity|]. split.
  - intros dd content Hk.
    apply OutputFacts.kept_lookup in Hk as [Hk|Hk]; [|exact Hk].
    rewrite lookup_empty in Hk. discriminate.
  - intros f e _ Hno.
    rewrite OutputFacts.kept_untouched by exact Hno. apply lookup_empty.
Qed.

Module SubmitFacts.
Import HTTP Jobs JobsSpec.

Lemma eqb_empty_false (s : string) : s ≠ "" → String.eqb s "" = false.
Proof. apply String.eqb_neq. Qed.

Lemma optional_eqb (s : string) :
  optional s = if String.eqb s "" then None else Some s.
Proof.
  unfold optional. rewrite ProfileFacts.eqb_empty_decide. reflexivity.
Qed.

Lemma submit_success_codes (code : Z) :
  negb (code =? 201) && negb (code =? 200) && negb (code =? 202) = false
  ↔ submit_success code.
Proof.
  unfold submit_success.
  destruct (Z.eqb_spec code 201), (Z.eqb_spec code 200), (Z.eqb_spec code 202);
    cbn; intuition (try lia; try discriminate).
Qed.

Section Submit.
Context `{G : GoLib} `{T : JobTypes} (R : Runtime).

Lemma add_session_headers_frame (s : Profile.Session) (req : Request) :
  Method (add_session_headers s req) = Method req
  ∧ URL (add_session_headers s req) = URL req
  ∧ Body (add_session_headers s req) = Body req.
Proof.
  unfold add_session_headers.
  generalize (map_to_list (default ∅ (Profile.GetHeaders s))).
  intros l. revert req. induction l as [|kv l IH]; intros req; [auto|].
  cbn [foldl]. destruct (IH (Request_Header_Set kv.1 kv.2 req)) as (-> & -> & ->).
  auto.
Qed.

Lemma submit_with_spec (jm : ZOSMFJobManager) (body : gmap string string)
    (w : @World R) :
  let run := send_job_body (R := Logged R) jm body (w, []) in
  (∀ req, req ∈ run.2.2 →
     Method req = "PUT"
     ∧ URL req = Profile.BaseURL (session jm) +:+ "/restjobs/jobs"
     ∧ Body req = Some (Marshal (GoStringMap body)))
  ∧ (length run.2.2 ≤ 1)%nat
  ∧ (∀ req resp w',
       run.2.2 = [req] →
       @Do R (Profile.HTTPClient (session jm)) req w = (Ok resp, w') →
       (submit_success (StatusCode resp) →
        run.1 = match Decode SubmitJobResponse_of_json resp with
                | Ok r => Ok r
                | Err e => Err ("failed to decode response: " +:+ e)
                end)
       ∧ (¬ submit_success (StatusCode resp) → run.1 = Err (api_error resp))).
Proof.
  unfold send_job_body, NewRequest.
  destruct (url_Parse_error _) as [e|].
  - cbn. split; [intros req Hreq; inversion Hreq|]. split; [lia|].
    intros req resp w' Hlog. discriminate.
  - cbn -[add_session_headers].
    set (req0 := add_session_headers _ _).
    destruct (@Do R (Profile.GetHTTPClient (session jm)) req0 w) as [[resp|e] w1] eqn:HDo;
      cbn -[add_session_headers].
    + assert (Hreq0 : Method req0 = "PUT"
                ∧ URL req0 = Profile.BaseURL (session jm) +:+ "/restjobs/jobs"
                ∧ Body req0 = Some (Marshal (GoStringMap body))).
      { subst req0. destruct (add_session_headers_frame (session jm)
          {| Method := "PUT";
             URL := Profile.GetBaseURL (session jm) +:+ JobsEndpoint;
             Header := ∅; Body := Some (Marshal (GoStringMap body)) |})
          as (-> & -> & ->). auto. }
      destruct (negb (StatusCode resp =? 201) && negb (StatusCode resp =? 200)
                && negb (StatusCode resp =? 202)) eqn:Hcode.
      * cbn. split; [intros req Hin; apply list_elem_of_singleton in Hin as ->; exact Hreq0|].
        split; [lia|]. intros req resp' w' [= <-] HDo'.
        unfold Profile.GetHTTPClient in HDo. rewrite HDo in HDo'.
        injection HDo' as <- <-. split; [|reflexivity].
        intros Hs. apply submit_success_codes in Hs. congruence.
      * assert (Hs : submit_success (StatusCode resp))
          by now apply submit_success_codes.
        destruct (Decode SubmitJobResponse_of_json resp) as [r|e] eqn:HD; cbn.
        -- split; [intros req Hin; apply list_elem_of_singleton in Hin as ->; exact Hreq0|].
           split; [lia|]. intros req resp' w' [= <-] HDo'.
           unfold Profile.GetHTTPClient in HDo. rewrite HDo in HDo'.
           injection HDo' as <- <-. rewrite HD. split; [reflexivity|contradiction].
        -- split; [intros req Hin; apply list_elem_of_singleton in Hin as ->; exact Hreq0|].
           split; [lia|]. intros req resp' w' [= <-] HDo'.
           unfold Profile.GetHTTPClient in HDo. rewrite HDo in HDo'.
           injection HDo' as <- <-. rewrite HD. split; [reflexivity|contradiction].
    + split; [intros req Hin; apply list_elem_of_singleton in Hin as ->|].
      * subst req0. destruct (add_session_headers_frame (session jm)
          {| Method := "PUT";
             URL := Profile.GetBaseURL (session jm) +:+ JobsEndpoint;
             Header := ∅; Body := Some (Marshal (GoStringMap body)) |})
          as (-> & -> & ->). auto.
      * split; [lia|]. intros req resp' w' [= <-] HDo'.
        unfold Profile.GetHTTPClient in HDo. rewrite HDo in HDo'. discriminate.
Qed.

Lemma SubmitJob_no_source (jm : ZOSMFJobManager) (request : SubmitJobRequest)
    (w : @World R) :
  chosen_source request = None →
  SubmitJob (R := R) jm request w
  = (Err "no job source specified (jobStatement, jobDataSet, or jobLocalFile)", w).
Proof.
  unfold chosen_source, SubmitJob.
  repeat case_bool_decide; try discriminate. intros _.
  repeat match goal with
         | H : ¬ (_ ≠ _) |- _ => apply dec_stable in H
         | H : _ request = "" |- _ => rewrite H; clear H
         end.
  reflexivity.
Qed.

Lemma SubmitJob_source (jm : ZOSMFJobManager) (request : SubmitJobRequest)
    (src : Source) (w : @World R) :
  chosen_source request = Some src →
  ∃ body, (∀ key, body !! key = body_field src request key)
          ∧ SubmitJob (R := R) jm request w = send_job_body (R := R) jm body w.
Proof.
  unfold chosen_source, SubmitJob, send_job_body, body_field.
  repeat case_bool_decide; intros [= <-];
    repeat match goal with
           | H : ¬ (_ ≠ _) |- _ => apply dec_stable in H
           | H : _ request = "" |- _ => rewrite H; clear H
           | H : _ ≠ "" |- _ => rewrite (eqb_empty_false _ H); clear H
           end;
    cbn [String.eqb negb]; rewrite ?optional_eqb.
  - eexists. split; [|reflexivity]. intros key.
    case_bool_decide; simplify_map_eq; reflexivity.
  - eexists. split; [|reflexivity]. intros key.
    destruct (String.eqb (Volume request) ""); cbn [negb];
      repeat case_bool_decide; simplify_map_eq; reflexivity.
  - eexists. split; [|reflexivity]. intros key.
    destruct (String.eqb (Directory request) ""),
             (String.eqb (Extension request) ""); cbn [negb];
      repeat case_bool_decide; simplify_map_eq; reflexivity.
Qed.

End Submit.

End SubmitFacts.

(** C4. [SubmitJob] with none of the statement, the dataset and the local
    file set returns an error and sends nothing. With a source set, every
    request it sends is a PUT to the jobs endpoint whose body has exactly
    the fields of the chosen source ([volume] only with a dataset,
    [directory] and [extension] only with a local file, each only when set),
    and it sends at most one. The response is accepted exactly when its
    status is 200, 201 or 202: any other status is an API error. *)
Theorem SubmitJob_sources_and_codes `{G : HTTP.GoLib} `{T : Jobs.JobTypes}
    (R : HTTP.Runtime) (jm : Jobs.ZOSMFJobManager)
    (request : Jobs.SubmitJobRequest) (w : @HTTP.World R) :
  let run := Jobs.SubmitJob (R := HTTP.Logged R) jm request (w, []) in
  (JobsSpec.chosen_source request = None →
     run = (Err "no job source specified (jobStatement, jobDataSet, or jobLocalFile)",
            (w, [])))
  ∧ (∀ src, JobsSpec.chosen_source request = Some src →
       (∀ req, req ∈ run.2.2 →
          HTTP.Method req = "PUT"
          ∧ HTTP.URL req = Profile.BaseURL (Jobs.session jm) +:+ "/restjobs/jobs"
          ∧ ∃ body, HTTP.Body req = Some (HTTP.Marshal (HTTP.GoStringMap body))
                    ∧ ∀ key, body !! key = JobsSpec.body_field src request key)
       ∧ (length run.2.2 ≤ 1)%nat
       ∧ (∀ req resp w',
            run.2.2 = [req] →
            @HTTP.Do R (Profile.HTTPClient (Jobs.session jm)) req w = (Ok resp, w') →
            (JobsSpec.submit_success (HTTP.StatusCode resp) →
             run.1 = match HTTP.Decode Jobs.SubmitJobResponse_of_json resp with
                     | Ok r => Ok r
                     | Err e => Err ("failed to decode response: " +:+ e)
                     end)
            ∧ (¬ JobsSpec.submit_success (HTTP.StatusCode resp) →
               run.1 = Err (HTTP.api_error resp)))).
Proof.
  intros run. split.
  - intros Hnone. subst run. now apply SubmitFacts.SubmitJob_no_source.
  - intros src Hsrc.
    destruct (SubmitFacts.SubmitJob_source (HTTP.Logged R) jm request src (w, []) Hsrc)
      as (body & Hbody & Hrun).
    subst run. rewrite Hrun.
    destruct (SubmitFacts.submit_with_spec R jm body w) as (Hreqs & Hlen & Hcodes).
    split; [|split; [exact Hlen | exact Hcodes]].
    intros req Hin. destruct (Hreqs req Hin) as (Hm & Hu & Hb).
    split; [exact Hm|]. split; [exact Hu|]. exists body. auto.
Qed.

Module ListJobsFacts.
Import HTTP Jobs.

Section ListJobs.
Context `{G : GoLib} `{R : Runtime} `{T : JobTypes}.

(** What [ListJobs] returns on a response with status 200 whose body was
read in full: the result of the two decoding attempts. *)
Lemma ListJobs_response (jm : ZOSMFJobManager) (filter : option JobFilter)
    (w w1 : World) (resp : Response) :
  (∀ url, url_Parse_error url = None) →
  (∀ req, Do (Profile.HTTPClient (session jm)) req w = (Ok resp, w1)) →
  StatusCode resp = 200 →
  ReadErr resp = None →
  (ListJobs jm filter w).1 =
  let fallback :=
    match Unmarshal (slice_of_json Job_of_json) (RespBody resp) with
    | Ok jobsArr => Ok {| Jobs := jobsArr |}
    | Err _ => Err ("failed to decode response: " +:+ RespBody resp)
    end in
  match Unmarshal JobList_of_json (RespBody resp) with
  | Ok jobList =>
      if (0 <? length (Jobs jobList))%nat || String.eqb (RespBody resp) "{}"
      then Ok jobList else fallback
  | Err _ => fallback
  end.
Proof.
  intros Hurl HDo Hcode Hread. unfold ListJobs, NewRequest.
  rewrite Hurl. unfold Profile.GetHTTPClient. rewrite HDo, Hcode, Hread.
  cbn [Z.eqb negb Pos.eqb].
  destruct (Unmarshal JobList_of_json (RespBody resp)) as [jl|e]; [|reflexivity].
  destruct ((0 <? length (Jobs jl))%nat || String.eqb (RespBody resp) "{}");
    reflexivity.
Qed.

(** The bare array of a job sequence is accepted, empty or not. *)
Lemma ListJobs_array_shape (jm : ZOSMFJobManager) (filter : option JobFilter)
    (w w1 : World) (resp : Response) (items : list Json.json) (js : list Job) :
  (∀ url, url_Parse_error url = None) →
  (∀ req, Do (Profile.HTTPClient (session jm)) req w = (Ok resp, w1)) →
  StatusCode resp = 200 →
  ReadErr resp = None →
  Json.parse (RespBody resp) = Some (Json.JArray items) →
  mapM Job_of_json items = Some js →
  (ListJobs jm filter w).1 = Ok {| Jobs := js |}.
Proof.
  intros Hurl HDo Hcode Hread Hparse Hitems.
  rewrite (ListJobs_response jm filter w w1 resp) by assumption.
  unfold Unmarshal. rewrite Hparse. cbn [JobList_of_json slice_of_json].
  now rewrite Hitems.
Qed.

(** The object with a [jobs] member is accepted when the sequence is not
empty. *)
Lemma ListJobs_object_shape (jm : ZOSMFJobManager) (filter : option JobFilter)
    (w w1 : World) (resp : Response) (items : list Json.json) (js : list Job) :
  (∀ url, url_Parse_error url = None) →
  (∀ req, Do (Profile.HTTPClient (session jm)) req w = (Ok resp, w1)) →
  StatusCode resp = 200 →
  ReadErr resp = None →
  Json.parse (RespBody resp) = Some (Json.JObject [("jobs", Json.JArray items)]) →
  mapM Job_of_json items = Some js →
  js ≠ [] →
  (ListJobs jm filter w).1 = Ok {| Jobs := js |}.
Proof.
  intros Hurl HDo Hcode Hread Hparse Hitems Hne.
  rewrite (ListJobs_response jm filter w w1 resp) by assumption.
  unfold Unmarshal. rewrite Hparse.
  cbn [JobList_of_json foldl fst snd slice_of_json].
  change (Json.field_matches "jobs" "jobs") with true. cbn iota.
  rewrite Hitems. cbn [Jobs]. destruct js as [|j js]; [contradiction|].
  reflexivity.
Qed.

End ListJobs.

End ListJobsFacts.

(** C7, at the input where the code departs from it. The server's response
    has status 200 and carries a job list with no job in it. In the bare
    array shape [ListJobs] returns the empty list; in the object shape, the
    same list as the value of [jobs], it returns a decoding error. This
    holds whatever the type of jobs, the manager and the filter are. *)
Theorem ListJobs_empty_object_rejected (T : Jobs.JobTypes)
    (jm : Jobs.ZOSMFJobManager) (filter : option Jobs.JobFilter) :
  (Jobs.ListJobs (G := Mock.lib) (R := Mock.scripted 0) jm filter
     ([Mock.respond 200 Mock.empty_array_body], 0)).1
  = Ok {| Jobs.Jobs := [] |}
  ∧ (Jobs.ListJobs (G := Mock.lib) (R := Mock.scripted 0) jm filter
       ([Mock.respond 200 Mock.empty_object_body], 0)).1
    = Err ("failed to decode response: " +:+ Mock.empty_object_body).
Proof.
  split.
  - rewrite (ListJobsFacts.ListJobs_response (G := Mock.lib) (R := Mock.scripted 0)
               jm filter _ ([], 0)
               {| HTTP.StatusCode := 200;
                  HTTP.RespBody := Mock.empty_array_body;
                  HTTP.ReadErr := None |}); reflexivity.
  - rewrite (ListJobsFacts.ListJobs_response (G := Mock.lib) (R := Mock.scripted 0)
               jm filter _ ([], 0)
               {| HTTP.StatusCode := 200;
                  HTTP.RespBody := Mock.empty_object_body;
                  HTTP.ReadErr := None |}); reflexivity.
Qed.

Module RequestFacts.
Import HTTP.

Lemma Logged_Do (R : Runtime) (c : Profile.Client) (req : Request)
    (w : @World R) (l : list Request) :
  @Do (Logged R) c req (w, l)
  = ((@Do R c req w).1, ((@Do R c req w).2, l ++ [req])).
Proof. cbn. destruct (Do c req w); reflexivity. Qed.

Lemma Request_Header_Set_frame (k v : string) (req : Request) :
  Method (Request_Header_Set k v req) = Method req
  ∧ URL (Request_Header_Set k v req) = URL req
  ∧ Body (Request_Header_Set k v req) = Body req.
Proof. repeat split. Qed.

Lemma Header_Get_Set (k v : string) (req : Request) :
  Header_Get k (Header (Request_Header_Set k v req)) = v.
Proof.
  unfold Header_Get, Request_Header_Set, Header_Set. cbn [Header set_Header].
  now rewrite lookup_insert_eq.
Qed.

Lemma Header_Get_Set_other (k k' v : string) (req : Request) :
  CanonicalMIMEHeaderKey k' ≠ CanonicalMIMEHeaderKey k →
  Header_Get k (Header (Request_Header_Set k' v req)) = Header_Get k (Header req).
Proof.
  intros Hne. unfold Header_Get, Request_Header_Set, Header_Set.
  cbn [Header set_Header]. now rewrite lookup_insert_ne.
Qed.

(** The row limit survives the header set after it. *)
Lemma max_items_kept (v : string) (req : Request) :
  Header_Get "X-IBM-Max-Items"
    (Header (Request_Header_Set "X-IBM-Attributes" "base"
               (Request_Header_Set "X-IBM-Max-Items" v req))) = v.
Proof.
  rewrite Header_Get_Set_other by (vm_compute; discriminate).
  apply Header_Get_Set.
Qed.

End RequestFacts.

Module DatasetManagerFacts.
Import HTTP Datasets.

Section Managers.
Context `{G : GoLib} `{T : DatasetTypes} (R : Runtime).

(** The first copy: every request of [CopyDataset] is a POST to the copy
path of the source with the target in the body. *)
Lemma CopyDataset1_requests (dm : ZOSMFDatasetManager) (source target : string)
    (w : @World R) :
  let run := DatasetManager1.CopyDataset (R := Logged R) dm source target (w, []) in
  ∀ req, req ∈ run.2.2 →
    Method req = "POST"
    ∧ URL req = Profile.BaseURL (session dm) +:+ "/restfiles/ds/"
                +:+ PathEscape source +:+ "/copy"
    ∧ Body req = Some (Marshal (GoStringMap {[ "target" := target ]})).
Proof.
  cbv zeta. unfold DatasetManager1.CopyDataset, NewRequest.
  destruct (url_Parse_error _) as [e|]; [intros req Hin; inversion Hin|].
  rewrite RequestFacts.Logged_Do. intros req Hin.
  match type of Hin with
  | _ ∈ ?l =>
      match l with
      | context [[] ++ [?r]] => assert (Hl : l = [r])
      end
  end.
  { destruct (Do _ _ w) as [[resp|e] w1]; cbn -[add_session_headers];
      [destruct (negb _ && negb _)|]; reflexivity. }
  rewrite Hl in Hin. apply list_elem_of_singleton in Hin as ->.
  cbn [Method URL Body Request_Header_Set set_Header].
  match goal with
  | |- context [add_session_headers ?s ?r] =>
      destruct (SubmitFacts.add_session_headers_frame s r) as (Hm & Hu & Hb)
  end.
  rewrite Hm, Hu, Hb. cbn [Method URL Body].
  unfold DatasetByNameEndpoint, Profile.GetBaseURL.
  rewrite !append_assoc. auto.
Qed.

(** The second copy: [CopyDataset] sends one PUT to the dataset endpoint of
the target, with the copy request and the source in the body, and nothing
else; it sends none only when the URL does not parse. *)
Lemma CopyDataset2_requests (dm : ZOSMFDatasetManager) (source target : string)
    (w : @World R) :
  let run := DatasetManager2.CopyDataset (R := Logged R) dm source target (w, []) in
  let url := Profile.BaseURL (session dm) +:+ "/restfiles/ds/" +:+ PathEscape target in
  (∀ req, req ∈ run.2.2 →
     Method req = "PUT"
     ∧ URL req = url
     ∧ Body req = Some (Marshal (GoMap
         (<["from-dataset" := GoStringMap {[ "dsn" := source ]}]>
            {[ "request" := GoString "copy" ]}))))
  ∧ (length run.2.2 ≤ 1)%nat
  ∧ (url_Parse_error url = None → length run.2.2 = 1%nat).
Proof.
  cbv zeta. unfold DatasetManager2.CopyDataset, NewRequest, DatasetByNameEndpoint,
    Profile.GetBaseURL.
  destruct (url_Parse_error _) as [e|].
  { cbn. split; [intros req Hin; inversion Hin|]. split; [lia | discriminate]. }
  rewrite RequestFacts.Logged_Do.
  match goal with
  | |- context [[] ++ [?r]] =>
      match goal with
      | |- (∀ req, req ∈ ?l → _) ∧ _ => assert (Hl : l = [r])
      end
  end.
  { destruct (Do _ _ w) as [[resp|e] w1]; cbn -[add_session_headers];
      [destruct (negb _ && negb _)|]; reflexivity. }
  rewrite Hl. split; [|split; [cbn; lia | reflexivity]].
  intros req Hin. apply list_elem_of_singleton in Hin as ->.
  cbn [Method URL Body Request_Header_Set set_Header].
  match goal with
  | |- context [add_session_headers ?s ?r] =>
      destruct (SubmitFacts.add_session_headers_frame s r) as (Hm & Hu & Hb)
  end.
  rewrite Hm, Hu, Hb. cbn [Method URL Body]. auto.
Qed.

End Managers.

End DatasetManagerFacts.

(** C5, on the first copy of the dataset manager, where the code departs
    from it: [CopyDataset] from ["SRC"] to ["DST"] sends one request, a POST
    to the copy path of the source dataset, with the target in the body. *)
Theorem CopyDataset_first_copy_posts_to_source :
  let run :=
    DatasetManager1.CopyDataset (G := Mock.lib) (R := HTTP.Logged (Mock.scripted 0))
      Mock.dataset_manager "SRC" "DST" (([Mock.respond 201 ""], 0), []) in
  run.1 = None
  ∧ map (λ req, (HTTP.Method req, HTTP.URL req, HTTP.Body req)) run.2.2
    = [("POST",
        "https://zos.example.com:10443/zosmf/restfiles/ds/SRC/copy",
        Some ("{" +:+ Json.quoted "target" +:+ ":" +:+ Json.quoted "DST" +:+ "}"))].
Proof.
  split.
  - vm_compute. reflexivity.
  - vm_compute. reflexivity.
Qed.

Module ListDatasetsFacts.
Import HTTP Datasets.

Section Managers.
Context `{G : GoLib} `{T : DatasetTypes} (R : Runtime).

Lemma max_items_header (filter : option DatasetFilter) (req : Request) :
  Header_Get "X-IBM-Max-Items"
    (Header
       (Request_Header_Set "X-IBM-Attributes" "base"
          match filter with
          | Some filter =>
              if Limit filter >? 0
              then Request_Header_Set "X-IBM-Max-Items"
                     (GoStrings.Itoa (Limit filter)) req
              else Request_Header_Set "X-IBM-Max-Items" "0" req
          | None => Request_Header_Set "X-IBM-Max-Items" "0" req
          end))
  = DatasetsSpec.max_items filter.
Proof.
  unfold DatasetsSpec.max_items. destruct filter as [f|].
  - rewrite Z.gtb_ltb. destruct (Z.ltb_spec 0 (Limit f)).
    + rewrite bool_decide_eq_true_2 by assumption.
      apply RequestFacts.max_items_kept.
    + rewrite bool_decide_eq_false_2 by lia.
      apply RequestFacts.max_items_kept.
  - apply RequestFacts.max_items_kept.
Qed.

Lemma default_params_spec (user : string) (filter : option DatasetFilter) :
  DatasetsSpec.default_params user filter !! "dslevel" = Some (user +:+ ".*")
  ∧ (∀ key, is_Some (DatasetsSpec.default_params user filter !! key) →
            key = "dslevel" ∨ key = "start")
  ∧ (0 <? size (DatasetsSpec.default_params user filter))%nat = true.
Proof.
  unfold DatasetsSpec.default_params. split; [apply lookup_insert_eq|]. split.
  - intros key [v Hv]. destruct (decide (key = "dslevel")) as [|Hne]; [now left|].
    rewrite lookup_insert_ne in Hv by congruence. right.
    destruct filter as [f|]; [destruct (String.eqb (Owner f) "")|];
      try (rewrite lookup_empty in Hv; discriminate).
    apply lookup_insert_Some in Hv as [[<- _]|[_ Hv]]; [reflexivity|].
    rewrite lookup_empty in Hv. discriminate.
  - apply Nat.ltb_lt.
    match goal with |- (0 < size ?m)%nat => destruct (size m) eqn:Hsz end; [|lia].
    apply map_size_empty_iff in Hsz. now apply insert_non_empty in Hsz.
Qed.

Lemma ListDatasets_log (c : Profile.Client) (req0 : Request) (w : @World R) :
  (let (r, w1) := @Do (Logged R) c req0 (w, []) in
   match r with
   | Ok resp =>
       if negb (StatusCode resp =? 200)
       then (Err (api_error resp), w1)
       else
         match ReadErr resp with
         | Some e => (Err ("failed to read response: " +:+ e), w1)
         | None =>
             match Unmarshal DatasetList_of_json (RespBody resp) with
             | Ok datasetList => (Ok datasetList, w1)
             | Err e => (Err ("failed to decode response: " +:+ e), w1)
             end
         end
   | Err e => (Err ("failed to make request: " +:+ e), w1)
   end).2.2 = [req0].
Proof.
  rewrite RequestFacts.Logged_Do.
  destruct (Do c req0 w) as [[resp|e] w1]; cbn;
    [destruct (negb _); [|destruct (ReadErr resp); [|destruct (Unmarshal _ _)]]|];
    reflexivity.
Qed.

Lemma ListDatasets_request_URL (s : Profile.Session)
    (filter : option DatasetFilter) (req : Request) :
  URL (Request_Header_Set "X-IBM-Attributes" "base"
         match filter with
         | Some filter =>
             if Limit filter >? 0
             then Request_Header_Set "X-IBM-Max-Items"
                    (GoStrings.Itoa (Limit filter)) (add_session_headers s req)
             else Request_Header_Set "X-IBM-Max-Items" "0" (add_session_headers s req)
         | None => Request_Header_Set "X-IBM-Max-Items" "0" (add_session_headers s req)
         end) = URL req
  ∧ Method (Request_Header_Set "X-IBM-Attributes" "base"
         match filter with
         | Some filter =>
             if Limit filter >? 0
             then Request_Header_Set "X-IBM-Max-Items"
                    (GoStrings.Itoa (Limit filter)) (add_session_headers s req)
             else Request_Header_Set "X-IBM-Max-Items" "0" (add_session_headers s req)
         | None => Request_Header_Set "X-IBM-Max-Items" "0" (add_session_headers s req)
         end) = Method req.
Proof.
  destruct (SubmitFacts.add_session_headers_frame s req) as (Hm & Hu & _).
  destruct filter as [f|]; [destruct (Limit f >? 0)|];
    cbn [URL Method Request_Header_Set set_Header]; auto.
Qed.

(** The second copy: a listing without pattern and volume sends one GET to
the datasets endpoint whose [dslevel] parameter is the pattern of the
session's user, with the row limit in the header and in no parameter. *)
Lemma ListDatasets2_requests (dm : ZOSMFDatasetManager)
    (filter : option DatasetFilter) (w : @World R) :
  DatasetsSpec.no_pattern_no_volume filter →
  let run := DatasetManager2.ListDatasets (R := Logged R) dm filter (w, []) in
  ∀ req, req ∈ run.2.2 →
    ∃ params : gmap string string,
      Method req = "GET"
      ∧ URL req = Profile.BaseURL (session dm) +:+ "/restfiles/ds" +:+ "?"
                  +:+ Values_Encode params
      ∧ params !! "dslevel" = Some (Profile.SUser (session dm) +:+ ".*")
      ∧ (∀ key, is_Some (params !! key) → key = "dslevel" ∨ key = "start")
      ∧ Header_Get "X-IBM-Max-Items" (Header req) = DatasetsSpec.max_items filter.
Proof.
  intros Hfilter. cbv zeta. unfold DatasetManager2.ListDatasets.
  destruct (default_params_spec (Profile.SUser (session dm)) filter)
    as (Hds & Hkeys & Hsize).
  intros req. unfold DatasetsSpec.default_params in *.
  destruct filter as [f|];
    [ destruct Hfilter as [Hn Hv]; rewrite Hn, Hv; cbn [String.eqb negb];
      destruct (String.eqb (Owner f) ""); cbn [negb] | cbn [negb] ];
    rewrite Hsize; unfold NewRequest;
    (destruct (url_Parse_error _) as [e|]; [intros Hin; inversion Hin|]);
    rewrite ListDatasets_log; intros Hin; apply list_elem_of_singleton in Hin as ->;
    match type of Hds with ?p !! _ = _ => exists p end;
    (split; [|split; [|split; [exact Hds | split; [exact Hkeys|]]]]).
  all: try (etransitivity;
            [ first [ apply (proj2 (ListDatasets_request_URL _ (Some f) _))
                    | apply (proj2 (ListDatasets_request_URL _ None _)) ]
            | reflexivity ]).
  all: try (etransitivity;
            [ first [ apply (proj1 (ListDatasets_request_URL _ (Some f) _))
                    | apply (proj1 (ListDatasets_request_URL _ None _)) ]
            | cbn [URL]; unfold Profile.GetBaseURL, DatasetsEndpoint;
              now rewrite append_assoc ]).
  all: first [ apply (max_items_header (Some f)) | apply (max_items_header None) ].
Qed.

End Managers.

End ListDatasetsFacts.

(** C6, on the first copy of the dataset manager, where the code departs
    from it: [ListDatasets] with a filter that sets nothing, or with no
    filter, sends a GET to the datasets endpoint with no query at all, so
    with no [dslevel] parameter; the row limit is in the header. *)
Theorem ListDatasets_first_copy_no_default_pattern :
  let run filter :=
    DatasetManager1.ListDatasets (G := Mock.lib) (R := HTTP.Logged (Mock.scripted 0))
      (T := Mock.dataset_types) Mock.dataset_manager filter
      (([Mock.respond 200 "{}"], 0), []) in
  let sent filter :=
    map (λ req, (HTTP.Method req, HTTP.URL req,
                 HTTP.Header_Get "X-IBM-Max-Items" (HTTP.Header req)))
      (run filter).2.2 in
  sent (Some Mock.empty_filter)
  = [("GET", "https://zos.example.com:10443/zosmf/restfiles/ds", "0")]
  ∧ sent None
    = [("GET", "https://zos.example.com:10443/zosmf/restfiles/ds", "0")].
Proof.
  split.
  - vm_compute. reflexivity.
  - vm_compute. reflexivity.
Qed.

Module WaitFacts.
Import HTTP Jobs JobsSpec.

Section Wait.
Context `{G : GoLib} `{R : Runtime} `{T : JobTypes}.
Variables (jm : ZOSMFJobManager) (correlator : string).
Variables (timeout pollInterval startTime : Z).

(** The timeout is checked first: once the elapsed time exceeds it, the
loop returns the timeout error without a poll. *)
Lemma wait_loop_timeout (fuel : nat) (w : World) :
  timeout < Now w - startTime →
  wait_loop (S fuel) jm correlator timeout pollInterval startTime w
  = (Some (Err (timeout_error correlator)), w).
Proof.
  intros Hlate. cbn [wait_loop]. rewrite Z.gtb_ltb.
  destruct (Z.ltb_spec timeout (Now w - startTime)); [reflexivity | lia].
Qed.

(** Otherwise it polls once: a failed poll ends the wait with that error,
a completed status ends it with the status, and any other status makes it
sleep for the poll interval and go round again. *)
Lemma wait_loop_poll (fuel : nat) (w : World) :
  Now w - startTime ≤ timeout →
  wait_loop (S fuel) jm correlator timeout pollInterval startTime w
  = match GetJobStatus jm correlator w with
    | (Err e, w1) => (Some (Err ("failed to get job status: " +:+ e)), w1)
    | (Ok status, w1) =>
        if isJobComplete status then (Some (Ok status), w1)
        else wait_loop fuel jm correlator timeout pollInterval startTime
               (Sleep pollInterval w1)
    end.
Proof.
  intros Hearly. cbn [wait_loop]. rewrite Z.gtb_ltb.
  destruct (Z.ltb_spec timeout (Now w - startTime)); [lia | reflexivity].
Qed.

(** What the loop can return. *)
Lemma wait_loop_result (fuel : nat) (w w' : World) (r : result string) :
  wait_loop fuel jm correlator timeout pollInterval startTime w = (Some r, w') →
  match r with
  | Ok status => isJobComplete status = true
  | Err msg =>
      (msg = timeout_error correlator ∧ timeout < Now w' - startTime)
      ∨ ∃ e, msg = "failed to get job status: " +:+ e
  end.
Proof.
  revert w. induction fuel as [|fuel IH]; intros w; [discriminate|].
  cbn [wait_loop]. rewrite Z.gtb_ltb.
  destruct (Z.ltb_spec timeout (Now w - startTime)) as [Hlate|Hearly].
  - intros [= <- <-]. left. auto.
  - destruct (GetJobStatus jm correlator w) as [[status|e] w1].
    + destruct (isJobComplete status) eqn:Hdone.
      * intros [= <- <-]. exact Hdone.
      * apply IH.
    + intros [= <- <-]. right. eauto.
Qed.

Lemma GetJobStatus_clock (w : World) :
  clock_advances R → Now w ≤ Now (GetJobStatus jm correlator w).2.
Proof.
  intros [Hdo _]. unfold GetJobStatus, GetJob, NewRequest.
  destruct (url_Parse_error _); [cbn; lia|].
  match goal with
  | |- context [Do ?c ?req w] =>
      specialize (Hdo c req w); destruct (Do c req w) as [[resp|e] w1]
  end; cbn in *.
  - destruct (negb _); [exact Hdo|].
    destruct (Decode Job_of_json resp); exact Hdo.
  - exact Hdo.
Qed.

(** With a clock that advances and a positive poll interval the loop
returns once the fuel covers the polls that fit in the timeout. *)
Lemma wait_loop_returns (fuel : nat) (w : World) :
  clock_advances R →
  0 < pollInterval →
  (1 ≤ fuel)%nat →
  timeout - (Now w - startTime) < (Z.of_nat fuel - 1) * pollInterval
  ∨ timeout < Now w - startTime →
  (wait_loop fuel jm correlator timeout pollInterval startTime w).1 ≠ None.
Proof.
  intros Hclock Hpoll. revert w.
  induction fuel as [|fuel IH]; intros w Hfuel Hleft; [lia|].
  cbn [wait_loop]. rewrite Z.gtb_ltb.
  destruct (Z.ltb_spec timeout (Now w - startTime)) as [Hlate|Hearly];
    [discriminate|].
  pose proof (GetJobStatus_clock w Hclock) as Hmono.
  destruct (GetJobStatus jm correlator w) as [[status|e] w1]; [|discriminate].
  destruct (isJobComplete status); [discriminate|].
  cbn in Hmono. destruct Hclock as [_ Hsleep].
  specialize (Hsleep pollInterval w1).
  destruct Hleft as [Hleft|Hleft]; [|lia].
  apply IH.
  - destruct fuel; [|lia]. cbn in Hleft. lia.
  - left. lia.
Qed.

End Wait.

(** Polls against the scripted server. *)
Section Scripted.
Variables (jm : ZOSMFJobManager) (correlator : string).

Local Abbreviation poll w :=
  (GetJobStatus (G := Mock.lib) (R := Mock.scripted 0) (T := Mock.types)
     jm correlator w).

Lemma poll_active (rest : list (result Response)) (t : Z) :
  poll (Mock.respond 200 (Mock.status_body "ACTIVE") :: rest, t)
  = (Ok "ACTIVE", (rest, t + 0)).
Proof. reflexivity. Qed.

Lemma poll_output (rest : list (result Response)) (t : Z) :
  poll (Mock.respond 200 (Mock.status_body "OUTPUT") :: rest, t)
  = (Ok "OUTPUT", (rest, t + 0)).
Proof. reflexivity. Qed.

Lemma poll_error (e : string) (rest : list (result Response)) (t : Z) :
  poll (Err e :: rest, t) = (Err ("failed to make request: " +:+ e), (rest, t + 0)).
Proof. reflexivity. Qed.

Local Abbreviation wait fuel timeout start w :=
  (wait_loop (G := Mock.lib) (R := Mock.scripted 0) (T := Mock.types)
     fuel jm correlator timeout 0 start w).

(** After [n] answers that the job is active, the loop is at the answer
that follows them, with the clock where it was. *)
Lemma wait_loop_active (n fuel : nat) (timeout t : Z)
    (script : list (result Response)) :
  0 ≤ timeout →
  wait (n + fuel)%nat timeout t
    (repeat (Mock.respond 200 (Mock.status_body "ACTIVE")) n ++ script, t)
  = wait fuel timeout t (script, t).
Proof.
  intros Htimeout. induction n as [|n IH]; [reflexivity|].
  cbn [Nat.add repeat app].
  rewrite wait_loop_poll by (cbn; lia).
  rewrite poll_active.
  change (isJobComplete (H := Mock.lib) "ACTIVE") with false. cbn iota.
  replace (Sleep (Runtime := Mock.scripted 0) 0
             (repeat (Mock.respond 200 (Mock.status_body "ACTIVE")) n ++ script, t + 0))
    with (repeat (Mock.respond 200 (Mock.status_body "ACTIVE")) n ++ script, t)
    by (cbn; f_equal; lia).
  exact IH.
Qed.

End Scripted.

End WaitFacts.

(** C2. [WaitForJobCompletion] compares the time elapsed on the monotonic
    clock with the timeout before each poll and returns the timeout error
    once the elapsed time exceeds it; otherwise it polls, returns at once
    with the error of a poll that fails, returns a status that is complete,
    and sleeps for the poll interval before the next round. What it returns
    is a complete status, the timeout error (and then the timeout is
    exceeded) or the error of the failed poll. With a clock that advances
    and a positive poll interval it returns within the polls that fit in
    the timeout. Nothing else bounds the number of polls: against a server
    that answers [n] times that the job is active, it polls [n + 1] times;
    and a transport error on a poll ends the wait with the rest of the
    script unread, so the poll is not tried again. *)
Theorem WaitForJobCompletion_polling :
  (∀ (G : HTTP.GoLib) (R : HTTP.Runtime) (T : Jobs.JobTypes)
     (jm : Jobs.ZOSMFJobManager) (correlator : string)
     (timeout pollInterval startTime : Z) (fuel : nat) (w : HTTP.World),
     (timeout < HTTP.Now w - startTime →
      Jobs.wait_loop (S fuel) jm correlator timeout pollInterval startTime w
      = (Some (Err (JobsSpec.timeout_error correlator)), w))
     ∧ (HTTP.Now w - startTime ≤ timeout →
        Jobs.wait_loop (S fuel) jm correlator timeout pollInterval startTime w
        = match Jobs.GetJobStatus jm correlator w with
          | (Err e, w1) => (Some (Err ("failed to get job status: " +:+ e)), w1)
          | (Ok status, w1) =>
              if Jobs.isJobComplete status then (Some (Ok status), w1)
              else Jobs.wait_loop fuel jm correlator timeout pollInterval startTime
                     (HTTP.Sleep pollInterval w1)
          end))
  ∧ (∀ (G : HTTP.GoLib) (R : HTTP.Runtime) (T : Jobs.JobTypes)
       (jm : Jobs.ZOSMFJobManager) (correlator : string)
       (timeout pollInterval : Z) (fuel : nat) (w w' : HTTP.World)
       (r : result string),
       Jobs.WaitForJobCompletion fuel jm correlator timeout pollInterval w
       = (Some r, w') →
       match r with
       | Ok status => Jobs.isJobComplete status = true
       | Err msg =>
           (msg = JobsSpec.timeout_error correlator
            ∧ timeout < HTTP.Now w' - HTTP.Now w)
           ∨ ∃ e, msg = "failed to get job status: " +:+ e
       end)
  ∧ (∀ (G : HTTP.GoLib) (R : HTTP.Runtime) (T : Jobs.JobTypes)
       (jm : Jobs.ZOSMFJobManager) (correlator : string)
       (timeout pollInterval : Z) (w : HTTP.World),
       JobsSpec.clock_advances R →
       0 < pollInterval →
       (Jobs.WaitForJobCompletion (Z.to_nat (timeout / pollInterval) + 2)
          jm correlator timeout pollInterval w).1 ≠ None)
  ∧ (∀ (jm : Jobs.ZOSMFJobManager) (correlator : string) (n : nat)
       (timeout : Z) (rest : list (result HTTP.Response)) (t : Z),
       0 ≤ timeout →
       Jobs.WaitForJobCompletion (G := Mock.lib) (R := Mock.scripted 0)
         (T := Mock.types) (S n) jm correlator timeout 0
         (Mock.active_then n (Mock.respond 200 (Mock.status_body "OUTPUT")) rest, t)
       = (Some (Ok "OUTPUT"), (rest, t)))
  ∧ (∀ (jm : Jobs.ZOSMFJobManager) (correlator : string) (n : nat)
       (e : string) (timeout : Z) (rest : list (result HTTP.Response)) (t : Z),
       0 ≤ timeout →
       Jobs.WaitForJobCompletion (G := Mock.lib) (R := Mock.scripted 0)
         (T := Mock.types) (S n) jm correlator timeout 0
         (Mock.active_then n (Err e) rest, t)
       = (Some (Err ("failed to get job status: failed to make request: " +:+ e)),
          (rest, t))).
Proof.
  split; [|split; [|split; [|split]]].
  - intros G R T jm correlator timeout pollInterval startTime fuel w. split.
    + apply WaitFacts.wait_loop_timeout.
    + apply WaitFacts.wait_loop_poll.
  - intros G R T jm correlator timeout pollInterval fuel w w' r.
    unfold Jobs.WaitForJobCompletion. apply WaitFacts.wait_loop_result.
  - intros G R T jm correlator timeout pollInterval w Hclock Hpoll.
    unfold Jobs.WaitForJobCompletion.
    apply WaitFacts.wait_loop_returns; [assumption | assumption | lia |].
    destruct (Z.lt_ge_cases timeout 0) as [Hneg|Hpos]; [right; lia|left].
    rewrite Z.sub_diag, Z.sub_0_r, Nat2Z.inj_add, Z2Nat.id
      by (apply Z.div_pos; lia).
    pose proof (Z.mul_succ_div_gt timeout pollInterval Hpoll). lia.
  - intros jm correlator n timeout rest t Htimeout.
    unfold Jobs.WaitForJobCompletion, Mock.active_then.
    change (HTTP.Now (Runtime := Mock.scripted 0) (?s, t)) with t.
    replace (S n) with (n + 1)%nat by lia.
    rewrite WaitFacts.wait_loop_active by assumption.
    rewrite WaitFacts.wait_loop_poll by (cbn; lia).
    rewrite WaitFacts.poll_output. cbn. now rewrite Z.add_0_r.
  - intros jm correlator n e timeout rest t Htimeout.
    unfold Jobs.WaitForJobCompletion, Mock.active_then.
    replace (S n) with (n + 1)%nat by lia.
    change (HTTP.Now (Runtime := Mock.scripted 0)
              (repeat (Mock.respond 200 (Mock.status_body "ACTIVE")) n
               ++ Err e :: rest, t)) with t.
    rewrite WaitFacts.wait_loop_active by assumption.
    rewrite WaitFacts.wait_loop_poll by (cbn; lia).
    rewrite WaitFacts.poll_error. now rewrite Z.add_0_r.
Qed.

Module ListDatasets1Facts.
Import HTTP Datasets.

Section Manager.
Context `{G : GoLib} `{T : DatasetTypes} (R : Runtime).

(** The first copy: a listing whose filter sets no pattern, no volume and
no start name sends its request to the bare datasets endpoint. *)
Lemma ListDatasets1_requests (dm : ZOSMFDatasetManager)
    (filter : option DatasetFilter) (w : @World R) :
  DatasetsSpec.no_pattern_no_volume filter →
  match filter with Some f => Owner f = "" | None => True end →
  let run := DatasetManager1.ListDatasets (R := Logged R) dm filter (w, []) in
  ∀ req, req ∈ run.2.2 →
    Method req = "GET"
    ∧ URL req = Profile.BaseURL (session dm) +:+ "/restfiles/ds"
    ∧ Header_Get "X-IBM-Max-Items" (Header req) = DatasetsSpec.max_items filter.
Proof.
  intros Hfilter Howner. cbv zeta. unfold DatasetManager1.ListDatasets.
  intros req.
  destruct filter as [f|];
    [ destruct Hfilter as [Hn Hv]; rewrite Hn, Hv, Howner; cbn [String.eqb negb] | ];
    rewrite map_size_empty; cbn [Nat.ltb Nat.leb]; unfold NewRequest;
    (destruct (url_Parse_error _) as [e|]; [intros Hin; inversion Hin|]);
    rewrite ListDatasetsFacts.ListDatasets_log; intros Hin;
    apply list_elem_of_singleton in Hin as ->;
    (split; [|split]).
  all: try (etransitivity;
            [ first [ apply (proj2 (ListDatasetsFacts.ListDatasets_request_URL _ (Some f) _))
                    | apply (proj2 (ListDatasetsFacts.ListDatasets_request_URL _ None _)) ]
            | reflexivity ]).
  all: try (etransitivity;
            [ first [ apply (proj1 (ListDatasetsFacts.ListDatasets_request_URL _ (Some f) _))
                    | apply (proj1 (ListDatasetsFacts.ListDatasets_request_URL _ None _)) ]
            | reflexivity ]).
  all: first [ apply (ListDatasetsFacts.max_items_header (Some f))
             | apply (ListDatasetsFacts.max_items_header None) ].
Qed.

End Manager.

End ListDatasets1Facts.

(** ** The model on the repository's own tests and on small runs *)

Module Examples.
Import HTTP.

Lemma Itoa_examples :
  GoStrings.Itoa 0 = "0" ∧ GoStrings.Itoa 10443 = "10443" ∧ GoStrings.Itoa (-7) = "-7".
Proof. repeat split. Qed.

(** [TestNewSession]: port 443 and a base path. *)
Lemma TestNewSession :
  Profile.BaseURL <$> (match Profile.NewSession
                         {| Profile.Name := ""; Profile.Host := "localhost";
                            Profile.Port := 443; Profile.User := "user";
                            Profile.Password := "pass";
                            Profile.RejectUnauthorized := true;
                            Profile.BasePath := "/api/v1";
                            Profile.Protocol := "" |} with
                       | Ok s => Some s
                       | Err _ => None
                       end)
  = Some "https://localhost/api/v1".
Proof. reflexivity. Qed.

(** [TestCreateSessionDirectWithOptions]: port 8080. *)
Lemma TestCreateSessionDirectWithOptions :
  Profile.BaseURL <$> (match Profile.NewSession
                         {| Profile.Name := ""; Profile.Host := "localhost";
                            Profile.Port := 8080; Profile.User := "user";
                            Profile.Password := "pass";
                            Profile.RejectUnauthorized := false;
                            Profile.BasePath := "/api/v1";
                            Profile.Protocol := "" |} with
                       | Ok s => Some s
                       | Err _ => None
                       end)
  = Some "http://localhost:8080/api/v1".
Proof. reflexivity. Qed.

(** [TestSessionHeaders]: a header added, then removed. *)
Lemma TestSessionHeaders :
  (Profile.Headers <$> Profile.AddHeader "X-Custom-Header" "custom-value" Mock.session)
  ≫= (λ h, (.!! "X-Custom-Header") <$> h)
  = Some (Some "custom-value")
  ∧ (Profile.Headers
       (Profile.run_calls
          [Profile.CallAddHeader "X-Custom-Header" "custom-value";
           Profile.CallRemoveHeader "X-Custom-Header"] Mock.session).1)
    ≫= (.!! "X-Custom-Header")
    = None.
Proof. split; vm_compute; reflexivity. Qed.

Lemma ValidateDatasetName_examples :
  Datasets.ValidateDatasetName "SYS1.PROCLIB" = None
  ∧ Datasets.ValidateDatasetName "A-B.C#1" = None
  ∧ Datasets.ValidateDatasetName "" = Some "dataset name cannot be empty"
  ∧ Datasets.ValidateDatasetName "1ABC"
    = Some "dataset name contains invalid characters"
  ∧ Datasets.ValidateDatasetName "sys1.proclib"
    = Some "dataset name contains invalid characters"
  ∧ Datasets.ValidateDatasetName "A..B"
    = Some "dataset name cannot contain consecutive periods"
  ∧ Datasets.ValidateDatasetName "A.B."
    = Some "dataset name cannot start or end with a period"
  ∧ Datasets.ValidateDatasetName "A--B"
    = Some "dataset name cannot contain consecutive hyphens"
  ∧ Datasets.ValidateDatasetName "A2345678.B2345678.C2345678.D2345678.E2345678X"
    = Some "dataset name cannot exceed 44 characters".
Proof. repeat split. Qed.

Lemma isJobComplete_examples :
  Jobs.isJobComplete (H := Mock.lib) "OUTPUT" = true
  ∧ Jobs.isJobComplete (H := Mock.lib) "output" = true
  ∧ Jobs.isJobComplete (H := Mock.lib) "Abend S0C4" = true
  ∧ Jobs.isJobComplete (H := Mock.lib) "cc 0004" = true
  ∧ Jobs.isJobComplete (H := Mock.lib) "CC 0008" = false
  ∧ Jobs.isJobComplete (H := Mock.lib) "ACTIVE" = false
  ∧ Jobs.isJobComplete (H := Mock.lib) "INPUT" = false.
Proof. repeat split. Qed.

(** The scripted server's clock advances when requests take no negative
time. *)
Lemma scripted_clock_advances (latency : Z) :
  0 ≤ latency → JobsSpec.clock_advances (Mock.scripted latency).
Proof.
  intros Hlat. split.
  - intros c req [script t]. cbn. destruct script; cbn; lia.
  - intros d [script t]. cbn. lia.
Qed.

(** A wait that times out: the job stays active, requests take a second
and polls are two seconds apart, with five seconds to wait. *)
Lemma wait_times_out :
  (Jobs.WaitForJobCompletion (G := Mock.lib) (R := Mock.scripted Profile.Second)
     (T := Mock.types) 10 Mock.job_manager "JOB00001"
     (5 * Profile.Second) (2 * Profile.Second)
     (Mock.active_then 5 (Mock.respond 200 (Mock.status_body "OUTPUT")) [], 0)).1
  = Some (Err "timeout waiting for job JOB00001 to complete").
Proof. vm_compute. reflexivity. Qed.

(** A job with two spool files, the content of the first of which cannot
be fetched: the output holds the second alone, and there is no error. *)
Lemma GetJobOutput_with_a_failing_file :
  (Jobs.GetJobOutput (G := Mock.lib) (R := Mock.scripted 0) (T := Mock.types)
     Mock.job_manager "JOB00001" (Mock.spool_script, 0)).1
  = Ok {[ "JESJCL" := "HELLO" ]}.
Proof. vm_compute. reflexivity. Qed.

(** A dataset submission with a volume, against the scripted server: one
PUT whose body has the dataset and the volume. *)
Lemma SubmitJob_from_dataset :
  let request :=
    {| Jobs.JobStatement := ""; Jobs.JobDataSet := "USER.JCL(JOB1)";
       Jobs.JobLocalFile := ""; Jobs.Volume := "VOL001";
       Jobs.Directory := "/tmp"; Jobs.Extension := "" |} in
  let run :=
    Jobs.SubmitJob (G := Mock.lib) (R := Logged (Mock.scripted 0)) (T := Mock.types)
      Mock.job_manager request
      (([Mock.respond 201 ("{" +:+ Json.quoted "jobid" +:+ ":"
                           +:+ Json.quoted "JOB00001" +:+ "}")], 0), []) in
  map (λ req, (Method req, URL req)) run.2.2
  = [("PUT", "https://zos.example.com:10443/zosmf/restjobs/jobs")]
  ∧ Mock.jobid <$> (match run.1 with Ok r => Some r | Err _ => None end)
    = Some "JOB00001".
Proof. split; vm_compute; reflexivity. Qed.

(** The second copy of the dataset manager on the inputs of C5 and C6. *)
Lemma second_copy_requests :
  map (λ req, (Method req, URL req))
    (DatasetManager2.CopyDataset (G := Mock.lib) (R := Logged (Mock.scripted 0))
       Mock.dataset_manager "SRC" "DST" (([Mock.respond 201 ""], 0), [])).2.2
  = [("PUT", "https://zos.example.com:10443/zosmf/restfiles/ds/DST")]
  ∧ map (λ req, (Method req, URL req,
                 Header_Get "X-IBM-Max-Items" (Header req)))
      (DatasetManager2.ListDatasets (G := Mock.lib) (R := Logged (Mock.scripted 0))
         (T := Mock.dataset_types) Mock.dataset_manager (Some Mock.empty_filter)
         (([Mock.respond 200 "{}"], 0), [])).2.2
    = [("GET", "https://zos.example.com:10443/zosmf/restfiles/ds?dslevel=IBMUSER.*",
        "0")].
Proof. split; vm_compute; reflexivity. Qed.

(** What the integration test's server writes for an empty job list, the
object followed by a new line, is refused as well. *)
Lemma ListJobs_encoder_output :
  (Jobs.ListJobs (G := Mock.lib) (R := Mock.scripted 0) (T := Mock.types)
     Mock.job_manager None
     ([Mock.respond 200 (Mock.empty_object_body +:+ String (ascii_of_N 10) "")], 0)).1
  = Err ("failed to decode response: " +:+ Mock.empty_object_body
         +:+ String (ascii_of_N 10) "").
Proof. vm_compute. reflexivity. Qed.

End Examples.

(** ** The theorems at concrete inputs *)

(** The wait returns on the scripted server, whose clock advances: requests
    take a second, polls are two seconds apart, the timeout is five. *)
Lemma WaitForJobCompletion_polling_witness :
  (Jobs.WaitForJobCompletion (G := Mock.lib) (R := Mock.scripted Profile.Second)
     (T := Mock.types)
     (Z.to_nat (5 * Profile.Second / (2 * Profile.Second)) + 2)
     Mock.job_manager "JOB00001" (5 * Profile.Second) (2 * Profile.Second)
     (Mock.active_then 5 (Mock.respond 200 (Mock.status_body "OUTPUT")) [], 0)).1
  ≠ None.
Proof.
  apply (proj1 (proj2 (proj2 WaitForJobCompletion_polling))).
  - apply Examples.scripted_clock_advances. vm_compute. discriminate.
  - reflexivity.
Defined.

(** A submission from a dataset sends at most one request. *)
Lemma SubmitJob_sources_and_codes_witness :
  JobsSpec.chosen_source Mock.dataset_request = Some JobsSpec.FromDataSet
  ∧ (length (Jobs.SubmitJob (G := Mock.lib) (R := HTTP.Logged (Mock.scripted 0))
               (T := Mock.types) Mock.job_manager Mock.dataset_request
               (([Mock.submitted], 0%Z), [])).2.2 ≤ 1)%nat.
Proof.
  split; [reflexivity|].
  apply (proj2 (SubmitJob_sources_and_codes (G := Mock.lib) (T := Mock.types)
                  (Mock.scripted 0) Mock.job_manager Mock.dataset_request
                  ([Mock.submitted], 0))
           JobsSpec.FromDataSet eq_refl).
Defined.

(** The lower-case form of a status of ASCII bytes gets the same answer. *)
Lemma isJobComplete_vocabulary_witness :
  GoStrings.isASCII "Output" = true
  ∧ Jobs.isJobComplete (H := Mock.lib)
      (GoStrings.map_bytes GoStrings.lower_byte "Output")
    = Jobs.isJobComplete (H := Mock.lib) "Output".
Proof.
  split; [reflexivity|].
  apply (proj2 (proj2 (isJobComplete_vocabulary (H := Mock.lib) "Output")) eq_refl).
Defined.

(** The output of a job one of whose spool files cannot be fetched. *)
Lemma GetJobOutput_omits_failed_files_witness :
  match Jobs.GetSpoolFiles (G := Mock.lib) (R := Mock.scripted 0) (T := Mock.types)
          Mock.job_manager "JOB00001" (Mock.spool_script, 0) with
  | (Err e, w1) =>
      Jobs.GetJobOutput (G := Mock.lib) (R := Mock.scripted 0) (T := Mock.types)
        Mock.job_manager "JOB00001" (Mock.spool_script, 0)
      = (Err ("failed to get spool files: " +:+ e), w1)
  | (Ok files, w1) =>
      let results :=
        (JobsSpec.fetch_all (G := Mock.lib) (R := Mock.scripted 0)
           Mock.job_manager "JOB00001" files w1).1 in
      ∃ output w2,
        Jobs.GetJobOutput (G := Mock.lib) (R := Mock.scripted 0) (T := Mock.types)
          Mock.job_manager "JOB00001" (Mock.spool_script, 0) = (Ok output, w2)
        ∧ output = JobsSpec.kept results ∅
        ∧ (∀ dd content,
             output !! dd = Some content →
             ∃ f, (f, Ok content) ∈ results ∧ Jobs.DDName f = dd)
        ∧ (∀ f e,
             (f, Err e) ∈ results →
             (∀ f' c, (f', Ok c) ∈ results → Jobs.DDName f' ≠ Jobs.DDName f) →
             output !! Jobs.DDName f = None)
  end.
Proof.
  exact (GetJobOutput_omits_failed_files (G := Mock.lib) (R := Mock.scripted 0)
           (T := Mock.types) Mock.job_manager "JOB00001" (Mock.spool_script, 0)).
Defined.

(** * Further properties of the code

The operations of the job and dataset managers that the properties above
leave out, the validation and builder functions of the two packages, and
the profile manager with its configuration file. *)

Module NameFacts.
Import GoStrings HTTP Datasets DatasetRequests DatasetsSpec.

Lemma len_gtb (s : string) (n : nat) :
  (len s >? Z.of_nat n) = false ↔ (String.length s ≤ n)%nat.
Proof. unfold len. rewrite Z.gtb_ltb, Z.ltb_ge. lia. Qed.

(** The checks of [ValidateMemberName], one by one. *)
Lemma ValidateMemberName_None (name : string) :
  ValidateMemberName name = None ↔
  String.eqb name "" = false ∧ (len name >? 8) = false ∧
  Regexp.MatchString validPattern name = true ∧
  Contains name ".." = false ∧ HasPrefix name "." = false ∧
  HasSuffix name "." = false.
Proof.
  unfold ValidateMemberName.
  destruct (String.eqb name ""); [intuition discriminate|].
  destruct (len name >? 8); [intuition discriminate|].
  destruct (Regexp.MatchString validPattern name); cbn [negb];
    [|intuition discriminate].
  destruct (Contains name ".."); [intuition discriminate|].
  destruct (HasPrefix name "."); cbn [orb]; [intuition discriminate|].
  destruct (HasSuffix name "."); intuition discriminate.
Qed.

End NameFacts.

(** X1. [ValidateMemberName] accepts exactly the names that are not empty,
    at most 8 bytes long, start with a character of [{A-Z,@,#,$}], go on
    with characters of [{A-Z,0-9,@,#,$,-,.}], have no two periods in a row
    and neither start nor end with a period. Two hyphens in a row are
    accepted. *)
Theorem ValidateMemberName_rules (name : string) :
  DatasetRequests.ValidateMemberName name = None ↔
  name ≠ "" ∧
  (String.length name ≤ 8)%nat ∧
  (∀ c rest, name = String c rest →
     DatasetsSpec.first_char_ok c
     ∧ ∀ x, x ∈ list_ascii_of_string rest → DatasetsSpec.other_char_ok x) ∧
  ¬ DatasetsSpec.occurs ".." name ∧
  ¬ (∃ t, name = "." +:+ t) ∧
  ¬ (∃ t, name = t +:+ ".").
Proof.
  rewrite NameFacts.ValidateMemberName_None.
  unfold DatasetsSpec.occurs.
  rewrite (DatasetsFacts.not_true_false _ _ (StringFacts.Contains_true name "..")).
  rewrite (DatasetsFacts.not_true_false _ _ (StringFacts.HasPrefix_true name ".")).
  rewrite (DatasetsFacts.not_true_false _ _ (StringFacts.HasSuffix_true name ".")).
  rewrite DatasetsFacts.validPattern_ok.
  rewrite (NameFacts.len_gtb name 8).
  assert (Hne : String.eqb name "" = false ↔ name ≠ "")
    by apply String.eqb_neq.
  rewrite Hne. split.
  - intros (Hn & Hl & (c & rest & -> & Hc & Hr) & Hpp & Hpre & Hsuf).
    repeat split; try assumption.
    + injection H as <- <-. exact Hc.
    + injection H as <- <-. exact Hr.
  - intros (Hn & Hl & Hchars & Hpp & Hpre & Hsuf).
    repeat split; try assumption.
    destruct name as [|c rest]; [contradiction|].
    exists c, rest. destruct (Hchars c rest eq_refl) as [Hc Hr]. auto.
Qed.

Module CreateFacts.
Import GoStrings HTTP Datasets DatasetRequests DatasetOperations RequestsSpec.

Lemma eqb_or_elem (s a : string) (l : list string) (b : bool) :
  (b = true ↔ s ∈ l) → (String.eqb s a || b = true ↔ s ∈ a :: l).
Proof.
  intros Hb. rewrite orb_true_iff, String.eqb_eq, Hb, elem_of_cons. reflexivity.
Qed.

Lemma eqb_elem_1 (s a : string) : String.eqb s a = true ↔ s ∈ [a].
Proof. rewrite String.eqb_eq, list_elem_of_singleton. reflexivity. Qed.

Lemma type_ok (t : string) :
  String.eqb t DatasetTypeSequential || String.eqb t DatasetTypePartitioned
  || String.eqb t DatasetTypePDSE || String.eqb t DatasetTypeVSAM = true
  ↔ t ∈ ["SEQ"; "PO"; "PDSE"; "VSAM"].
Proof.
  rewrite <- !orb_assoc.
  repeat apply eqb_or_elem. apply eqb_elem_1.
Qed.

Lemma unit_ok (u : string) :
  String.eqb u SpaceUnitTracks || String.eqb u SpaceUnitCylinders
  || String.eqb u SpaceUnitKB || String.eqb u SpaceUnitMB
  || String.eqb u SpaceUnitGB = true
  ↔ u ∈ ["TRK"; "CYL"; "KB"; "MB"; "GB"].
Proof.
  rewrite <- !orb_assoc.
  repeat apply eqb_or_elem. apply eqb_elem_1.
Qed.

Lemma format_ok (f : string) :
  negb (String.eqb f "")
  && negb (String.eqb f RecordFormatFixed || String.eqb f RecordFormatVariable
           || String.eqb f RecordFormatUndefined) = false
  ↔ f ∈ [""; "F"; "V"; "U"].
Proof.
  rewrite andb_false_iff, !negb_false_iff, <- orb_true_iff, <- !orb_assoc.
  repeat apply eqb_or_elem. apply eqb_elem_1.
Qed.

Lemma bound_ok (n hi : Z) :
  (n >? 0) && ((n <? 1) || (n >? hi)) = false ↔ n ≤ hi ∨ n ≤ 0.
Proof.
  rewrite !Z.gtb_ltb.
  destruct (Z.ltb_spec 0 n), (Z.ltb_spec n 1), (Z.ltb_spec hi n); cbn;
    intuition (try lia; try discriminate).
Qed.

Lemma directory_ok (t : string) (n : Z) :
  String.eqb t DatasetTypePartitioned && (n >? 0) && ((n <? 1) || (n >? 9999)) = false
  ↔ (t = "PO" → n ≤ 9999).
Proof.
  rewrite <- andb_assoc, andb_false_iff, bound_ok.
  destruct (String.eqb_spec t DatasetTypePartitioned) as [->|Hne];
    unfold DatasetTypePartitioned in *; intuition (try lia; try discriminate).
Qed.

Lemma if_None {A} (b : bool) (e : A) (rest : option A) (P : Prop) :
  (rest = None ↔ P) → ((if b then Some e else rest) = None ↔ b = false ∧ P).
Proof. destruct b; intuition discriminate. Qed.

Lemma if_None_negb {A} (b : bool) (e : A) (rest : option A) (P : Prop) :
  (rest = None ↔ P) → ((if negb b then Some e else rest) = None ↔ b = true ∧ P).
Proof. destruct b; intuition discriminate. Qed.

Lemma if_None_last {A} (b : bool) (e : A) :
  (if b then Some e else None) = None ↔ b = false.
Proof. destruct b; intuition discriminate. Qed.

Lemma ValidateCreateDatasetRequest_None (r : CreateDatasetRequest) :
  ValidateCreateDatasetRequest (Some r) = None ↔ acceptable_create_request r.
Proof.
  unfold ValidateCreateDatasetRequest, acceptable_create_request.
  destruct (ValidateDatasetName (Name r)) as [e|]; [intuition discriminate|].
  rewrite <- type_ok, <- unit_ok, <- format_ok, <- directory_ok.
  assert (HL : (RecordLength r >? 0) && ((RecordLength r <? 1) || (RecordLength r >? 32760)) = false
               ↔ RecordLength r ≤ 32760).
  { rewrite bound_ok. lia. }
  assert (HB : (BlockSize r >? 0) && ((BlockSize r <? 1) || (BlockSize r >? 32760)) = false
               ↔ BlockSize r ≤ 32760).
  { rewrite bound_ok. lia. }
  rewrite <- HL, <- HB. clear HL HB.
  assert (HP : (Primary (Space_ r) <=? 0) = false ↔ 0 < Primary (Space_ r))
    by (rewrite Z.leb_gt; reflexivity).
  assert (HS : (Secondary (Space_ r) <? 0) = false ↔ 0 ≤ Secondary (Space_ r))
    by (rewrite Z.ltb_ge; reflexivity).
  rewrite <- HP, <- HS. clear HP HS.
  assert (HN : ∀ P Q : Prop, (P ↔ Q) → (P ↔ @None string = None ∧ Q))
    by (intros P Q HPQ; rewrite HPQ; intuition).
  apply HN. clear HN.
  apply if_None_negb, if_None, if_None, if_None_negb, if_None, if_None, if_None,
    if_None_last.
Qed.

(** What [CreateDataset] puts in the body under each key. *)
Lemma create_body_dirblk (r : CreateDatasetRequest) :
  create_body r !! "dirblk"
  = if Directory r >? 0 then Some (BodyInt (Directory r))
    else if (Primary (Space_ r) >? 0) && (SpaceDirectory (Space_ r) >? 0)
         then Some (BodyInt (SpaceDirectory (Space_ r)))
         else None.
Proof.
  unfold create_body.
  destruct (Directory r >? 0); [now rewrite lookup_insert_eq|].
  destruct (BlockSize r >? 0), (RecordLength r >? 0),
    (String.eqb (RecordFormat r) ""), (Primary (Space_ r) >? 0),
    (SpaceDirectory (Space_ r) >? 0), (String.eqb (Volume r) "");
    cbn [negb andb]; simplify_map_eq; reflexivity.
Qed.

Lemma create_body_names (r : CreateDatasetRequest) :
  create_body r !! "dsname" = Some (BodyString (Name r))
  ∧ create_body r !! "dsorg" = Some (BodyString (Type_ r)).
Proof.
  unfold create_body.
  destruct (Directory r >? 0), (BlockSize r >? 0), (RecordLength r >? 0),
    (String.eqb (RecordFormat r) ""), (Primary (Space_ r) >? 0),
    (SpaceDirectory (Space_ r) >? 0), (String.eqb (Volume r) "");
    cbn [negb andb]; simplify_map_eq; split; reflexivity.
Qed.

Lemma create_body_space (r : CreateDatasetRequest) (key : string) :
  key ∈ ["alcunit"; "primary"; "secondary"] →
  create_body r !! key
  = if Primary (Space_ r) >? 0 then
      if bool_decide (key = "alcunit") then Some (BodyString (Unit (Space_ r)))
      else if bool_decide (key = "primary") then Some (BodyInt (Primary (Space_ r)))
      else Some (BodyInt (Secondary (Space_ r)))
    else None.
Proof.
  intros Hkey. unfold create_body.
  apply elem_of_cons in Hkey as [->|Hkey];
    [|apply elem_of_cons in Hkey as [->|Hkey];
      [|apply list_elem_of_singleton in Hkey as ->]];
  destruct (Directory r >? 0), (BlockSize r >? 0), (RecordLength r >? 0),
    (String.eqb (RecordFormat r) ""), (Primary (Space_ r) >? 0),
    (SpaceDirectory (Space_ r) >? 0), (String.eqb (Volume r) "");
    cbn [negb andb]; simplify_map_eq; reflexivity.
Qed.

End CreateFacts.

(** X2. [ValidateCreateDatasetRequest] accepts a request exactly when the
    name is a valid dataset name, the type is one of SEQ, PO, PDSE and
    VSAM, the primary space is positive, the secondary space is not
    negative, the unit is one of TRK, CYL, KB, MB and GB, the record format
    is empty or one of F, V and U, the record length and the block size
    are at most 32760, and, for a PO dataset, the directory is at most
    9999. It sets no lower bound on the record length, the block size and
    the directory, and no bound on the directory of a dataset that is not
    PO. *)
Theorem ValidateCreateDatasetRequest_accepts (r : DatasetRequests.CreateDatasetRequest) :
  DatasetRequests.ValidateCreateDatasetRequest (Some r) = None
  ↔ RequestsSpec.acceptable_create_request r.
Proof. apply CreateFacts.ValidateCreateDatasetRequest_None. Qed.

(** X3. The requests [CreateSequentialDataset] and
    [CreatePartitionedDataset] build for a name fail the validation of
    requests exactly when the name fails the validation of names, and then
    with its reason. *)
Theorem default_requests_valid_with_name (name : string) :
  DatasetRequests.ValidateCreateDatasetRequest
    (Some (DatasetOperations.sequential_request name))
  = (λ e, "invalid dataset name: " +:+ e) <$> Datasets.ValidateDatasetName name
  ∧ DatasetRequests.ValidateCreateDatasetRequest
      (Some (DatasetOperations.partitioned_request name))
    = (λ e, "invalid dataset name: " +:+ e) <$> Datasets.ValidateDatasetName name.
Proof.
  unfold DatasetRequests.ValidateCreateDatasetRequest,
    DatasetOperations.sequential_request, DatasetOperations.partitioned_request.
  cbn [DatasetRequests.Name].
  destruct (Datasets.ValidateDatasetName name); split; reflexivity.
Qed.

(** X4. The body [CreateDataset] sends always names the dataset and its
    organisation. Its directory blocks are the request's [Directory] when
    that is positive; otherwise those of the space, when they and the
    primary space are positive; otherwise the body has none. The unit and
    the primary and secondary space are sent together, and only when the
    primary space is positive. *)
Theorem create_body_fields (r : DatasetRequests.CreateDatasetRequest) :
  DatasetOperations.create_body r !! "dsname"
  = Some (DatasetOperations.BodyString (DatasetRequests.Name r))
  ∧ DatasetOperations.create_body r !! "dsorg"
    = Some (DatasetOperations.BodyString (DatasetRequests.Type_ r))
  ∧ DatasetOperations.create_body r !! "dirblk"
    = (if bool_decide (0 < DatasetRequests.Directory r)
       then Some (DatasetOperations.BodyInt (DatasetRequests.Directory r))
       else if bool_decide (0 < DatasetRequests.Primary (DatasetRequests.Space_ r)
                            ∧ 0 < DatasetRequests.SpaceDirectory (DatasetRequests.Space_ r))
            then Some (DatasetOperations.BodyInt
                         (DatasetRequests.SpaceDirectory (DatasetRequests.Space_ r)))
            else None)
  ∧ (∀ key, key ∈ ["alcunit"; "primary"; "secondary"] →
       is_Some (DatasetOperations.create_body r !! key)
       ↔ 0 < DatasetRequests.Primary (DatasetRequests.Space_ r)).
Proof.
  destruct (CreateFacts.create_body_names r) as [Hn Ho].
  split; [exact Hn|]. split; [exact Ho|]. split.
  - rewrite CreateFacts.create_body_dirblk, !Z.gtb_ltb.
    repeat case_bool_decide;
      repeat match goal with
             | |- context [?a <? ?b] => destruct (Z.ltb_spec a b)
             end; cbn [andb]; try reflexivity; lia.
  - intros key Hkey. rewrite (CreateFacts.create_body_space r key Hkey), Z.gtb_ltb.
    destruct (Z.ltb_spec 0 (DatasetRequests.Primary (DatasetRequests.Space_ r))).
    + repeat case_bool_decide; split; intros; eauto.
    + split; [intros [x Hx]; discriminate | lia].
Qed.

(** X5. [CreateDatasetWithOptions] for a PO dataset: a space with no
    directory blocks gets the default of 5; a space with directory blocks
    sends them only when its primary space is positive, and otherwise the
    request goes out with no directory blocks at all. *)
Theorem options_request_directory (name : string) (space : DatasetRequests.Space)
    (recordFormat : string) (recordLength blockSize : Z) :
  DatasetOperations.create_body
    (DatasetOperations.options_request name "PO" space recordFormat recordLength
       blockSize) !! "dirblk"
  = if bool_decide (DatasetRequests.SpaceDirectory space = 0)
    then Some (DatasetOperations.BodyInt 5)
    else if bool_decide (0 < DatasetRequests.Primary space
                         ∧ 0 < DatasetRequests.SpaceDirectory space)
         then Some (DatasetOperations.BodyInt (DatasetRequests.SpaceDirectory space))
         else None.
Proof.
  rewrite CreateFacts.create_body_dirblk.
  unfold DatasetOperations.options_request.
  change (String.eqb "PO" DatasetRequests.DatasetTypePartitioned) with true.
  cbn [andb]. rewrite ProfileFacts.Z_eqb_decide.
  case_bool_decide as H0; cbn [DatasetRequests.Directory DatasetRequests.Space_];
    [reflexivity|].
  change (0 >? 0) with false. cbn iota. rewrite !Z.gtb_ltb.
  case_bool_decide;
    repeat match goal with
           | |- context [?a <? ?b] => destruct (Z.ltb_spec a b)
           end; cbn [andb]; try reflexivity; lia.
Qed.

(** X6. [ValidateDownloadRequest] accepts a request exactly when its
    dataset name is valid and its member name is empty or valid;
    [ValidateUploadRequest] asks in addition for a content that is not
    empty. Neither looks at the encoding, nor at the replace flag. *)
Theorem upload_download_validation (datasetName memberName content encoding : string)
    (replace : bool) :
  let names_ok :=
    Datasets.ValidateDatasetName datasetName = None
    ∧ (memberName = "" ∨ DatasetRequests.ValidateMemberName memberName = None) in
  (DatasetRequests.ValidateDownloadRequest
     (Some {| DatasetRequests.DownloadDatasetName := datasetName;
              DatasetRequests.DownloadMemberName := memberName;
              DatasetRequests.DownloadEncoding := encoding |}) = None
   ↔ names_ok)
  ∧ (DatasetRequests.ValidateUploadRequest
       (Some {| DatasetRequests.DatasetName := datasetName;
                DatasetRequests.MemberName := memberName;
                DatasetRequests.Content := content;
                DatasetRequests.Encoding := encoding;
                DatasetRequests.Replace := replace |}) = None
     ↔ names_ok ∧ content ≠ "").
Proof.
  cbv zeta.
  unfold DatasetRequests.ValidateDownloadRequest, DatasetRequests.ValidateUploadRequest.
  cbn [DatasetRequests.DownloadDatasetName DatasetRequests.DownloadMemberName
       DatasetRequests.DatasetName DatasetRequests.MemberName
       DatasetRequests.Content].
  destruct (Datasets.ValidateDatasetName datasetName) as [e|];
    [split; split; try discriminate; intros [[? _] ?] || intros [? _]; discriminate|].
  rewrite !ProfileFacts.eqb_empty_decide.
  destruct (bool_decide_reflect (memberName = "")) as [Hm|Hm]; cbn [negb].
  - destruct (bool_decide_reflect (content = "")) as [Hc|Hc]; split; split;
      try discriminate; try tauto; intros; tauto.
  - destruct (DatasetRequests.ValidateMemberName memberName) as [e|].
    + split; split; try discriminate.
      * intros [_ [?|?]]; [contradiction|discriminate].
      * intros [[_ [?|?]] _]; [contradiction|discriminate].
    + destruct (bool_decide_reflect (content = "")) as [Hc|Hc]; split; split;
        try discriminate; try tauto; intros; tauto.
Qed.

Module JobRequestFacts.
Import GoStrings HTTP Jobs JobsConvenience DatasetsSpec.

Lemma isValidDatasetChar_ok (c : ascii) :
  isValidDatasetChar c = true ↔ other_char_ok c.
Proof.
  unfold isValidDatasetChar, other_char_ok, capital, digit.
  rewrite !orb_true_iff, !DatasetsFacts.byte_in_true, !Ascii.eqb_eq.
  cbn. intuition discriminate.
Qed.

Lemma isValidDatasetChar_class (c : ascii) :
  isValidDatasetChar c = Datasets.other_char_class c.
Proof.
  apply eq_true_iff_eq.
  rewrite isValidDatasetChar_ok, DatasetsFacts.other_char_class_ok. reflexivity.
Qed.

Lemma digit_byte (c : ascii) : byte_in "0" "9" c = true ↔ digit c.
Proof. unfold digit. rewrite DatasetsFacts.byte_in_true. reflexivity. Qed.

Lemma first_char_not_digit (c : ascii) : first_char_ok c → ¬ digit c.
Proof.
  unfold first_char_ok, capital, digit.
  intros [H | [-> | [-> | ->]]]; cbn in *; lia.
Qed.

Lemma first_char_other (c : ascii) : first_char_ok c → other_char_ok c.
Proof. unfold first_char_ok, other_char_ok. tauto. Qed.

Lemma isValidDatasetName_true (name : string) :
  isValidDatasetName name = true ↔
  name ≠ "" ∧ (String.length name ≤ 44)%nat
  ∧ (∀ c rest, name = String c rest → ¬ digit c)
  ∧ (∀ x, x ∈ list_ascii_of_string name → other_char_ok x).
Proof.
  unfold isValidDatasetName.
  assert (H44 : (len name >? 44) = false ↔ (String.length name ≤ 44)%nat).
  { unfold len. rewrite Z.gtb_ltb, Z.ltb_ge. lia. }
  destruct name as [|c rest].
  - cbn. split; [discriminate | intros [Hn _]; contradiction].
  - change (len (String c rest) =? 0) with false. cbn [orb].
    destruct (len (String c rest) >? 44).
    + split; [discriminate|]. intros (_ & Hl & _). apply H44 in Hl. discriminate.
    + destruct (byte_in "0" "9" c) eqn:Hd.
      * split; [discriminate|]. intros (_ & _ & Hf & _).
        exfalso. apply (Hf c rest eq_refl). now apply digit_byte.
      * rewrite DatasetsFacts.string_forallb_true. split.
        -- intros Hall. split; [discriminate|]. split; [now apply H44|].
           split.
           ++ intros c' rest' [= <- <-] Hdig. apply digit_byte in Hdig. congruence.
           ++ intros x Hx. apply isValidDatasetChar_ok, Hall, Hx.
        -- intros (_ & _ & _ & Hall) x Hx. apply isValidDatasetChar_ok, Hall, Hx.
Qed.

Lemma map_bytes_app (f : ascii → ascii) (a b : string) :
  map_bytes f (a +:+ b) = map_bytes f a +:+ map_bytes f b.
Proof.
  induction a as [|c a IH]; [reflexivity|].
  rewrite append_cons. cbn [map_bytes]. now rewrite append_cons, IH.
Qed.

(** A statement of ASCII bytes in which the word JOB occurs has a JOB
card for [ValidateJobRequest]. *)
Lemma JOB_card `{GoLib} (a b : string) :
  isASCII (a +:+ "JOB" +:+ b) = true →
  Contains (ToUpper unicodeUpper (a +:+ "JOB" +:+ b)) "JOB" = true.
Proof.
  intros Hascii. unfold ToUpper. rewrite Hascii.
  apply StringFacts.Contains_true.
  exists (map_bytes upper_byte a), (map_bytes upper_byte b).
  now rewrite !map_bytes_app.
Qed.

Lemma statement_request_valid `{GoLib} (a b : string) :
  isASCII (a +:+ "JOB" +:+ b) = true →
  ValidateJobRequest
    (Some {| JobStatement := a +:+ "JOB" +:+ b; JobDataSet := "";
             JobLocalFile := ""; Volume := ""; Directory := "";
             Extension := "" |}) = None.
Proof.
  intros Hascii. unfold ValidateJobRequest. cbn [JobStatement JobDataSet JobLocalFile].
  rewrite (JOB_card a b Hascii).
  destruct (String.eqb_spec (a +:+ "JOB" +:+ b) "") as [He|Hne]; [|reflexivity].
  destruct a; discriminate.
Qed.

Lemma CreateSimpleJobStatement_shape (jobName account user msgClass msgLevel : string) :
  ∃ a b, CreateSimpleJobStatement jobName account user msgClass msgLevel
         = a +:+ "JOB" +:+ b.
Proof.
  unfold CreateSimpleJobStatement.
  set (jn := if String.eqb jobName "" then _ else _).
  set (rest := _ +:+ ("),'" +:+ _)).
  exists ("//" +:+ jn +:+ " "), (" (" +:+ rest).
  rewrite !append_assoc. reflexivity.
Qed.

Lemma foldl_lines (jcl : string) (dds : list string) :
  foldl (λ jcl dd, jcl +:+ (dd +:+ newline)) jcl dds
  = jcl +:+ foldr (λ dd rest, dd +:+ newline +:+ rest) "" dds.
Proof.
  revert jcl. induction dds as [|dd dds IH]; intros jcl; cbn [foldl foldr].
  - now rewrite append_nil_r.
  - rewrite IH, !append_assoc. reflexivity.
Qed.

Lemma CreateJobWithStep_lines
    (jobName account user msgClass msgLevel stepName pgm : string)
    (ddStatements : list string) :
  CreateJobWithStep jobName account user msgClass msgLevel stepName pgm ddStatements
  = CreateSimpleJobStatement jobName account user msgClass msgLevel +:+ newline
    +:+ ("//" +:+ (if bool_decide (stepName = "") then "STEP1" else stepName)
         +:+ " EXEC PGM=" +:+ pgm +:+ newline)
    +:+ foldr (λ dd rest, dd +:+ newline +:+ rest) "" ddStatements.
Proof.
  unfold CreateJobWithStep. rewrite foldl_lines.
  rewrite ProfileFacts.eqb_empty_decide, !append_assoc. reflexivity.
Qed.

End JobRequestFacts.

(** X7. The dataset name check of the job package accepts exactly the
    names of 1 to 44 bytes that do not start with a digit and are made of
    characters of [{A-Z,0-9,@,#,$,-,.}]. It puts no condition on periods
    and hyphens: a name may start or end with either and may repeat
    them. *)
Theorem isValidDatasetName_rules (name : string) :
  JobsConvenience.isValidDatasetName name = true ↔
  name ≠ "" ∧ (String.length name ≤ 44)%nat
  ∧ (∀ c rest, name = String c rest → ¬ DatasetsSpec.digit c)
  ∧ (∀ x, x ∈ list_ascii_of_string name → DatasetsSpec.other_char_ok x).
Proof. apply JobRequestFacts.isValidDatasetName_true. Qed.

(** X8. Every name [ValidateDatasetName] of the dataset package accepts is
    accepted by the dataset name check of the job package. *)
Theorem dataset_name_valid_for_jobs (name : string) :
  Datasets.ValidateDatasetName name = None →
  JobsConvenience.isValidDatasetName name = true.
Proof.
  intros Hv. apply JobRequestFacts.isValidDatasetName_true.
  apply DatasetsFacts.ValidateDatasetName_None in Hv
    as (Hne & Hlen & Hpat & _).
  apply String.eqb_neq in Hne.
  apply DatasetsFacts.validPattern_ok in Hpat as (c & rest & -> & Hc & Hr).
  split; [exact Hne|]. split.
  { unfold GoStrings.len in Hlen. rewrite Z.gtb_ltb, Z.ltb_ge in Hlen. lia. }
  split.
  - intros c' rest' [= <- <-]. now apply JobRequestFacts.first_char_not_digit.
  - intros x Hx. cbn [list_ascii_of_string] in Hx.
    apply elem_of_cons in Hx as [->|Hx];
      [now apply JobRequestFacts.first_char_other | now apply Hr].
Qed.

(** X9. A request that passes [ValidateJobRequest] has a source, so
    [SubmitJob] does not refuse it: it goes on to send the body of the
    source it chooses. *)
Theorem validated_request_has_source `{G : HTTP.GoLib} `{T : Jobs.JobTypes}
    (R : HTTP.Runtime) (jm : Jobs.ZOSMFJobManager) (request : Jobs.SubmitJobRequest)
    (w : @HTTP.World R) :
  JobsConvenience.ValidateJobRequest (Some request) = None →
  ∃ src body,
    JobsSpec.chosen_source request = Some src
    ∧ (∀ key, body !! key = JobsSpec.body_field src request key)
    ∧ Jobs.SubmitJob (R := R) jm request w
      = JobsSpec.send_job_body (R := R) jm body w.
Proof.
  intros Hv.
  destruct (JobsSpec.chosen_source request) as [src|] eqn:Hsrc.
  - destruct (SubmitFacts.SubmitJob_source R jm request src w Hsrc)
      as (body & Hbody & Hrun).
    exists src, body. auto.
  - exfalso. revert Hsrc Hv.
    unfold JobsSpec.chosen_source, JobsConvenience.ValidateJobRequest.
    repeat case_bool_decide; try discriminate. intros _.
    repeat match goal with
           | H : ¬ (_ ≠ _) |- _ => apply dec_stable in H
           | H : _ request = "" |- _ => rewrite H; clear H
           end.
    discriminate.
Qed.

(** X10. The statement [CreateSimpleJobStatement] builds, when it is made
    of ASCII bytes, passes [ValidateJobRequest] as the statement of a
    request, whatever the five arguments are. The JCL [CreateJobWithStep]
    builds is that statement, the EXEC statement of the step (named STEP1
    when no name is given) and the DD statements in their order, each
    ended by a line feed; when it is made of ASCII bytes it passes
    [ValidateJobRequest] too. *)
Theorem generated_JCL_validates `{G : HTTP.GoLib}
    (jobName account user msgClass msgLevel stepName pgm : string)
    (ddStatements : list string) :
  let statement :=
    JobsConvenience.CreateSimpleJobStatement jobName account user msgClass msgLevel in
  let jcl :=
    JobsConvenience.CreateJobWithStep jobName account user msgClass msgLevel
      stepName pgm ddStatements in
  let request (text : string) : Jobs.SubmitJobRequest :=
    {| Jobs.JobStatement := text; Jobs.JobDataSet := ""; Jobs.JobLocalFile := "";
       Jobs.Volume := ""; Jobs.Directory := ""; Jobs.Extension := "" |} in
  (GoStrings.isASCII statement = true →
   JobsConvenience.ValidateJobRequest (Some (request statement)) = None)
  ∧ jcl
    = statement +:+ JobsConvenience.newline
      +:+ ("//" +:+ (if bool_decide (stepName = "") then "STEP1" else stepName)
           +:+ " EXEC PGM=" +:+ pgm +:+ JobsConvenience.newline)
      +:+ foldr (λ dd rest, dd +:+ JobsConvenience.newline +:+ rest) "" ddStatements
  ∧ (GoStrings.isASCII jcl = true →
     JobsConvenience.ValidateJobRequest (Some (request jcl)) = None).
Proof.
  cbv zeta. split; [|split; [apply JobRequestFacts.CreateJobWithStep_lines|]].
  - destruct (JobRequestFacts.CreateSimpleJobStatement_shape
                jobName account user msgClass msgLevel) as (a & b & ->).
    apply JobRequestFacts.statement_request_valid.
  - rewrite JobRequestFacts.CreateJobWithStep_lines.
    destruct (JobRequestFacts.CreateSimpleJobStatement_shape
                jobName account user msgClass msgLevel) as (a & b & ->).
    rewrite !append_assoc.
    apply JobRequestFacts.statement_request_valid.
Qed.

Module CallFacts.
Import HTTP RequestsSpec.

Lemma status2 (c a b : Z) :
  negb (c =? a) && negb (c =? b) = negb (bool_decide (c ∈ [a; b])).
Proof.
  destruct (bool_decide_reflect (c ∈ [a; b])) as [Hin|Hin];
    rewrite !elem_of_cons, elem_of_nil in Hin;
    destruct (Z.eqb_spec c a), (Z.eqb_spec c b); cbn; try reflexivity; tauto.
Qed.

Lemma status3 (c a b d : Z) :
  negb (c =? a) && negb (c =? b) && negb (c =? d)
  = negb (bool_decide (c ∈ [a; b; d])).
Proof.
  destruct (bool_decide_reflect (c ∈ [a; b; d])) as [Hin|Hin];
    rewrite !elem_of_cons, elem_of_nil in Hin;
    destruct (Z.eqb_spec c a), (Z.eqb_spec c b), (Z.eqb_spec c d); cbn;
    try reflexivity; tauto.
Qed.

Lemma status1 (c a : Z) : negb (c =? a) = negb (bool_decide (c = a)).
Proof. now rewrite ProfileFacts.Z_eqb_decide. Qed.

Lemma plain_request_frame (session : Profile.Session) (method url : string)
    (body : option string) :
  Method (plain_request session method url body) = method
  ∧ URL (plain_request session method url body) = url
  ∧ Body (plain_request session method url body) = body.
Proof.
  unfold plain_request.
  destruct (SubmitFacts.add_session_headers_frame session
              {| Method := method; URL := url; Header := ∅; Body := body |})
    as (-> & -> & ->).
  auto.
Qed.

(** The headers of a request after the loop over a list of headers. *)
Lemma foldl_headers (l : list (string * string)) (req : Request)
    (key value : string) :
  (key, value) ∈ l →
  (∀ k v, (k, v) ∈ l →
     CanonicalMIMEHeaderKey k = CanonicalMIMEHeaderKey key → k = key ∧ v = value) →
  Header (foldl (λ r kv, Request_Header_Set kv.1 kv.2 r) req l)
  !! CanonicalMIMEHeaderKey key = Some value.
Proof.
  induction l as [|kv l IH] using rev_ind; intros Hin Huniq.
  - inversion Hin.
  - rewrite foldl_app. cbn [foldl]. unfold Request_Header_Set at 1.
    cbn [set_Header Header]. unfold Header_Set.
    destruct (decide (CanonicalMIMEHeaderKey kv.1 = CanonicalMIMEHeaderKey key))
      as [Heq|Hne].
    + destruct (Huniq kv.1 kv.2) as [_ <-]; [|exact Heq|].
      * apply elem_of_app. right. destruct kv. apply list_elem_of_singleton.
        reflexivity.
      * rewrite Heq. apply lookup_insert_eq.
    + rewrite lookup_insert_ne by exact Hne. apply IH.
      * apply elem_of_app in Hin as [Hin|Hin]; [exact Hin|].
        apply list_elem_of_singleton in Hin. subst kv. contradiction.
      * intros k v Hkv. apply Huniq, elem_of_app. now left.
Qed.

Lemma plain_request_header (session : Profile.Session) (method url : string)
    (body : option string) (headers : gmap string string) (key value : string) :
  Profile.GetHeaders session = Some headers →
  headers !! key = Some value →
  (∀ key', is_Some (headers !! key') →
     CanonicalMIMEHeaderKey key' = CanonicalMIMEHeaderKey key → key' = key) →
  Header_Get key (Header (plain_request session method url body)) = value.
Proof.
  intros Hh Hkey Huniq. unfold plain_request, add_session_headers, Header_Get.
  rewrite Hh. cbn [default].
  rewrite (foldl_headers _ _ key value); [reflexivity | |].
  - now apply elem_of_map_to_list.
  - intros k v Hkv. apply elem_of_map_to_list in Hkv. intros Hc.
    assert (k = key) as -> by (apply Huniq; [eauto|exact Hc]).
    split; [reflexivity|]. unfold id in Hkv. congruence.
Qed.

Lemma plain_request_no_headers (session : Profile.Session) (method url : string)
    (body : option string) :
  Profile.GetHeaders session = None →
  Header (plain_request session method url body) = ∅.
Proof.
  intros Hh. unfold plain_request, add_session_headers. rewrite Hh.
  cbn [default]. rewrite map_to_list_empty. reflexivity.
Qed.

Section Calls.
Context `{G : GoLib} (R : Runtime).

(** An operation of the shape of [send_and_check], watched through the
log of the requests. *)
Lemma send_and_check_logged (session : Profile.Session) (method url : string)
    (body : option string) (finish : Request → Request) (codes : list Z)
    (w : @World R) (log : list Request) :
  let req := finish (plain_request session method url body) in
  let run :=
    send_and_check (R := Logged R) session (NewRequest method url body) finish
      codes (w, log) in
  run.2.2 = log ++ match url_Parse_error url with Some _ => [] | None => [req] end
  ∧ (run.1 = None ↔
     url_Parse_error url = None
     ∧ ∃ resp, (@Do R (Profile.GetHTTPClient session) req w).1 = Ok resp
               ∧ StatusCode resp ∈ codes).
Proof.
  cbv zeta. unfold send_and_check, NewRequest, plain_request.
  destruct (url_Parse_error url) as [e|].
  - cbn. rewrite app_nil_r. split; [reflexivity|].
    split; [discriminate | intros [? _]; discriminate].
  - rewrite RequestFacts.Logged_Do.
    destruct (@Do R _ _ w) as [[resp|e] w1]; cbn [fst snd].
    + case_bool_decide as Hc; cbn [fst snd]; (split; [reflexivity|]).
      * split; [intros _; split; [reflexivity|eauto] | reflexivity].
      * split; [discriminate|]. intros [_ (resp' & [= <-] & Hin)]. contradiction.
    + split; [reflexivity|].
      split; [discriminate | intros [_ (resp' & Hd & _)]; discriminate].
Qed.

End Calls.

End CallFacts.

(** X11. The loop that copies the headers of the session into a request
    leaves the method, the address and the body as they are; with a
    session that has no header map it leaves the headers too. A header of
    the session reaches the request with its value, under the canonical
    form of its name, when no other header of the session has a name of
    the same canonical form. *)
Theorem session_headers_reach_requests (session : Profile.Session)
    (req0 : HTTP.Request) :
  let req := HTTP.add_session_headers session req0 in
  HTTP.Method req = HTTP.Method req0
  ∧ HTTP.URL req = HTTP.URL req0
  ∧ HTTP.Body req = HTTP.Body req0
  ∧ (Profile.GetHeaders session = None → HTTP.Header req = HTTP.Header req0)
  ∧ ∀ headers key value,
      Profile.GetHeaders session = Some headers →
      headers !! key = Some value →
      (∀ key', is_Some (headers !! key') →
         HTTP.CanonicalMIMEHeaderKey key' = HTTP.CanonicalMIMEHeaderKey key →
         key' = key) →
      HTTP.Header_Get key (HTTP.Header req) = value.
Proof.
  cbv zeta.
  destruct (SubmitFacts.add_session_headers_frame session req0) as (Hm & Hu & Hb).
  split; [exact Hm|]. split; [exact Hu|]. split; [exact Hb|]. split.
  - intros Hh. unfold HTTP.add_session_headers. rewrite Hh. cbn [default].
    rewrite map_to_list_empty. reflexivity.
  - intros headers key value Hh Hkey Huniq.
    unfold HTTP.add_session_headers, HTTP.Header_Get. rewrite Hh. cbn [default].
    rewrite (CallFacts.foldl_headers _ _ key value); [reflexivity | |].
    + now apply elem_of_map_to_list.
    + intros k v Hkv. apply elem_of_map_to_list in Hkv. unfold id in Hkv.
      intros Hc. assert (k = key) as -> by (apply Huniq; [eauto|exact Hc]).
      split; [reflexivity|congruence].
Qed.

Module ActionFacts.
Import HTTP Jobs JobsManager RequestsSpec.

Section Actions.
Context `{G : GoLib} (R : Runtime).

Lemma run_action_shape (a : JobAction) (jm : ZOSMFJobManager) (jobID : string)
    (w : @World R) :
  run_action (R := R) a jm jobID w
  = send_and_check (R := R) (session jm)
      (NewRequest (action_method a)
         (Profile.GetBaseURL (session jm) +:+ action_path a (PathEscape jobID)) None)
      (λ req, req) [200; 204] w.
Proof.
  destruct a; cbn [run_action action_method action_path];
    unfold CancelJob, PurgeJob, DeleteJob, send_and_check,
      JobByCorrelatorEndpoint, CancelEndpoint, PurgeEndpoint;
    rewrite ?append_assoc;
    (destruct (NewRequest _ _ None) as [req|e]; [|reflexivity]);
    cbv zeta;
    (destruct (Do _ _ w) as [[resp|e] w1]; [|reflexivity]);
    rewrite CallFacts.status2; destruct (bool_decide _); reflexivity.
Qed.

End Actions.

End ActionFacts.

(** X12. [CancelJob], [PurgeJob] and [DeleteJob] hand the client at most
    one request, and none when the address does not parse: a PUT to the
    address of the job followed by [/cancel] or [/purge], or a DELETE to
    the address of the job, with the headers of the session and no body.
    They succeed exactly when the server answers that request with status
    200 or 204; any other status, 202 included, is an error. *)
Theorem job_actions_request `{G : HTTP.GoLib} (R : HTTP.Runtime)
    (a : RequestsSpec.JobAction) (jm : Jobs.ZOSMFJobManager) (jobID : string)
    (w : @HTTP.World R) (log : list HTTP.Request) :
  let url :=
    Profile.GetBaseURL (Jobs.session jm)
    +:+ RequestsSpec.action_path a (HTTP.PathEscape jobID) in
  let req :=
    RequestsSpec.plain_request (Jobs.session jm) (RequestsSpec.action_method a)
      url None in
  let run := RequestsSpec.run_action (R := HTTP.Logged R) a jm jobID (w, log) in
  run.2.2
  = log ++ match HTTP.url_Parse_error url with Some _ => [] | None => [req] end
  ∧ (run.1 = None ↔
     HTTP.url_Parse_error url = None
     ∧ ∃ resp,
         (@HTTP.Do R (Profile.GetHTTPClient (Jobs.session jm)) req w).1 = Ok resp
         ∧ HTTP.StatusCode resp ∈ [200; 204]).
Proof.
  cbv zeta. rewrite ActionFacts.run_action_shape.
  apply (CallFacts.send_and_check_logged R (Jobs.session jm)
           (RequestsSpec.action_method a) _ None (λ req, req)).
Qed.

Module DatasetCallFacts.
Import HTTP Datasets DatasetRequests DatasetOperations RequestsSpec.

Section Calls.
Context `{G : GoLib} `{B : BodyLib} (R : Runtime).

Lemma CreateDataset_shape (dm : ZOSMFDatasetManager) (request : CreateDatasetRequest)
    (w : @World R) :
  CreateDataset (R := R) dm request w
  = send_and_check (R := R) (session dm)
      (NewRequest "POST"
         (Profile.GetBaseURL (session dm) +:+ "/restfiles/ds/"
          +:+ PathEscape (Name request))
         (Some (MarshalBody (create_body request))))
      (Request_Header_Set "Content-Type" "application/json") [201; 200] w.
Proof.
  unfold CreateDataset, send_and_check, DatasetByNameEndpoint.
  destruct (NewRequest _ _ _) as [req|e]; [|reflexivity]. cbv zeta.
  destruct (Do _ _ w) as [[resp|e] w1]; [|reflexivity].
  rewrite CallFacts.status2; destruct (bool_decide _); reflexivity.
Qed.

Lemma RenameDataset_shape (dm : ZOSMFDatasetManager) (oldName newName : string)
    (w : @World R) :
  RenameDataset (R := R) dm oldName newName w
  = send_and_check (R := R) (session dm)
      (NewRequest "PUT"
         (Profile.GetBaseURL (session dm) +:+ "/restfiles/ds/" +:+ PathEscape newName)
         (Some (Marshal
                  (GoMap (<["from-dataset" := GoStringMap {[ "dsn" := oldName ]}]>
                            {[ "request" := GoString "rename" ]})))))
      (Request_Header_Set "Content-Type" "application/json") [201; 200] w.
Proof.
  unfold RenameDataset, send_and_check, DatasetByNameEndpoint.
  destruct (NewRequest _ _ _) as [req|e]; [|reflexivity]. cbv zeta.
  destruct (Do _ _ w) as [[resp|e] w1]; [|reflexivity].
  rewrite CallFacts.status2; destruct (bool_decide _); reflexivity.
Qed.

(** The address of a dataset or of a member of it, for its content. *)
Lemma content_URL_spec (s : Profile.Session) (datasetName memberName : string) :
  content_URL s datasetName memberName
  = Profile.GetBaseURL s +:+ "/restfiles/ds/" +:+ PathEscape datasetName
    +:+ (if bool_decide (memberName = "") then ""
         else "(" +:+ PathEscape memberName +:+ ")").
Proof.
  unfold content_URL, DatasetByNameEndpoint.
  rewrite ProfileFacts.eqb_empty_decide.
  case_bool_decide; cbn [negb]; rewrite ?append_nil_r, ?append_assoc; reflexivity.
Qed.

Lemma UploadContent_shape (dm : ZOSMFDatasetManager) (request : UploadRequest)
    (w : @World R) :
  UploadContent (R := R) dm request w
  = send_and_check (R := R) (session dm)
      (NewRequest "PUT"
         (Profile.GetBaseURL (session dm) +:+ "/restfiles/ds/"
          +:+ PathEscape (DatasetName request)
          +:+ (if bool_decide (MemberName request = "") then ""
               else "(" +:+ PathEscape (MemberName request) +:+ ")"))
         (Some (Content request)))
      (Request_Header_Set "Content-Type" "text/plain") [201; 200; 204] w.
Proof.
  unfold UploadContent, send_and_check. rewrite content_URL_spec.
  destruct (negb (String.eqb (MemberName request) ""));
    (destruct (NewRequest _ _ _) as [req|e]; [|reflexivity]); cbv zeta;
    (destruct (Do _ _ w) as [[resp|e] w1]; [|reflexivity]);
    rewrite CallFacts.status3; destruct (bool_decide _); reflexivity.
Qed.

Lemma DeleteMember_shape (dm : ZOSMFDatasetManager) (datasetName memberName : string)
    (w : @World R) :
  DeleteMember (R := R) dm datasetName memberName w
  = send_and_check (R := R) (session dm)
      (NewRequest "DELETE"
         (Profile.GetBaseURL (session dm) +:+ "/restfiles/ds/"
          +:+ PathEscape datasetName +:+ "/member/" +:+ PathEscape memberName)
         None)
      (λ req, req) [200; 204] w.
Proof.
  unfold DeleteMember, send_and_check, DatasetByNameEndpoint, MemberByNameEndpoint.
  rewrite ?append_assoc.
  destruct (NewRequest _ _ _) as [req|e]; [|reflexivity]. cbv zeta.
  destruct (Do _ _ w) as [[resp|e] w1]; [|reflexivity].
  rewrite CallFacts.status2; destruct (bool_decide _); reflexivity.
Qed.

Lemma DeleteDataset_shape (dm : ZOSMFDatasetManager) (name : string) (w : @World R) :
  DeleteDataset (R := R) dm name w
  = send_and_check (R := R) (session dm)
      (NewRequest "DELETE"
         (Profile.GetBaseURL (session dm) +:+ "/restfiles/ds/" +:+ PathEscape name)
         None)
      (λ req, req) [200; 204] w.
Proof.
  unfold DeleteDataset, send_and_check, DatasetByNameEndpoint.
  destruct (NewRequest _ _ _) as [req|e]; [|reflexivity]. cbv zeta.
  destruct (Do _ _ w) as [[resp|e] w1]; [|reflexivity].
  rewrite CallFacts.status2; destruct (bool_decide _); reflexivity.
Qed.

End Calls.

Lemma append_inv_head (a x y : string) : a +:+ x = a +:+ y → x = y.
Proof.
  induction a as [|c a IH]; [auto|].
  rewrite !append_cons. intros [= H]. auto.
Qed.

End DatasetCallFacts.

(** X13. [CreateDataset] checks nothing of the request it is given: for
    every request, valid or not, it hands the client one POST to the
    address of the dataset (none when the address does not parse), with
    the headers of the session, the content type of JSON and the encoded
    fields as body. It succeeds exactly when the server answers with
    status 201 or 200. *)
Theorem CreateDataset_request `{G : HTTP.GoLib} `{B : DatasetOperations.BodyLib}
    (R : HTTP.Runtime) (dm : Datasets.ZOSMFDatasetManager)
    (request : DatasetRequests.CreateDatasetRequest)
    (w : @HTTP.World R) (log : list HTTP.Request) :
  let url :=
    Profile.GetBaseURL (Datasets.session dm) +:+ "/restfiles/ds/"
    +:+ HTTP.PathEscape (DatasetRequests.Name request) in
  let req :=
    HTTP.Request_Header_Set "Content-Type" "application/json"
      (RequestsSpec.plain_request (Datasets.session dm) "POST" url
         (Some (DatasetOperations.MarshalBody (DatasetOperations.create_body request)))) in
  let run := DatasetOperations.CreateDataset (R := HTTP.Logged R) dm request (w, log) in
  run.2.2
  = log ++ match HTTP.url_Parse_error url with Some _ => [] | None => [req] end
  ∧ (run.1 = None ↔
     HTTP.url_Parse_error url = None
     ∧ ∃ resp,
         (@HTTP.Do R (Profile.GetHTTPClient (Datasets.session dm)) req w).1 = Ok resp
         ∧ HTTP.StatusCode resp ∈ [201; 200]).
Proof.
  cbv zeta. rewrite DatasetCallFacts.CreateDataset_shape.
  apply (CallFacts.send_and_check_logged R (Datasets.session dm) "POST" _
           (Some _) (HTTP.Request_Header_Set "Content-Type" "application/json")).
Qed.

(** X14. [UploadContent] hands the client one PUT (none when the address
    does not parse) to the address of the dataset, followed by the member
    name in parentheses when the request names a member. The body is the
    content as it is and the content type is [text/plain], whatever
    content type the session carries; the fields [Encoding] and [Replace]
    of the request are not sent. It succeeds exactly when the server
    answers with status 201, 200 or 204. *)
Theorem UploadContent_request `{G : HTTP.GoLib} (R : HTTP.Runtime)
    (dm : Datasets.ZOSMFDatasetManager) (request : DatasetRequests.UploadRequest)
    (w : @HTTP.World R) (log : list HTTP.Request) :
  let url :=
    Profile.GetBaseURL (Datasets.session dm) +:+ "/restfiles/ds/"
    +:+ HTTP.PathEscape (DatasetRequests.DatasetName request)
    +:+ (if bool_decide (DatasetRequests.MemberName request = "") then ""
         else "(" +:+ HTTP.PathEscape (DatasetRequests.MemberName request) +:+ ")") in
  let req :=
    HTTP.Request_Header_Set "Content-Type" "text/plain"
      (RequestsSpec.plain_request (Datasets.session dm) "PUT" url
         (Some (DatasetRequests.Content request))) in
  let run := DatasetOperations.UploadContent (R := HTTP.Logged R) dm request (w, log) in
  run.2.2
  = log ++ match HTTP.url_Parse_error url with Some _ => [] | None => [req] end
  ∧ (run.1 = None ↔
     HTTP.url_Parse_error url = None
     ∧ ∃ resp,
         (@HTTP.Do R (Profile.GetHTTPClient (Datasets.session dm)) req w).1 = Ok resp
         ∧ HTTP.StatusCode resp ∈ [201; 200; 204])
  ∧ HTTP.Header_Get "Content-Type" (HTTP.Header req) = "text/plain"
  ∧ HTTP.Body req = Some (DatasetRequests.Content request).
Proof.
  cbv zeta. rewrite DatasetCallFacts.UploadContent_shape.
  destruct (CallFacts.send_and_check_logged R (Datasets.session dm) "PUT"
              (Profile.GetBaseURL (Datasets.session dm) +:+ "/restfiles/ds/"
               +:+ HTTP.PathEscape (DatasetRequests.DatasetName request)
               +:+ (if bool_decide (DatasetRequests.MemberName request = "") then ""
                    else "(" +:+ HTTP.PathEscape (DatasetRequests.MemberName request)
                         +:+ ")"))
              (Some (DatasetRequests.Content request))
              (HTTP.Request_Header_Set "Content-Type" "text/plain")
              [201; 200; 204] w log) as [Hlog Hres].
  split; [exact Hlog|]. split; [exact Hres|]. split.
  - apply RequestFacts.Header_Get_Set.
  - destruct (RequestFacts.Request_Header_Set_frame "Content-Type" "text/plain"
                (RequestsSpec.plain_request (Datasets.session dm) "PUT"
                   (Profile.GetBaseURL (Datasets.session dm) +:+ "/restfiles/ds/"
                    +:+ HTTP.PathEscape (DatasetRequests.DatasetName request)
                    +:+ (if bool_decide (DatasetRequests.MemberName request = "")
                         then ""
                         else "(" +:+ HTTP.PathEscape
                                        (DatasetRequests.MemberName request)
                              +:+ ")"))
                   (Some (DatasetRequests.Content request))))
      as (_ & _ & ->).
    apply CallFacts.plain_request_frame.
Qed.

(** X15. [RenameDataset] hands the client one PUT (none when the address
    does not parse) to the address of the new name, with the content type
    of JSON and a body that holds the request word [rename] and the old
    name as [dsn] of [from-dataset]. It succeeds exactly when the server
    answers with status 201 or 200. *)
Theorem RenameDataset_request `{G : HTTP.GoLib} (R : HTTP.Runtime)
    (dm : Datasets.ZOSMFDatasetManager) (oldName newName : string)
    (w : @HTTP.World R) (log : list HTTP.Request) :
  let url :=
    Profile.GetBaseURL (Datasets.session dm) +:+ "/restfiles/ds/"
    +:+ HTTP.PathEscape newName in
  let body : gmap string HTTP.goval :=
    <["from-dataset" := HTTP.GoStringMap {[ "dsn" := oldName ]}]>
      {[ "request" := HTTP.GoString "rename" ]} in
  let req :=
    HTTP.Request_Header_Set "Content-Type" "application/json"
      (RequestsSpec.plain_request (Datasets.session dm) "PUT" url
         (Some (HTTP.Marshal (HTTP.GoMap body)))) in
  let run :=
    DatasetOperations.RenameDataset (R := HTTP.Logged R) dm oldName newName (w, log) in
  run.2.2
  = log ++ match HTTP.url_Parse_error url with Some _ => [] | None => [req] end
  ∧ (run.1 = None ↔
     HTTP.url_Parse_error url = None
     ∧ ∃ resp,
         (@HTTP.Do R (Profile.GetHTTPClient (Datasets.session dm)) req w).1 = Ok resp
         ∧ HTTP.StatusCode resp ∈ [201; 200]).
Proof.
  cbv zeta. rewrite DatasetCallFacts.RenameDataset_shape.
  apply (CallFacts.send_and_check_logged R (Datasets.session dm) "PUT" _
           (Some _) (HTTP.Request_Header_Set "Content-Type" "application/json")).
Qed.

(** X16. [DeleteDataset] and [DeleteMember] hand the client one DELETE
    (none when the address does not parse) with no body, to the address of
    the dataset and to that address followed by [/member/] and the member
    name; they succeed exactly when the server answers with status 200 or
    204. The address [DeleteMember] uses for a member is never the one
    [UploadContent] uses for it, which has the member name in parentheses
    after the dataset name. *)
Theorem delete_requests `{G : HTTP.GoLib} (R : HTTP.Runtime)
    (dm : Datasets.ZOSMFDatasetManager) (datasetName memberName : string)
    (w : @HTTP.World R) (log : list HTTP.Request) :
  let base := Profile.GetBaseURL (Datasets.session dm) in
  let dataset_url := base +:+ "/restfiles/ds/" +:+ HTTP.PathEscape datasetName in
  let member_url := dataset_url +:+ "/member/" +:+ HTTP.PathEscape memberName in
  let upload_url := dataset_url +:+ "(" +:+ HTTP.PathEscape memberName +:+ ")" in
  let sent (url : string) : list HTTP.Request :=
    match HTTP.url_Parse_error url with
    | Some _ => []
    | None => [RequestsSpec.plain_request (Datasets.session dm) "DELETE" url None]
    end in
  let accepted (url : string) : Prop :=
    HTTP.url_Parse_error url = None
    ∧ ∃ resp,
        (@HTTP.Do R (Profile.GetHTTPClient (Datasets.session dm))
           (RequestsSpec.plain_request (Datasets.session dm) "DELETE" url None) w).1
        = Ok resp
        ∧ HTTP.StatusCode resp ∈ [200; 204] in
  let run1 := DatasetOperations.DeleteDataset (R := HTTP.Logged R) dm datasetName (w, log) in
  let run2 :=
    DatasetOperations.DeleteMember (R := HTTP.Logged R) dm datasetName memberName
      (w, log) in
  run1.2.2 = log ++ sent dataset_url
  ∧ (run1.1 = None ↔ accepted dataset_url)
  ∧ run2.2.2 = log ++ sent member_url
  ∧ (run2.1 = None ↔ accepted member_url)
  ∧ member_url ≠ upload_url.
Proof.
  cbv zeta. rewrite DatasetCallFacts.DeleteDataset_shape,
    DatasetCallFacts.DeleteMember_shape.
  destruct (CallFacts.send_and_check_logged R (Datasets.session dm) "DELETE"
              (Profile.GetBaseURL (Datasets.session dm) +:+ "/restfiles/ds/"
               +:+ HTTP.PathEscape datasetName)
              None (λ req, req) [200; 204] w log) as [Hlog1 Hres1].
  rewrite <- !append_assoc.
  destruct (CallFacts.send_and_check_logged R (Datasets.session dm) "DELETE"
              ((((Profile.GetBaseURL (Datasets.session dm) +:+ "/restfiles/ds/")
               +:+ HTTP.PathEscape datasetName) +:+ "/member/")
               +:+ HTTP.PathEscape memberName)
              None (λ req, req) [200; 204] w log) as [Hlog2 Hres2].
  rewrite <- !append_assoc in Hlog1, Hres1.
  split; [exact Hlog1|]. split; [exact Hres1|].
  split; [exact Hlog2|]. split; [exact Hres2|].
  rewrite !append_assoc. intros Heq.
  do 3 apply DatasetCallFacts.append_inv_head in Heq. discriminate.
Qed.

Module QueryFacts.
Import HTTP Jobs RequestsSpec.

Lemma lookup_optional_insert (b : bool) (k v key : string) (m : gmap string string) :
  (if b then <[k := v]> m else m) !! key
  = if bool_decide (key = k) then (if b then Some v else m !! k) else m !! key.
Proof.
  destruct b; case_bool_decide; simplify_map_eq; reflexivity.
Qed.

Lemma optional_negb (s : string) :
  (if negb (String.eqb s "") then Some s else None) = JobsSpec.optional s.
Proof.
  unfold JobsSpec.optional. rewrite ProfileFacts.eqb_empty_decide.
  case_bool_decide; reflexivity.
Qed.

Section ListJobs.
Context `{G : GoLib} `{T : JobTypes} (R : Runtime).

Lemma ListJobs_log (jm : ZOSMFJobManager) (filter : option JobFilter)
    (w : @World R) (log : list Request) :
  ∃ params : gmap string string,
    (∀ key, params !! key = job_query filter key)
    ∧ let url :=
        Profile.GetBaseURL (session jm) +:+ "/restjobs/jobs"
        +:+ (if bool_decide (params = ∅) then "" else "?" +:+ Values_Encode params) in
      (ListJobs (R := Logged R) jm filter (w, log)).2.2
      = log ++ match url_Parse_error url with
               | Some _ => []
               | None => [plain_request (session jm) "GET" url None]
               end.
Proof.
  unfold ListJobs. cbv zeta.
  match goal with
  | |- context [size ?m] => set (params := m)
  end.
  exists params. split.
  - intros key. subst params.
    destruct filter as [filter|]; [|apply lookup_empty].
    unfold job_query.
    rewrite !lookup_optional_insert, !lookup_empty, !optional_negb.
    rewrite Z.gtb_ltb.
    repeat case_bool_decide; subst; try discriminate; try reflexivity;
      repeat match goal with
             | |- context [?a <? ?b] => destruct (Z.ltb_spec a b)
             end; try reflexivity; try lia;
      repeat match goal with
             | H : ?k ≠ ?k |- _ => contradiction
             end.
  - clearbody params. unfold JobsEndpoint, NewRequest, plain_request.
    assert (Hurl : (if (0 <? size params)%nat
                    then (Profile.GetBaseURL (session jm) +:+ "/restjobs/jobs")
                         +:+ "?" +:+ Values_Encode params
                    else Profile.GetBaseURL (session jm) +:+ "/restjobs/jobs")
                   = Profile.GetBaseURL (session jm) +:+ "/restjobs/jobs"
                     +:+ (if bool_decide (params = ∅) then ""
                          else "?" +:+ Values_Encode params)).
    { case_bool_decide as He.
      - subst params. cbn. now rewrite append_nil_r.
      - destruct (size params) eqn:Hs.
        + apply map_size_empty_iff in Hs. contradiction.
        + cbn. now rewrite append_assoc. }
    rewrite Hurl. clear Hurl.
    destruct (url_Parse_error _) as [e|]; [cbn; now rewrite app_nil_r|].
    rewrite RequestFacts.Logged_Do.
    destruct (@Do R _ _ w) as [[resp|e] w1]; cbn [fst snd]; [|reflexivity].
    destruct (negb (StatusCode resp =? 200)); [reflexivity|].
    destruct (ReadErr resp); [reflexivity|].
    destruct (Unmarshal JobList_of_json (RespBody resp)) as [jl|e];
      [destruct (_ || _)|]; reflexivity.
Qed.

End ListJobs.

End QueryFacts.

(** X17. [ListJobs] hands the client at most one GET, to the address of
    the jobs with a query that holds exactly the fields of the filter that
    are set: [owner], [prefix], [jobid], [jobname], [status] and
    [user-correlator] when not empty, [max-jobs] when positive. With no
    filter, or with none of its fields set, the address has no query at
    all. *)
Theorem ListJobs_query `{G : HTTP.GoLib} `{T : Jobs.JobTypes} (R : HTTP.Runtime)
    (jm : Jobs.ZOSMFJobManager) (filter : option Jobs.JobFilter)
    (w : @HTTP.World R) (log : list HTTP.Request) :
  ∃ params : gmap string string,
    (∀ key, params !! key = RequestsSpec.job_query filter key)
    ∧ let url :=
        Profile.GetBaseURL (Jobs.session jm) +:+ "/restjobs/jobs"
        +:+ (if bool_decide (params = ∅) then ""
             else "?" +:+ HTTP.Values_Encode params) in
      (Jobs.ListJobs (R := HTTP.Logged R) jm filter (w, log)).2.2
      = log ++ match HTTP.url_Parse_error url with
               | Some _ => []
               | None => [RequestsSpec.plain_request (Jobs.session jm) "GET" url None]
               end.
Proof. apply QueryFacts.ListJobs_log. Qed.

Module DownloadFacts.
Import HTTP Datasets DatasetRequests DatasetOperations RequestsSpec.

Section Download.
Context `{G : GoLib} (R : Runtime).

Lemma DownloadContent_logged (dm : ZOSMFDatasetManager) (request : DownloadRequest)
    (w : @World R) (log : list Request) :
  let url :=
    Profile.GetBaseURL (session dm) +:+ "/restfiles/ds/"
    +:+ PathEscape (DownloadDatasetName request)
    +:+ (if bool_decide (DownloadMemberName request = "") then ""
         else "(" +:+ PathEscape (DownloadMemberName request) +:+ ")")
    +:+ (if bool_decide (DownloadEncoding request = "") then ""
         else "?" +:+ Values_Encode (<["encoding" := DownloadEncoding request]> ∅)) in
  let req := plain_request (session dm) "GET" url None in
  let run := DownloadContent (R := Logged R) dm request (w, log) in
  run.2.2 = log ++ match url_Parse_error url with Some _ => [] | None => [req] end
  ∧ (∀ content,
       run.1 = Ok content ↔
       url_Parse_error url = None
       ∧ ∃ resp, (@Do R (Profile.GetHTTPClient (session dm)) req w).1 = Ok resp
                 ∧ StatusCode resp = 200 ∧ ReadErr resp = None
                 ∧ RespBody resp = content).
Proof.
  cbv zeta. unfold DownloadContent. cbv zeta.
  rewrite DatasetCallFacts.content_URL_spec.
  set (address := Profile.GetBaseURL (session dm) +:+ "/restfiles/ds/"
                  +:+ PathEscape (DownloadDatasetName request)
                  +:+ (if bool_decide (DownloadMemberName request = "") then ""
                       else "(" +:+ PathEscape (DownloadMemberName request) +:+ ")")).
  assert (Hurl :
    (if (0 <? size (if negb (String.eqb (DownloadEncoding request) "")
                    then <["encoding" := DownloadEncoding request]> ∅
                    else (∅ : gmap string string)))%nat
     then address +:+ "?"
          +:+ Values_Encode (if negb (String.eqb (DownloadEncoding request) "")
                             then <["encoding" := DownloadEncoding request]> ∅
                             else ∅)
     else address)
    = Profile.GetBaseURL (session dm) +:+ "/restfiles/ds/"
      +:+ PathEscape (DownloadDatasetName request)
      +:+ (if bool_decide (DownloadMemberName request = "") then ""
           else "(" +:+ PathEscape (DownloadMemberName request) +:+ ")")
      +:+ (if bool_decide (DownloadEncoding request = "") then ""
           else "?" +:+ Values_Encode (<["encoding" := DownloadEncoding request]> ∅))).
  { rewrite ProfileFacts.eqb_empty_decide.
    case_bool_decide; cbn [negb].
    - cbn. subst address. rewrite ?append_nil_r. reflexivity.
    - rewrite map_size_insert_None by apply lookup_empty. cbn. subst address.
      rewrite ?append_assoc. reflexivity. }
  rewrite Hurl. clear Hurl. clearbody address.
  unfold NewRequest, plain_request.
  destruct (url_Parse_error _) as [e|].
  - cbn. rewrite app_nil_r. split; [reflexivity|].
    intros content. split; [discriminate | intros [? _]; discriminate].
  - rewrite RequestFacts.Logged_Do.
    destruct (@Do R _ _ w) as [[resp|e] w1]; cbn [fst snd].
    + rewrite CallFacts.status1. case_bool_decide as Hc; cbn [negb fst snd].
      * destruct (ReadErr resp) as [e|] eqn:Hr; cbn [fst snd];
          (split; [reflexivity|]); intros content.
        -- split; [discriminate|].
           intros [_ (resp' & [= <-] & _ & Hr' & _)]. congruence.
        -- split.
           ++ intros [= <-]. split; [reflexivity|]. exists resp. auto.
           ++ intros [_ (resp' & [= <-] & _ & _ & <-)]. reflexivity.
      * split; [reflexivity|]. intros content.
        split; [discriminate|]. intros [_ (resp' & [= <-] & Hc' & _)]. contradiction.
    + split; [reflexivity|]. intros content.
      split; [discriminate | intros [_ (resp' & Hd & _)]; discriminate].
Qed.

End Download.

End DownloadFacts.

(** X18. [DownloadContent] hands the client one GET (none when the address
    does not parse) to the address of the dataset, followed by the member
    name in parentheses when the request names a member and by the query
    [encoding] when the request names an encoding. It returns a content
    exactly when the server answers with status 200 and the body can be
    read in full, and the content is then that body as it is. *)
Theorem DownloadContent_request `{G : HTTP.GoLib} (R : HTTP.Runtime)
    (dm : Datasets.ZOSMFDatasetManager) (request : DatasetRequests.DownloadRequest)
    (w : @HTTP.World R) (log : list HTTP.Request) :
  let url :=
    Profile.GetBaseURL (Datasets.session dm) +:+ "/restfiles/ds/"
    +:+ HTTP.PathEscape (DatasetRequests.DownloadDatasetName request)
    +:+ (if bool_decide (DatasetRequests.DownloadMemberName request = "") then ""
         else "(" +:+ HTTP.PathEscape (DatasetRequests.DownloadMemberName request)
              +:+ ")")
    +:+ (if bool_decide (DatasetRequests.DownloadEncoding request = "") then ""
         else "?" +:+ HTTP.Values_Encode
                        (<["encoding" := DatasetRequests.DownloadEncoding request]> ∅)) in
  let req := RequestsSpec.plain_request (Datasets.session dm) "GET" url None in
  let run :=
    DatasetOperations.DownloadContent (R := HTTP.Logged R) dm request (w, log) in
  run.2.2
  = log ++ match HTTP.url_Parse_error url with Some _ => [] | None => [req] end
  ∧ (∀ content,
       run.1 = Ok content ↔
       HTTP.url_Parse_error url = None
       ∧ ∃ resp,
           (@HTTP.Do R (Profile.GetHTTPClient (Datasets.session dm)) req w).1 = Ok resp
           ∧ HTTP.StatusCode resp = 200 ∧ HTTP.ReadErr resp = None
           ∧ HTTP.RespBody resp = content).
Proof. apply DownloadFacts.DownloadContent_logged. Qed.

Module WrapperFacts.
Import HTTP Jobs JobsConvenience JobsSpec.

Section Wrappers.
Context `{G : GoLib} `{R : Runtime} `{T : JobTypes}.

Lemma GetJobOutputByDDName_loop_find (jm : ZOSMFJobManager)
    (correlator ddName : string) (spoolFiles : list SpoolFile) (w : World) :
  GetJobOutputByDDName_loop jm correlator ddName spoolFiles w
  = match List.find (λ f, String.eqb (DDName f) ddName) spoolFiles with
    | None =>
        (Err ("DD name " +:+ ddName +:+ " not found for job " +:+ correlator), w)
    | Some f =>
        match GetSpoolFileContent jm correlator (ID f) w with
        | (Err e, w1) =>
            (Err ("failed to get content for DD " +:+ ddName +:+ ": " +:+ e), w1)
        | (Ok content, w1) => (Ok content, w1)
        end
    end.
Proof.
  induction spoolFiles as [|f rest IH]; cbn [GetJobOutputByDDName_loop List.find];
    [reflexivity|].
  destruct (String.eqb (DDName f) ddName); [reflexivity | exact IH].
Qed.

End Wrappers.

Section Logs.
Context `{G : GoLib} `{T : JobTypes} (R : Runtime).

Lemma GetSpoolFiles_log (jm : ZOSMFJobManager) (jobID : string)
    (w : @World R) (log : list Request) :
  ∃ sent, (GetSpoolFiles (R := Logged R) jm jobID (w, log)).2.2 = log ++ sent
          ∧ (length sent ≤ 1)%nat.
Proof.
  unfold GetSpoolFiles. cbv zeta.
  destruct (NewRequest _ _ _) as [req|e];
    [|exists []; cbn; rewrite app_nil_r; split; [reflexivity|lia]].
  rewrite RequestFacts.Logged_Do.
  exists [add_session_headers (session jm) req]. split; [|cbn; lia].
  destruct (@Do R _ _ w) as [[resp|e] w1]; cbn [fst snd]; [|reflexivity].
  destruct (negb (StatusCode resp =? 200)); [reflexivity|].
  destruct (Decode _ resp); reflexivity.
Qed.

Lemma GetSpoolFileContent_log (jm : ZOSMFJobManager) (jobID : string) (spoolID : Z)
    (w : @World R) (log : list Request) :
  ∃ sent, (GetSpoolFileContent (R := Logged R) jm jobID spoolID (w, log)).2.2
          = log ++ sent
          ∧ (length sent ≤ 1)%nat.
Proof.
  unfold GetSpoolFileContent. cbv zeta.
  destruct (NewRequest _ _ _) as [req|e];
    [|exists []; cbn; rewrite app_nil_r; split; [reflexivity|lia]].
  rewrite RequestFacts.Logged_Do.
  exists [add_session_headers (session jm) req]. split; [|cbn; lia].
  destruct (@Do R _ _ w) as [[resp|e] w1]; cbn [fst snd]; [|reflexivity].
  destruct (negb (StatusCode resp =? 200)); [reflexivity|].
  destruct (ReadErr resp); reflexivity.
Qed.

Lemma GetJobOutputByDDName_log (jm : ZOSMFJobManager) (correlator ddName : string)
    (w : @World R) (log : list Request) :
  ∃ sent, (GetJobOutputByDDName (R := Logged R) jm correlator ddName (w, log)).2.2
          = log ++ sent
          ∧ (length sent ≤ 2)%nat.
Proof.
  unfold GetJobOutputByDDName.
  destruct (GetSpoolFiles_log jm correlator w log) as (sent1 & Hlog1 & Hlen1).
  destruct (GetSpoolFiles (R := Logged R) jm correlator (w, log))
    as [[spoolFiles|e] [w1 log1]]; cbn [fst snd] in Hlog1; subst log1.
  - rewrite GetJobOutputByDDName_loop_find.
    destruct (List.find _ spoolFiles) as [f|].
    + destruct (GetSpoolFileContent_log jm correlator (ID f) w1 (log ++ sent1))
        as (sent2 & Hlog2 & Hlen2).
      destruct (GetSpoolFileContent (R := Logged R) jm correlator (ID f)
                  (w1, log ++ sent1)) as [[content|e] [w2 log2]];
        cbn [fst snd] in Hlog2 |- *; subst log2;
        exists (sent1 ++ sent2); rewrite app_assoc, length_app;
        (split; [reflexivity|lia]).
    + exists sent1. cbn [snd]. split; [reflexivity|lia].
  - exists sent1. cbn [snd]. split; [reflexivity|lia].
Qed.

Lemma submit_statement (jm : ZOSMFJobManager) (jcl : string) (w : @World R) :
  SubmitJobStatement (R := R) jm jcl w
  = if bool_decide (jcl = "")
    then (Err "no job source specified (jobStatement, jobDataSet, or jobLocalFile)", w)
    else send_job_body (R := R) jm {[ "jobStatement" := jcl ]} w.
Proof.
  unfold SubmitJobStatement, SubmitJob, send_job_body.
  cbn [JobStatement JobDataSet JobLocalFile].
  rewrite ProfileFacts.eqb_empty_decide. case_bool_decide; reflexivity.
Qed.

Lemma submit_dataset (jm : ZOSMFJobManager) (dataset volume : string) (w : @World R) :
  SubmitJobFromDataset (R := R) jm dataset volume w
  = if bool_decide (dataset = "")
    then (Err "no job source specified (jobStatement, jobDataSet, or jobLocalFile)", w)
    else send_job_body (R := R) jm
           (if bool_decide (volume = "") then {[ "jobDataSet" := dataset ]}
            else <["volume" := volume]> {[ "jobDataSet" := dataset ]}) w.
Proof.
  unfold SubmitJobFromDataset, SubmitJob, send_job_body.
  cbn [JobStatement JobDataSet JobLocalFile Volume].
  rewrite !ProfileFacts.eqb_empty_decide. cbn [bool_decide negb].
  repeat case_bool_decide; try reflexivity; congruence.
Qed.

Lemma submit_local_file (jm : ZOSMFJobManager) (localFile directory extension : string)
    (w : @World R) :
  SubmitJobFromLocalFile (R := R) jm localFile directory extension w
  = if bool_decide (localFile = "")
    then (Err "no job source specified (jobStatement, jobDataSet, or jobLocalFile)", w)
    else
      let body : gmap string string := {[ "jobLocalFile" := localFile ]} in
      let body :=
        if bool_decide (directory = "") then body
        else <["directory" := directory]> body in
      send_job_body (R := R) jm
        (if bool_decide (extension = "") then body
         else <["extension" := extension]> body) w.
Proof.
  unfold SubmitJobFromLocalFile, SubmitJob, send_job_body.
  cbn [JobStatement JobDataSet JobLocalFile Directory Extension].
  rewrite !ProfileFacts.eqb_empty_decide. cbn [bool_decide negb].
  repeat case_bool_decide; try reflexivity; congruence.
Qed.

End Logs.

End WrapperFacts.

(** X19. [GetJobOutputByDDName] returns the content of the first spool
    file with the DD name, not of a later one; an error of that content
    request is reported and no other file is tried; with no such file the
    error says that the DD name was not found. Whatever the number of
    spool files, it hands the client at most two requests. *)
Theorem GetJobOutputByDDName_first_match `{G : HTTP.GoLib} `{T : Jobs.JobTypes}
    (R : HTTP.Runtime) (jm : Jobs.ZOSMFJobManager) (correlator ddName : string)
    (w : @HTTP.World R) (log : list HTTP.Request) :
  JobsConvenience.GetJobOutputByDDName (R := R) jm correlator ddName w
  = match Jobs.GetSpoolFiles (R := R) jm correlator w with
    | (Err e, w1) => (Err ("failed to get spool files: " +:+ e), w1)
    | (Ok spoolFiles, w1) =>
        match List.find (λ f, String.eqb (Jobs.DDName f) ddName) spoolFiles with
        | None =>
            (Err ("DD name " +:+ ddName +:+ " not found for job " +:+ correlator), w1)
        | Some f =>
            match Jobs.GetSpoolFileContent (R := R) jm correlator (Jobs.ID f) w1 with
            | (Err e, w2) =>
                (Err ("failed to get content for DD " +:+ ddName +:+ ": " +:+ e), w2)
            | (Ok content, w2) => (Ok content, w2)
            end
        end
    end
  ∧ ∃ sent,
      (JobsConvenience.GetJobOutputByDDName (R := HTTP.Logged R) jm correlator
         ddName (w, log)).2.2 = log ++ sent
      ∧ (length sent ≤ 2)%nat.
Proof.
  split; [|apply WrapperFacts.GetJobOutputByDDName_log].
  unfold JobsConvenience.GetJobOutputByDDName.
  destruct (Jobs.GetSpoolFiles jm correlator w) as [[spoolFiles|e] w1];
    [|reflexivity].
  apply WrapperFacts.GetJobOutputByDDName_loop_find.
Qed.

(** X20. [SubmitJobStatement], [SubmitJobFromDataset] and
    [SubmitJobFromLocalFile] with an empty statement, dataset or file
    return the error that no source is specified and send nothing,
    whatever the volume, the directory and the extension are. Otherwise
    they send the body of their source: the statement; the dataset, with
    the volume when it is not empty; the file, with the directory and the
    extension when they are not empty. *)
Theorem submit_wrappers `{G : HTTP.GoLib} `{T : Jobs.JobTypes} (R : HTTP.Runtime)
    (jm : Jobs.ZOSMFJobManager) (w : @HTTP.World R) :
  let refused : result Jobs.SubmitJobResponse * @HTTP.World R :=
    (Err "no job source specified (jobStatement, jobDataSet, or jobLocalFile)", w) in
  (∀ jcl,
     JobsConvenience.SubmitJobStatement (R := R) jm jcl w
     = if bool_decide (jcl = "") then refused
       else JobsSpec.send_job_body (R := R) jm {[ "jobStatement" := jcl ]} w)
  ∧ (∀ dataset volume,
       JobsConvenience.SubmitJobFromDataset (R := R) jm dataset volume w
       = if bool_decide (dataset = "") then refused
         else JobsSpec.send_job_body (R := R) jm
                (if bool_decide (volume = "") then {[ "jobDataSet" := dataset ]}
                 else <["volume" := volume]> {[ "jobDataSet" := dataset ]}) w)
  ∧ (∀ localFile directory extension,
       JobsConvenience.SubmitJobFromLocalFile (R := R) jm localFile directory
         extension w
       = if bool_decide (localFile = "") then refused
         else
           let body : gmap string string := {[ "jobLocalFile" := localFile ]} in
           let body :=
             if bool_decide (directory = "") then body
             else <["directory" := directory]> body in
           JobsSpec.send_job_body (R := R) jm
             (if bool_decide (extension = "") then body
              else <["extension" := extension]> body) w).
Proof.
  cbv zeta. split; [|split].
  - intros jcl. apply WrapperFacts.submit_statement.
  - intros dataset volume. apply WrapperFacts.submit_dataset.
  - intros localFile directory extension. apply WrapperFacts.submit_local_file.
Qed.

Module LookupFacts.
Import HTTP Datasets DatasetOperations.

Section Lookups.
Context `{G : GoLib} `{R : Runtime} `{T : DatasetTypes} `{V : !DatasetView}.

Lemma find_dataset_existsb (name : string) (datasets : list Dataset) :
  match find_dataset name datasets with
  | Some ds =>
      Dataset_Name ds = name
      ∧ existsb (λ ds, String.eqb (Dataset_Name ds) name) datasets = true
  | None => existsb (λ ds, String.eqb (Dataset_Name ds) name) datasets = false
  end.
Proof.
  induction datasets as [|ds rest IH]; cbn [find_dataset existsb]; [reflexivity|].
  destruct (String.eqb_spec (Dataset_Name ds) name) as [Heq|Hne]; cbn [orb].
  - auto.
  - destruct (find_dataset name rest); tauto.
Qed.

End Lookups.

End LookupFacts.

(** X21. [Exists] and [GetDataset] agree: on the same state of the world
    they leave the same state; [Exists] answers yes exactly when
    [GetDataset] returns a dataset, whose name is then the name asked for;
    it answers no exactly when [GetDataset] reports that the dataset was
    not found; and an error of the listing is the error of both. *)
Theorem Exists_agrees_with_GetDataset `{G : HTTP.GoLib} `{R : HTTP.Runtime}
    `{T : Datasets.DatasetTypes} `{V : !DatasetOperations.DatasetView}
    (dm : Datasets.ZOSMFDatasetManager) (name : string) (w : HTTP.World) :
  match DatasetOperations.Exists dm name w, DatasetOperations.GetDataset dm name w with
  | (Ok true, w1), (Ok ds, w2) => w1 = w2 ∧ DatasetOperations.Dataset_Name ds = name
  | (Ok false, w1), (Err e, w2) => w1 = w2 ∧ e = "dataset not found: " +:+ name
  | (Err e1, w1), (Err e2, w2) => w1 = w2 ∧ e1 = e2
  | _, _ => False
  end.
Proof.
  unfold DatasetOperations.Exists, DatasetOperations.GetDataset.
  destruct (DatasetManager2.ListDatasets dm _ w) as [[dl|e] w1]; [|auto].
  pose proof (LookupFacts.find_dataset_existsb name (DatasetOperations.Datasets_of dl))
    as Hfind.
  destruct (DatasetOperations.find_dataset name (DatasetOperations.Datasets_of dl))
    as [ds|].
  - destruct Hfind as [Hname ->]. auto.
  - rewrite Hfind. auto.
Qed.

(** X22. [GetDatasetsByType] never sends the type: it hands the client
    the request it would for any other type, a GET to the address of the
    datasets whose query asks for the datasets of the user of the session
    and for nothing else, with the limit in the header. *)
Theorem GetDatasetsByType_ignores_type `{G : HTTP.GoLib}
    `{T : Datasets.DatasetTypes} (R : HTTP.Runtime)
    (dm : Datasets.ZOSMFDatasetManager) (datasetType : string) (limit : Z)
    (w : @HTTP.World R) :
  (∀ other : string,
     DatasetOperations.GetDatasetsByType (R := R) dm datasetType limit
     = DatasetOperations.GetDatasetsByType (R := R) dm other limit)
  ∧ ∀ req,
      req ∈ (DatasetOperations.GetDatasetsByType (R := HTTP.Logged R) dm datasetType
               limit (w, [])).2.2 →
      HTTP.Method req = "GET"
      ∧ HTTP.URL req
        = Profile.BaseURL (Datasets.session dm) +:+ "/restfiles/ds" +:+ "?"
          +:+ HTTP.Values_Encode
                (<["dslevel" := Profile.SUser (Datasets.session dm) +:+ ".*"]> ∅)
      ∧ HTTP.Header_Get "X-IBM-Max-Items" (HTTP.Header req)
        = if bool_decide (0 < limit) then GoStrings.Itoa limit else "0".
Proof.
  split; [reflexivity|].
  intros req.
  unfold DatasetOperations.GetDatasetsByType, DatasetManager2.ListDatasets.
  cbn [Datasets.Name Datasets.Volume Datasets.Owner Datasets.Limit String.eqb negb].
  rewrite map_size_insert_None by apply lookup_empty.
  rewrite map_size_empty. cbn [Nat.ltb Nat.leb].
  unfold HTTP.NewRequest.
  destruct (HTTP.url_Parse_error _) as [e|]; [intros Hin; inversion Hin|].
  rewrite ListDatasetsFacts.ListDatasets_log.
  intros Hin. apply list_elem_of_singleton in Hin as ->.
  set (filter := Some {| Datasets.Name := ""; Datasets.Type_ := datasetType;
                         Datasets.Volume := ""; Datasets.Owner := "";
                         Datasets.Limit := limit |}).
  split; [|split].
  - etransitivity;
      [apply (proj2 (ListDatasetsFacts.ListDatasets_request_URL _ filter _))|].
    reflexivity.
  - etransitivity;
      [apply (proj1 (ListDatasetsFacts.ListDatasets_request_URL _ filter _))|].
    cbn [HTTP.URL]. unfold Profile.GetBaseURL, Datasets.DatasetsEndpoint.
    now rewrite append_assoc.
  - apply (ListDatasetsFacts.max_items_header filter).
Qed.

(** X23. [CloneProfile] copies the name, the host, the port, the user,
    the password, the certificate check and the base path of a profile,
    and not its protocol: the copy has none. The session of the copy has
    the address the port alone decides the scheme of, [http] for the ports
    80 and 8080 and [https] for any other, whatever the protocol of the
    profile is. *)
Theorem CloneProfile_drops_protocol (profile : Profile.ZOSMFProfile) :
  let copy := ProfileUtils.CloneProfile profile in
  Profile.Name copy = Profile.Name profile
  ∧ Profile.Host copy = Profile.Host profile
  ∧ Profile.Port copy = Profile.Port profile
  ∧ Profile.User copy = Profile.User profile
  ∧ Profile.Password copy = Profile.Password profile
  ∧ Profile.RejectUnauthorized copy = Profile.RejectUnauthorized profile
  ∧ Profile.BasePath copy = Profile.BasePath profile
  ∧ Profile.Protocol copy = ""
  ∧ ∃ session,
      Profile.NewSession copy = Ok session
      ∧ Profile.BaseURL session
        = (if bool_decide (Profile.Port profile = 80 ∨ Profile.Port profile = 8080)
           then "http" else "https")
          +:+ "://" +:+ Profile.Host profile +:+ Profile.spec_port_suffix profile
          +:+ Profile.BasePath profile.
Proof.
  cbv zeta. repeat (split; [reflexivity|]).
  unfold Profile.NewSession. cbv zeta.
  eexists. split; [reflexivity|]. cbn [Profile.BaseURL].
  unfold ProfileUtils.CloneProfile.
  cbn [Profile.Protocol Profile.Port Profile.Host Profile.BasePath].
  change (String.eqb "" "") with true. cbv beta iota.
  unfold Profile.spec_port_suffix.
  rewrite !ProfileFacts.eqb_empty_decide, !ProfileFacts.Z_eqb_decide.
  repeat case_bool_decide; cbn [negb andb]; try lia; try tauto;
    rewrite ?append_assoc;
    repeat match goal with
           | H : Profile.BasePath profile = "" |- _ => rewrite H
           end;
    rewrite ?append_nil_r; reflexivity.
Qed.

Module ConfigFacts.
Import Profile HTTP ProfileManager ConfigSpec.

Lemma reread_data (profile : ZOSMFProfile) :
  reread (data_of_profile profile)
  = VMap (<["basePath" := VString (BasePath profile)]>
         (<["rejectUnauthorized" := VBool (RejectUnauthorized profile)]>
         (<["password" := VString (Password profile)]>
         (<["user" := VString (User profile)]>
         (<["port" := VFloat (GoStrings.Itoa (Port profile))]>
         (<["host" := VString (Host profile)]> ∅)))))).
Proof.
  unfold reread, data_of_profile. f_equal.
Qed.

Section Manager.
Context `{G : GoLib} `{L : ConfigLib} `{F : FileSystem}.

Lemma profile_of_reread (profile : ZOSMFProfile) :
  float64_to_int (GoStrings.Itoa (Port profile)) = Port profile →
  profile_of_data (Name profile) (reread (data_of_profile profile))
  = ProfileUtils.CloneProfile profile.
Proof.
  intros Hport. rewrite reread_data. unfold profile_of_data.
  simplify_map_eq. rewrite Hport. reflexivity.
Qed.

Lemma zosmf_section_lookup (config : ZoweConfig) (name : string) (data : value) :
  zosmf_section config !! name = Some data →
  ∃ sections zosmf,
    Profiles config = Some sections ∧ sections !! "zosmf" = Some (Some zosmf)
    ∧ zosmf !! name = Some data.
Proof.
  unfold zosmf_section. destruct (Profiles config) as [sections|]; cbn [default];
    unfold id.
  - destruct (sections !! "zosmf") as [[zosmf|]|] eqn:Hz; cbv beta iota;
      try (rewrite lookup_empty; discriminate).
    intros Hd. exists sections, zosmf. auto.
  - rewrite lookup_empty. cbv beta iota. rewrite lookup_empty. discriminate.
Qed.

Lemma GetZOSMFProfile_section (pm : ZOSMFProfileManager) (name : string)
    (fs : Files) (config : ZoweConfig) :
  loadConfig pm fs = Ok config →
  GetZOSMFProfile pm name fs
  = match default ∅ (Profiles config) !! "zosmf" with
    | None => Err "no zosmf profiles found in configuration"
    | Some _ =>
        match zosmf_section config !! name with
        | None => Err ("zosmf profile '" +:+ name +:+ "' not found")
        | Some data => Ok (profile_of_data name data)
        end
    end.
Proof.
  intros Hload. unfold GetZOSMFProfile, zosmf_section. rewrite Hload.
  destruct (default ∅ (Profiles config) !! "zosmf") as [[zosmf|]|];
    cbn [default]; try reflexivity.
Qed.

End Manager.

End ConfigFacts.

(** X24. [SaveZOSMFProfile] on a configuration that loads and has a map of
    profiles writes a configuration in which the entry of the profile's
    name among the zosmf profiles is the data of the profile, replacing
    what the entry held before; every other zosmf profile, every profile
    of another kind and the defaults are as they were loaded. *)
Theorem Save_replaces_one_entry `{G : HTTP.GoLib} `{L : ProfileManager.ConfigLib}
    `{F : ProfileManager.FileSystem}
    (pm : ProfileManager.ZOSMFProfileManager) (profile : Profile.ZOSMFProfile)
    (fs : ProfileManager.Files) (config : ProfileManager.ZoweConfig)
    (sections : gmap string (option (gmap string ProfileManager.value))) :
  ProfileManager.loadConfig pm fs = Ok config →
  ProfileManager.Profiles config = Some sections →
  ∃ written : ProfileManager.ZoweConfig,
    ProfileManager.SaveZOSMFProfile pm profile fs
    = (ProfileManager.Returned (ProfileManager.saveConfig pm written fs).1,
       (ProfileManager.saveConfig pm written fs).2)
    ∧ ProfileManager.Default written = ProfileManager.Default config
    ∧ (∀ kind, kind ≠ "zosmf" →
         default ∅ (ProfileManager.Profiles written) !! kind = sections !! kind)
    ∧ (∀ name,
         ConfigSpec.zosmf_section written !! name
         = if bool_decide (name = Profile.Name profile)
           then Some (ProfileManager.data_of_profile profile)
           else ConfigSpec.zosmf_section config !! name).
Proof.
  intros Hload Hsections.
  exists {| ProfileManager.Profiles :=
              Some (<["zosmf" :=
                       Some (<[Profile.Name profile :=
                                 ProfileManager.data_of_profile profile]>
                               (ConfigSpec.zosmf_section config))]> sections);
            ProfileManager.Default := ProfileManager.Default config |}.
  split; [|split; [reflexivity|split]].
  - unfold ProfileManager.SaveZOSMFProfile, ConfigSpec.zosmf_section.
    rewrite Hload. cbv zeta. rewrite Hsections. cbn [default]. unfold id.
    destruct (sections !! "zosmf") as [[zosmf|]|]; cbn [default]; unfold id;
      destruct (ProfileManager.saveConfig pm _ fs); reflexivity.
  - intros kind Hkind. cbn [ProfileManager.Profiles default]. unfold id.
    now rewrite lookup_insert_ne by congruence.
  - intros name. unfold ConfigSpec.zosmf_section at 1.
    cbn [ProfileManager.Profiles default]. unfold id. rewrite lookup_insert_eq.
    case_bool_decide as Hn.
    + subst name. apply lookup_insert_eq.
    + now rewrite lookup_insert_ne by congruence.
Qed.

(** X25. [SaveZOSMFProfile] on a configuration that loads but has no map
    of profiles, as that of a file that holds an empty object, panics on
    the assignment into the [nil] map and writes nothing. *)
Theorem Save_panics_without_profiles `{G : HTTP.GoLib} `{L : ProfileManager.ConfigLib}
    `{F : ProfileManager.FileSystem}
    (pm : ProfileManager.ZOSMFProfileManager) (profile : Profile.ZOSMFProfile)
    (fs : ProfileManager.Files) (config : ProfileManager.ZoweConfig) :
  ProfileManager.loadConfig pm fs = Ok config →
  ProfileManager.Profiles config = None →
  ProfileManager.SaveZOSMFProfile pm profile fs
  = (ProfileManager.Panicked "assignment to entry in nil map", fs).
Proof.
  intros Hload Hnil. unfold ProfileManager.SaveZOSMFProfile.
  rewrite Hload. cbv zeta. rewrite Hnil. reflexivity.
Qed.

(** X26. [SaveZOSMFProfile] on a configuration that does not load, whatever
    the reason (no file, a file that cannot be read, a content that is not
    a configuration), writes a configuration that holds the profile and
    nothing else: what the file held is replaced. *)
Theorem Save_replaces_unloadable_config `{G : HTTP.GoLib} `{L : ProfileManager.ConfigLib}
    `{F : ProfileManager.FileSystem}
    (pm : ProfileManager.ZOSMFProfileManager) (profile : Profile.ZOSMFProfile)
    (fs : ProfileManager.Files) (e : string) :
  ProfileManager.loadConfig pm fs = Err e →
  let written :=
    {| ProfileManager.Profiles :=
         Some {[ "zosmf" :=
                   Some {[ Profile.Name profile :=
                             ProfileManager.data_of_profile profile ]} ]};
       ProfileManager.Default := Some ∅ |} in
  ProfileManager.SaveZOSMFProfile pm profile fs
  = (ProfileManager.Returned (ProfileManager.saveConfig pm written fs).1,
     (ProfileManager.saveConfig pm written fs).2).
Proof.
  intros Hload. cbv zeta. unfold ProfileManager.SaveZOSMFProfile.
  rewrite Hload. cbv zeta. cbn [ProfileManager.Profiles default]. unfold id.
  rewrite lookup_empty. cbn [default ProfileManager.Default]. unfold id.
  rewrite !insert_empty.
  destruct (ProfileManager.saveConfig pm _ fs); reflexivity.
Qed.

(** X27. [GetZOSMFProfile] on a configuration that holds, under a
    profile's name, the data [SaveZOSMFProfile] stores for it, as it comes
    back from the file, returns the profile with its host, port, user,
    password, certificate check and base path, and with no protocol: the
    protocol of a profile is neither stored nor read. The port comes back
    when the number of the file converts to it. *)
Theorem Get_reads_saved_profile `{G : HTTP.GoLib} `{L : ProfileManager.ConfigLib}
    `{F : ProfileManager.FileSystem}
    (pm : ProfileManager.ZOSMFProfileManager) (profile : Profile.ZOSMFProfile)
    (fs : ProfileManager.Files) (config : ProfileManager.ZoweConfig) :
  ProfileManager.loadConfig pm fs = Ok config →
  ConfigSpec.zosmf_section config !! Profile.Name profile
  = Some (ConfigSpec.reread (ProfileManager.data_of_profile profile)) →
  ProfileManager.float64_to_int (GoStrings.Itoa (Profile.Port profile))
  = Profile.Port profile →
  ProfileManager.GetZOSMFProfile pm (Profile.Name profile) fs
  = Ok (ProfileUtils.CloneProfile profile).
Proof.
  intros Hload Hdata Hport.
  rewrite (ConfigFacts.GetZOSMFProfile_section pm _ fs config Hload), Hdata.
  destruct (ConfigFacts.zosmf_section_lookup config _ _ Hdata)
    as (sections & zosmf & -> & Hz & _).
  cbn [default]. unfold id. rewrite Hz. f_equal.
  now apply ConfigFacts.profile_of_reread.
Qed.

(** X28. The names [ListZOSMFProfiles] returns are exactly the names for
    which [GetZOSMFProfile] returns a profile. *)
Theorem List_names_are_those_Get_finds `{G : HTTP.GoLib} `{L : ProfileManager.ConfigLib}
    `{F : ProfileManager.FileSystem}
    (pm : ProfileManager.ZOSMFProfileManager) (fs : ProfileManager.Files)
    (names : list string) :
  ProfileManager.ListZOSMFProfiles pm fs = Ok names →
  ∀ name,
    name ∈ names ↔ ∃ profile, ProfileManager.GetZOSMFProfile pm name fs = Ok profile.
Proof.
  unfold ProfileManager.ListZOSMFProfiles, ProfileManager.GetZOSMFProfile.
  destruct (ProfileManager.loadConfig pm fs) as [config|e]; [|discriminate].
  destruct (default ∅ (ProfileManager.Profiles config) !! "zosmf") as [profiles|].
  - intros [= <-] name. rewrite list_elem_of_fmap. split.
    + intros ([k data] & -> & Hin). apply elem_of_map_to_list in Hin.
      cbn [fst]. rewrite Hin. eauto.
    + intros [profile Hget].
      destruct (default ∅ profiles !! name) as [data|] eqn:Hd; [|discriminate].
      exists (name, data). split; [reflexivity|]. now apply elem_of_map_to_list.
  - intros [= <-] name. split; [intros Hin; inversion Hin|].
    intros [profile Hget]. discriminate.
Qed.

(** X29. [DeleteZOSMFProfile] of a name that is among the zosmf profiles
    writes a configuration without that entry in which every other zosmf
    profile, every profile of another kind and the defaults are as they
    were loaded. *)
Theorem Delete_removes_one_entry `{G : HTTP.GoLib} `{L : ProfileManager.ConfigLib}
    `{F : ProfileManager.FileSystem}
    (pm : ProfileManager.ZOSMFProfileManager) (name : string)
    (fs : ProfileManager.Files) (config : ProfileManager.ZoweConfig)
    (data : ProfileManager.value) :
  ProfileManager.loadConfig pm fs = Ok config →
  ConfigSpec.zosmf_section config !! name = Some data →
  ∃ written : ProfileManager.ZoweConfig,
    ProfileManager.DeleteZOSMFProfile pm name fs
    = ProfileManager.saveConfig pm written fs
    ∧ ProfileManager.Default written = ProfileManager.Default config
    ∧ (∀ kind, kind ≠ "zosmf" →
         default ∅ (ProfileManager.Profiles written) !! kind
         = default ∅ (ProfileManager.Profiles config) !! kind)
    ∧ (∀ other,
         ConfigSpec.zosmf_section written !! other
         = if bool_decide (other = name) then None
           else ConfigSpec.zosmf_section config !! other).
Proof.
  intros Hload Hdata.
  destruct (ConfigFacts.zosmf_section_lookup config _ _ Hdata)
    as (sections & zosmf & Hs & Hz & Hn).
  exists {| ProfileManager.Profiles :=
              Some (<["zosmf" := Some (delete name zosmf)]> sections);
            ProfileManager.Default := ProfileManager.Default config |}.
  split; [|split; [reflexivity|split]].
  - unfold ProfileManager.DeleteZOSMFProfile. rewrite Hload, Hs.
    cbn [default]. unfold id. rewrite Hz. cbn [default]. unfold id.
    rewrite Hn. reflexivity.
  - intros kind Hkind. rewrite Hs. cbn [ProfileManager.Profiles default]. unfold id.
    now rewrite lookup_insert_ne by congruence.
  - intros other. unfold ConfigSpec.zosmf_section.
    rewrite Hs. cbn [ProfileManager.Profiles default]. unfold id.
    rewrite lookup_insert_eq, Hz.
    case_bool_decide as Ho.
    + subst other. apply lookup_delete_eq.
    + now rewrite lookup_delete_ne by congruence.
Qed.

(** X30. A profile [GetZOSMFProfile] returns has the name asked for and no
    protocol, whatever the file holds under the name, so the session
    [CreateSession] builds from it, and the job manager [CreateJobManager]
    builds, have the address the port alone decides the scheme of: [http]
    for the ports 80 and 8080 and [https] for any other. *)
Theorem sessions_from_configuration `{G : HTTP.GoLib} `{L : ProfileManager.ConfigLib}
    `{F : ProfileManager.FileSystem}
    (pm : ProfileManager.ZOSMFProfileManager) (name : string)
    (fs : ProfileManager.Files) (profile : Profile.ZOSMFProfile) :
  ProfileManager.GetZOSMFProfile pm name fs = Ok profile →
  Profile.Name profile = name
  ∧ Profile.Protocol profile = ""
  ∧ ∃ session,
      ProfileManager.CreateSession pm name fs = Ok session
      ∧ ProfileManager.CreateJobManager pm name fs = Ok (Jobs.NewJobManager session)
      ∧ Profile.SProfile session = Some profile
      ∧ Profile.BaseURL session
        = (if bool_decide (Profile.Port profile = 80 ∨ Profile.Port profile = 8080)
           then "http" else "https")
          +:+ "://" +:+ Profile.Host profile +:+ Profile.spec_port_suffix profile
          +:+ Profile.BasePath profile.
Proof.
  intros Hget.
  assert (Hfields : Profile.Name profile = name ∧ Profile.Protocol profile = "").
  { revert Hget. unfold ProfileManager.GetZOSMFProfile.
    destruct (ProfileManager.loadConfig pm fs) as [config|e]; [|discriminate].
    destruct (default ∅ (ProfileManager.Profiles config) !! "zosmf")
      as [profiles|]; [|discriminate].
    destruct (default ∅ profiles !! name) as [data|]; [|discriminate].
    intros [= <-]. destruct data; split; reflexivity. }
  destruct Hfields as [Hname Hproto]. split; [exact Hname|]. split; [exact Hproto|].
  unfold ProfileManager.CreateSession, ProfileManager.CreateJobManager.
  rewrite Hget. unfold Profile.NewSession. cbv zeta.
  eexists. split; [reflexivity|]. split; [reflexivity|].
  split; [reflexivity|]. cbn [Profile.BaseURL].
  rewrite Hproto. change (String.eqb "" "") with true. cbv beta iota.
  unfold Profile.spec_port_suffix.
  rewrite !ProfileFacts.eqb_empty_decide, !ProfileFacts.Z_eqb_decide.
  repeat case_bool_decide; cbn [negb andb]; try lia; try tauto;
    rewrite ?append_assoc;
    repeat match goal with
           | H : Profile.BasePath profile = "" |- _ => rewrite H
           end;
    rewrite ?append_nil_r; reflexivity.
Qed.

Module MoreExamples.
Import HTTP.

Lemma ValidateMemberName_examples :
  DatasetRequests.ValidateMemberName "MEMBER1" = None
  ∧ DatasetRequests.ValidateMemberName "A--B" = None
  ∧ DatasetRequests.ValidateMemberName "" = Some "member name cannot be empty"
  ∧ DatasetRequests.ValidateMemberName "MEMBER123"
    = Some "member name cannot exceed 8 characters"
  ∧ DatasetRequests.ValidateMemberName "member"
    = Some "member name contains invalid characters"
  ∧ DatasetRequests.ValidateMemberName "A..B"
    = Some "member name cannot contain consecutive periods"
  ∧ DatasetRequests.ValidateMemberName "A.B."
    = Some "member name cannot start or end with a period".
Proof. repeat split. Qed.

(** The two checks of dataset names differ on periods and hyphens. *)
Lemma dataset_name_checks_differ :
  JobsConvenience.isValidDatasetName ".A..B--" = true
  ∧ Datasets.ValidateDatasetName ".A..B--"
    = Some "dataset name contains invalid characters".
Proof. split; reflexivity. Qed.

Lemma CreateSimpleJobStatement_defaults :
  JobsConvenience.CreateSimpleJobStatement "" "" "" "" ""
  = "//GOJOB JOB (ACCT),'USER',MSGCLASS=A,MSGLEVEL=(1,1)"
  ∧ JobsConvenience.ValidateJobRequest (H := Mock.lib)
      (Some {| Jobs.JobStatement :=
                 JobsConvenience.CreateSimpleJobStatement "" "" "" "" "";
               Jobs.JobDataSet := ""; Jobs.JobLocalFile := ""; Jobs.Volume := "";
               Jobs.Directory := ""; Jobs.Extension := "" |}) = None.
Proof. split; reflexivity. Qed.

Lemma ValidateJobRequest_examples :
  JobsConvenience.ValidateJobRequest (H := Mock.lib) None
  = Some "job request cannot be nil"
  ∧ JobsConvenience.ValidateJobRequest (H := Mock.lib)
      (Some {| Jobs.JobStatement := "//STEP1 EXEC PGM=IEFBR14"; Jobs.JobDataSet := "";
               Jobs.JobLocalFile := ""; Jobs.Volume := ""; Jobs.Directory := "";
               Jobs.Extension := "" |})
    = Some "job statement must contain a JOB card"
  ∧ JobsConvenience.ValidateJobRequest (H := Mock.lib)
      (Some {| Jobs.JobStatement := ""; Jobs.JobDataSet := "1USER.JCL";
               Jobs.JobLocalFile := ""; Jobs.Volume := ""; Jobs.Directory := "";
               Jobs.Extension := "" |})
    = Some "invalid dataset name: 1USER.JCL".
Proof. repeat split. Qed.

(** A profile saved where there is no file is read back, but for its
protocol; the file lists it. *)
Lemma saved_profile_read_back :
  ProfileManager.GetZOSMFProfile (G := Mock.lib) (L := MockConfig.lib) (F := MockConfig.files)
    MockConfig.manager "test" MockConfig.saved
  = Ok (ProfileUtils.CloneProfile Mock.profile)
  ∧ ProfileManager.ListZOSMFProfiles (G := Mock.lib) (L := MockConfig.lib) (F := MockConfig.files)
      MockConfig.manager MockConfig.saved = Ok ["test"]
  ∧ ProfileManager.GetZOSMFProfile (G := Mock.lib) (L := MockConfig.lib) (F := MockConfig.files)
      MockConfig.manager "other" MockConfig.saved
    = Err "zosmf profile 'other' not found".
Proof. repeat split; vm_compute; reflexivity. Qed.

(** The requests of the default session ask for JSON. *)
Lemma default_session_headers :
  Header_Get "accept"
    (Header (RequestsSpec.plain_request Mock.session "GET" "https://zos/" None))
  = "application/json"
  ∧ Header_Get "Content-Type"
      (Header (RequestsSpec.plain_request Mock.session "GET" "https://zos/" None))
    = "application/json".
Proof. split; vm_compute; reflexivity. Qed.

End MoreExamples.

Lemma dataset_name_valid_for_jobs_witness :
  Datasets.ValidateDatasetName "USER.JCL" = None
  ∧ JobsConvenience.isValidDatasetName "USER.JCL" = true.
Proof.
  split; [reflexivity|]. apply dataset_name_valid_for_jobs. reflexivity.
Defined.

Lemma validated_request_has_source_witness :
  JobsConvenience.ValidateJobRequest (H := Mock.lib) (Some Mock.dataset_request) = None
  ∧ ∃ src body,
      JobsSpec.chosen_source Mock.dataset_request = Some src
      ∧ (∀ key, body !! key = JobsSpec.body_field src Mock.dataset_request key)
      ∧ Jobs.SubmitJob (G := Mock.lib) (R := Mock.scripted 0) (T := Mock.types)
          Mock.job_manager Mock.dataset_request ([Mock.submitted], 0)
        = JobsSpec.send_job_body (G := Mock.lib) (R := Mock.scripted 0)
            (T := Mock.types) Mock.job_manager body ([Mock.submitted], 0).
Proof.
  split; [reflexivity|].
  apply (validated_request_has_source (G := Mock.lib) (T := Mock.types)
           (Mock.scripted 0) Mock.job_manager Mock.dataset_request).
  reflexivity.
Defined.

(** Saving beside a profile of another kind keeps that profile. *)
Lemma Save_replaces_one_entry_witness :
  ProfileManager.loadConfig (G := Mock.lib) (L := MockConfig.lib) (F := MockConfig.files)
    MockConfig.manager MockConfig.other_kind
  = Ok (MockConfig.loaded MockConfig.other_kind)
  ∧ ∃ written : ProfileManager.ZoweConfig,
      ProfileManager.SaveZOSMFProfile (G := Mock.lib) (L := MockConfig.lib) (F := MockConfig.files)
        MockConfig.manager Mock.profile MockConfig.other_kind
      = (ProfileManager.Returned
           (ProfileManager.saveConfig (L := MockConfig.lib) (F := MockConfig.files) MockConfig.manager
              written MockConfig.other_kind).1,
         (ProfileManager.saveConfig (L := MockConfig.lib) (F := MockConfig.files) MockConfig.manager
            written MockConfig.other_kind).2)
      ∧ ProfileManager.Default written
        = ProfileManager.Default (MockConfig.loaded MockConfig.other_kind)
      ∧ (∀ kind, kind ≠ "zosmf" →
           default ∅ (ProfileManager.Profiles written) !! kind
           = default ∅ (ProfileManager.Profiles
                          (MockConfig.loaded MockConfig.other_kind)) !! kind)
      ∧ (∀ name,
           ConfigSpec.zosmf_section written !! name
           = if bool_decide (name = Profile.Name Mock.profile)
             then Some (ProfileManager.data_of_profile Mock.profile)
             else ConfigSpec.zosmf_section
                    (MockConfig.loaded MockConfig.other_kind) !! name).
Proof.
  split; [vm_compute; reflexivity|].
  apply (Save_replaces_one_entry (G := Mock.lib) (L := MockConfig.lib) (F := MockConfig.files)
           MockConfig.manager Mock.profile MockConfig.other_kind
           (MockConfig.loaded MockConfig.other_kind)
           (default ∅ (ProfileManager.Profiles
                         (MockConfig.loaded MockConfig.other_kind))));
    vm_compute; reflexivity.
Defined.

(** A file that holds an empty object makes the call panic. *)
Lemma Save_panics_without_profiles_witness :
  ProfileManager.Profiles (MockConfig.loaded MockConfig.empty_object) = None
  ∧ ProfileManager.SaveZOSMFProfile (G := Mock.lib) (L := MockConfig.lib) (F := MockConfig.files)
      MockConfig.manager Mock.profile MockConfig.empty_object
    = (ProfileManager.Panicked "assignment to entry in nil map",
       MockConfig.empty_object).
Proof.
  split; [vm_compute; reflexivity|].
  apply (Save_panics_without_profiles (G := Mock.lib) (L := MockConfig.lib) (F := MockConfig.files)
           MockConfig.manager Mock.profile MockConfig.empty_object
           (MockConfig.loaded MockConfig.empty_object));
    vm_compute; reflexivity.
Defined.

(** A file that is not JSON is replaced. *)
Lemma Save_replaces_unloadable_config_witness :
  ProfileManager.loadConfig (G := Mock.lib) (L := MockConfig.lib) (F := MockConfig.files)
    MockConfig.manager MockConfig.not_json
  = Err "failed to unmarshal config: invalid JSON"
  ∧ ProfileManager.SaveZOSMFProfile (G := Mock.lib) (L := MockConfig.lib) (F := MockConfig.files)
      MockConfig.manager Mock.profile MockConfig.not_json
    = (ProfileManager.Returned
         (ProfileManager.saveConfig (L := MockConfig.lib) (F := MockConfig.files) MockConfig.manager
            {| ProfileManager.Profiles :=
                 Some {[ "zosmf" :=
                           Some {[ Profile.Name Mock.profile :=
                                     ProfileManager.data_of_profile Mock.profile ]} ]};
               ProfileManager.Default := Some ∅ |} MockConfig.not_json).1,
       (ProfileManager.saveConfig (L := MockConfig.lib) (F := MockConfig.files) MockConfig.manager
          {| ProfileManager.Profiles :=
               Some {[ "zosmf" :=
                         Some {[ Profile.Name Mock.profile :=
                                   ProfileManager.data_of_profile Mock.profile ]} ]};
             ProfileManager.Default := Some ∅ |} MockConfig.not_json).2).
Proof.
  split; [vm_compute; reflexivity|].
  apply (Save_replaces_unloadable_config (G := Mock.lib) (L := MockConfig.lib) (F := MockConfig.files)
           MockConfig.manager Mock.profile MockConfig.not_json
           "failed to unmarshal config: invalid JSON").
  vm_compute; reflexivity.
Defined.

(** The profile saved where there was no file is read back. *)
Lemma Get_reads_saved_profile_witness :
  ConfigSpec.zosmf_section (MockConfig.loaded MockConfig.saved)
  !! Profile.Name Mock.profile
  = Some (ConfigSpec.reread (ProfileManager.data_of_profile Mock.profile))
  ∧ ProfileManager.GetZOSMFProfile (G := Mock.lib) (L := MockConfig.lib) (F := MockConfig.files)
      MockConfig.manager (Profile.Name Mock.profile) MockConfig.saved
    = Ok (ProfileUtils.CloneProfile Mock.profile).
Proof.
  split; [vm_compute; reflexivity|].
  apply (Get_reads_saved_profile (G := Mock.lib) (L := MockConfig.lib) (F := MockConfig.files)
           MockConfig.manager Mock.profile MockConfig.saved
           (MockConfig.loaded MockConfig.saved));
    vm_compute; reflexivity.
Defined.

Lemma List_names_are_those_Get_finds_witness :
  ProfileManager.ListZOSMFProfiles (G := Mock.lib) (L := MockConfig.lib) (F := MockConfig.files)
    MockConfig.manager MockConfig.saved = Ok ["test"]
  ∧ ∀ name,
      name ∈ ["test"] ↔
      ∃ profile,
        ProfileManager.GetZOSMFProfile (G := Mock.lib) (L := MockConfig.lib) (F := MockConfig.files)
          MockConfig.manager name MockConfig.saved = Ok profile.
Proof.
  split; [vm_compute; reflexivity|].
  apply (List_names_are_those_Get_finds (G := Mock.lib) (L := MockConfig.lib) (F := MockConfig.files)
           MockConfig.manager MockConfig.saved ["test"]).
  vm_compute; reflexivity.
Defined.

(** Deleting the profile saved where there was no file leaves no zosmf
profile. *)
Lemma Delete_removes_one_entry_witness :
  ConfigSpec.zosmf_section (MockConfig.loaded MockConfig.saved) !! "test"
  = Some (ConfigSpec.reread (ProfileManager.data_of_profile Mock.profile))
  ∧ ∃ written : ProfileManager.ZoweConfig,
      ProfileManager.DeleteZOSMFProfile (G := Mock.lib) (L := MockConfig.lib) (F := MockConfig.files)
        MockConfig.manager "test" MockConfig.saved
      = ProfileManager.saveConfig (L := MockConfig.lib) (F := MockConfig.files) MockConfig.manager written
          MockConfig.saved
      ∧ ProfileManager.Default written
        = ProfileManager.Default (MockConfig.loaded MockConfig.saved)
      ∧ (∀ kind, kind ≠ "zosmf" →
           default ∅ (ProfileManager.Profiles written) !! kind
           = default ∅ (ProfileManager.Profiles
                          (MockConfig.loaded MockConfig.saved)) !! kind)
      ∧ (∀ other,
           ConfigSpec.zosmf_section written !! other
           = if bool_decide (other = "test") then None
             else ConfigSpec.zosmf_section (MockConfig.loaded MockConfig.saved)
                  !! other).
Proof.
  split; [vm_compute; reflexivity|].
  apply (Delete_removes_one_entry (G := Mock.lib) (L := MockConfig.lib) (F := MockConfig.files)
           MockConfig.manager "test" MockConfig.saved
           (MockConfig.loaded MockConfig.saved)
           (ConfigSpec.reread (ProfileManager.data_of_profile Mock.profile)));
    vm_compute; reflexivity.
Defined.

(** The session of the profile saved where there was no file. *)
Lemma sessions_from_configuration_witness :
  ProfileManager.GetZOSMFProfile (G := Mock.lib) (L := MockConfig.lib) (F := MockConfig.files)
    MockConfig.manager "test" MockConfig.saved
  = Ok (ProfileUtils.CloneProfile Mock.profile)
  ∧ ∃ session,
      ProfileManager.CreateSession (G := Mock.lib) (L := MockConfig.lib) (F := MockConfig.files)
        MockConfig.manager "test" MockConfig.saved = Ok session
      ∧ Profile.BaseURL session = "https://zos.example.com:10443/zosmf".
Proof.
  split; [vm_compute; reflexivity|].
  destruct (sessions_from_configuration (G := Mock.lib) (L := MockConfig.lib) (F := MockConfig.files)
              MockConfig.manager "test" MockConfig.saved
              (ProfileUtils.CloneProfile Mock.profile))
    as (_ & _ & session & Hs & _ & _ & Hurl); [vm_compute; reflexivity|].
  exists session. split; [exact Hs|]. rewrite Hurl. vm_compute. reflexivity.
Defined.
